(** * BatchSignerTool: the batch-signing helpers of the CLI and of the web form

    A shallow embedding of [batchSignerTool.js], [script.js],
    [accountSetup.js] and [devnet.js].  The program works on the result of
    [JSON.parse], so the data model is the JSON value tree, read through
    the handful of JavaScript operations the source applies to it: property
    reads, truthiness, [typeof], [===] against a string and the numeric
    coercions behind [&] and [>].

    Modules [JS], [Cli] and [Web] hold the values and the two programs,
    [Heap] the objects as the programs share and copy them, [Protocol] the
    commitment and the merge that the programs leave to the xrpl package.
    The rest of the command-line tool is in [Roles], [Multi], [Workflow],
    [Launcher] and [TestMode], the example files of the setup script in
    [Setup], the state of the web form in [Form] and the demo in [Demo].
    The facts follow in [CliFacts], [WebFacts], [SelfCommitment],
    [HeapFacts] and [ProtocolFacts], then in one module of facts for each
    of the other modules. *)

From Stdlib Require Import ZArith Ascii String List Bool Lia.
From Stdlib Require QArith.
From stdpp Require Import base option list strings gmap sorting pretty.

Local Open Scope string_scope.
Local Open Scope Z_scope.
Local Open Scope list_scope.

(** ** JavaScript values *)

Module JS.

(** A JavaScript number.  A finite double is a rational, so the finite
    numbers are embedded in [Q]; [-0] is not told apart from [0] (no
    operation of the program distinguishes them). *)
Inductive number :=
| NaN
| PosInf
| NegInf
| Fin (q : QArith_base.Q).

Inductive prim :=
| PUndefined
| PNull
| PBool (b : bool)
| PNum (n : number)
| PStr (s : string).

(** A value as [JSON.parse] builds it, plus [undefined], which a property
    read yields for an absent property.  An object is the list of its own
    properties in insertion order, keys pairwise distinct (on a repeated
    key [JSON.parse] keeps one property). A string is the sequence of its
    code units. *)
#[warnings="-register-all"]
Inductive value :=
| JPrim (p : prim)
| JArr (elems : list value)
| JObj (props : list (string * value)).

Abbreviation JUndefined := (JPrim PUndefined).
Abbreviation JNull := (JPrim PNull).
Abbreviation JBool b := (JPrim (PBool b)).
Abbreviation JNum n := (JPrim (PNum n)).
Abbreviation JStr s := (JPrim (PStr s)).

Definition of_Z (z : Z) : number := Fin (QArith_base.inject_Z z).
Definition of_nat (n : nat) : number := of_Z (Z.of_nat n).
Abbreviation JInt z := (JPrim (PNum (of_Z z))).

(** [ToBoolean]. *)
Definition truthy (v : value) : bool :=
  match v with
  | JPrim PUndefined | JPrim PNull => false
  | JPrim (PBool b) => b
  | JPrim (PNum NaN) => false
  | JPrim (PNum (Fin q)) => negb (Z.eqb (QArith_base.Qnum q) 0)
  | JPrim (PNum _) => true
  | JPrim (PStr s) => negb (String.eqb s "")
  | JArr _ | JObj _ => true
  end.

(** The [typeof] operator. *)
Definition typeof (v : value) : string :=
  match v with
  | JPrim PUndefined => "undefined"
  | JPrim PNull => "object"
  | JPrim (PBool _) => "boolean"
  | JPrim (PNum _) => "number"
  | JPrim (PStr _) => "string"
  | JArr _ | JObj _ => "object"
  end.

(** [v === s] for a string [s]: no coercion, only a string equals a string. *)
Definition strict_eq_str (v : value) (s : string) : bool :=
  match v with
  | JPrim (PStr s') => String.eqb s' s
  | _ => false
  end.

Definition own_prop (k : string) (o : list (string * value)) : value :=
  match find (fun kv => String.eqb (fst kv) k) o with
  | Some kv => snd kv
  | None => JUndefined
  end.

(** The property read [v.k], for the names the program reads
    ([TransactionType], [Account], [RawTransactions], [RawTransaction],
    [BatchSigners], [BatchSigner], [Fee], [SigningPubKey], [TxnSignature],
    [Flags], [length]): none is an index, and the only one a prototype
    supplies is [length] of strings and arrays.  [None] is the [TypeError]
    of a read on [undefined] or [null]. *)
Definition get (v : value) (k : string) : option value :=
  match v with
  | JPrim PUndefined | JPrim PNull => None
  | JPrim (PStr s) =>
      Some (if String.eqb k "length" then JNum (of_nat (String.length s)) else JUndefined)
  | JPrim _ => Some JUndefined
  | JArr l =>
      Some (if String.eqb k "length" then JNum (of_nat (List.length l)) else JUndefined)
  | JObj o => Some (own_prop k o)
  end.

(** The optional read [v?.k]: [undefined] instead of a [TypeError]. *)
Definition get_opt (v : value) (k : string) : value :=
  match get v k with Some x => x | None => JUndefined end.

(** [ToInt32] of a number: truncate towards zero, wrap modulo [2^32] into
    the signed range; [NaN] and the infinities give [0]. *)
Definition wrap32 (z : Z) : Z := (z + 2^31) mod 2^32 - 2^31.

Definition Qtrunc (q : QArith_base.Q) : Z :=
  Z.quot (QArith_base.Qnum q) (Z.pos (QArith_base.Qden q)).

Definition number_to_int32 (n : number) : Z :=
  match n with
  | Fin q => wrap32 (Qtrunc q)
  | _ => 0
  end.

(** [n > 0] on numbers. *)
Definition number_gt0 (n : number) : bool :=
  match n with
  | PosInf => true
  | Fin q => Z.ltb 0 (QArith_base.Qnum q)
  | _ => false
  end.

Section Coercions.
(** The engine's conversions of non-numbers: [StringToNumber] (decimal,
    hexadecimal, exponent and white-space forms) and the text an array
    converts to ([Array.prototype.join]).  The program leaves them to the
    engine; nothing below depends on what they compute. *)
Variable StringToNumber : string -> number.
Variable ArrayToString : list value -> string.

(** [ToNumber]. *)
Definition to_number (v : value) : number :=
  match v with
  | JPrim PUndefined => NaN
  | JPrim PNull => of_Z 0
  | JPrim (PBool b) => of_Z (if b then 1 else 0)
  | JPrim (PNum n) => n
  | JPrim (PStr s) => StringToNumber s
  | JArr l => StringToNumber (ArrayToString l)
  | JObj _ => NaN
  end.

(** [v & m] for a 32-bit mask [m]. *)
Definition bit_and (v : value) (m : Z) : Z :=
  Z.land (number_to_int32 (to_number v)) m.

(** [v > 0]. *)
Definition gt0 (v : value) : bool := number_gt0 (to_number v).
End Coercions.

(** [{ ...o, k: v }] and [o.k = v] on the property list: [k] takes its new
    value in place, or is added last. *)
Fixpoint set_prop {V : Type} (k : string) (v : V) (o : list (string * V))
  : list (string * V) :=
  match o with
  | [] => [(k, v)]
  | (k', v') :: o' =>
      if String.eqb k' k then (k, v) :: o' else (k', v') :: set_prop k v o'
  end.

(** *** The JSON round trip *)

Definition is_undefined (v : value) : bool :=
  match v with JPrim PUndefined => true | _ => false end.

Section JsonProps.
Variable f : value -> value.

(** The properties [JSON.stringify] writes: one whose value is
    [undefined] is left out. *)
Fixpoint json_props (o : list (string * value)) : list (string * value) :=
  match o with
  | [] => []
  | (k, x) :: o' =>
      if is_undefined x then json_props o' else (k, f x) :: json_props o'
  end.
End JsonProps.

(** [JSON.parse(JSON.stringify(v))] for a [v] that is written ([undefined]
    itself is not): the copy the form and the demo sign, and what a file
    written from [v] holds when it is loaded again.  [undefined] in an
    array and the numbers that are not finite come back as [null]. *)
Fixpoint json_value (v : value) : value :=
  match v with
  | JPrim PUndefined => JNull
  | JPrim (PNum (Fin q)) => v
  | JPrim (PNum _) => JNull
  | JPrim _ => v
  | JArr l => JArr (List.map json_value l)
  | JObj o => JObj (json_props json_value o)
  end.

End JS.

Import JS.

(** ** What the xrpl library hands to the program *)

Module Xrpl.

(** The wallet [xrpl.Wallet.fromSeed] returns; the program reads its
    [address]. *)
Record wallet := { address : string; publicKey : string; privateKey : string }.

End Xrpl.

Import Xrpl.

(** ** Results of code that may throw *)

Inductive result (E A : Type) :=
| Ok (a : A)
| Throw (e : E).
Arguments Ok {E A} a.
Arguments Throw {E A} e.

Definition bind {E A B} (m : result E A) (f : A -> result E B) : result E B :=
  match m with
  | Ok a => f a
  | Throw e => Throw e
  end.

Notation "'let*' x ':=' m 'in' k" := (bind m (fun x => k))
  (at level 10, x name, m at level 100, k at level 200, only parsing).

(** [arr.map(f)] and [arr.forEach(f)] for an [f] that may throw: left to
    right, the first throw ends the loop.  [f] receives the index too. *)
Fixpoint map_from {E A B} (f : nat -> A -> result E B) (i : nat) (l : list A)
  : result E (list B) :=
  match l with
  | [] => Ok []
  | x :: l' => let* y := f i x in let* ys := map_from f (S i) l' in Ok (y :: ys)
  end.

Definition map_result {E A B} (f : A -> result E B) (l : list A) : result E (list B) :=
  map_from (fun _ => f) 0%nat l.

(** ** batchSignerTool.js: the command-line tool *)

Module Cli.

(** What the tool throws.  Each constructor stands for one [Error] of the
    source, the message given next to it. *)
Inductive error :=
| NotAnObject          (* 'Invalid batch transaction: must be a valid JSON object' *)
| NotABatch            (* 'Invalid batch transaction: TransactionType must be "Batch"' *)
| NoRawTransactions    (* 'Invalid batch transaction: must contain RawTransactions array' *)
| SeedNotString        (* 'Invalid seed: must be a string' *)
| SeedPrefix           (* 'Invalid seed: must start with "s"' *)
| SeedTooShort         (* 'Invalid seed: too short' *)
| SubmitterIsSigner (signer : string) (involved : nat)
                       (* 'Error: Account <signer> is the batch submitter (parent account)',
                          continued with ' AND is also submitting <involved> inner
                          transaction(s) in the batch.' when [involved] is not 0 *)
| TypeError            (* raised by the engine: read of a property of undefined or
                          null, or call of something that is not a function *)
| External (msg : string).  (* thrown inside the xrpl library *)

Abbreviation result := (result error).

(** A property read that raises [TypeError] on [undefined] and [null]. *)
Definition read (v : value) (k : string) : result value :=
  match get v k with
  | Some x => Ok x
  | None => Throw TypeError
  end.

(** [validateBatchTransaction(batchTx)]. *)
Definition validateBatchTransaction (batchTx : value) : result bool :=
  if negb (truthy batchTx) || negb (String.eqb (typeof batchTx) "object")
  then Throw NotAnObject
  else
    let* tt := read batchTx "TransactionType" in
    if negb (strict_eq_str tt "Batch") then Throw NotABatch
    else
      let* raw := read batchTx "RawTransactions" in
      match raw with
      | JArr l =>
          if Nat.eqb (List.length l) 0 then Throw NoRawTransactions else Ok true
      | _ => Throw NoRawTransactions
      end.

(** [validateSeed(seed)]. *)
Definition validateSeed (seed : value) : result bool :=
  if negb (truthy seed) || negb (String.eqb (typeof seed) "string")
  then Throw SeedNotString
  else
    match seed with
    | JPrim (PStr s) =>
        if negb (String.prefix "s" s) then Throw SeedPrefix
        else if Nat.ltb (String.length s) 25 then Throw SeedTooShort
        else Ok true
    | _ => Throw SeedNotString
    end.

(** What [checkSignerInvolvement] prints. *)
Inductive console :=
| WarnNotInvolved (signer : string)
    (* console.warn: 'Warning: Signer account <signer> is not submitting any
       transactions in this batch.' *)
| WarnMayNotBeRequired
    (* console.warn: '   This signature may not be required.' *)
| LogInvolved (signer : string) (n : nat).
    (* console.log: 'Signer account <signer> is submitting <n> transaction(s)
       in this batch.' *)

(** [batchTx.RawTransactions.map(rawTx => rawTx.RawTransaction.Account)];
    calling [map] on anything but an array is a [TypeError]. *)
Definition inner_accounts (batchTx : value) : result (list value) :=
  let* raw := read batchTx "RawTransactions" in
  match raw with
  | JArr l =>
      map_result (fun rawTx => let* tx := read rawTx "RawTransaction" in read tx "Account") l
  | _ => Throw TypeError
  end.

(** [checkSignerInvolvement(batchTx, signerAddress)]: the lines printed, or
    the error thrown. *)
Definition checkSignerInvolvement (batchTx : value) (signerAddress : string)
  : result (list console) :=
  let* accounts := inner_accounts batchTx in
  let involvedAccounts :=
    List.filter (fun account => strict_eq_str account signerAddress) accounts in
  let* account := read batchTx "Account" in
  if strict_eq_str account signerAddress
  then Throw (SubmitterIsSigner signerAddress (List.length involvedAccounts))
  else if Nat.eqb (List.length involvedAccounts) 0
  then Ok [WarnNotInvolved signerAddress; WarnMayNotBeRequired]
  else Ok [LogInvolved signerAddress (List.length involvedAccounts)].

(** *** [generateBatchSignature]: validate, derive the wallet, check, sign *)

(** What an observer sees of one run: console lines and the calls into the
    signing library. *)
Inductive event :=
| LogAddress (a : string)          (* console.log: 'Signer Address: <a>' *)
| Printed (c : console)            (* a line of [checkSignerInvolvement] *)
| Signing (w : wallet) (tx : value) (* the call signMultiBatch(w, tx, options) *)
| LogOutput (v : value)            (* console.log: the success banner, the JSON text
                                      of [v] and the three instructions *)
| ErrorLine (e : error).           (* console.error with the message of [e] *)

(** How a run ends: the returned object, the rethrown error, or
    [process.exit(code)]. *)
Inductive outcome :=
| Returned (v : value)
| Rethrown (e : error)
| Exited (code : Z).

(** A computation that prints while it runs. *)
Definition traced (A : Type) : Type := list event * result A.

Definition lift {A} (r : result A) : traced A := ([], r).
Definition emit (evs : list event) : traced unit := (evs, Ok tt).

Definition bindT {A B} (m : traced A) (f : A -> traced B) : traced B :=
  let '(printed, r) := m in
  match r with
  | Ok a => let '(more, r') := f a in (printed ++ more, r')
  | Throw e => (printed, Throw e)
  end.

Notation "'do' x '<-' m ';' k" := (bindT m (fun x => k))
  (at level 10, x name, m at level 100, k at level 200, only parsing).

(** [arr[0]]: the first element of an array, a one-character string of a
    string, the property named 0 of an object. *)
Definition index0 (v : value) : result value :=
  match v with
  | JPrim PUndefined | JPrim PNull => Throw TypeError
  | JArr (x :: _) => Ok x
  | JPrim (PStr (String c _)) => Ok (JStr (String c EmptyString))
  | JObj o => Ok (own_prop "0" o)
  | _ => Ok JUndefined
  end.

(** [error.message.includes('batch submitter (parent account)')]: the text
    is part of the message of [SubmitterIsSigner] and of no other message of
    the tool; a message of the library is searched. *)
Fixpoint includes (needle hay : string) : bool :=
  String.prefix needle hay ||
  match hay with
  | EmptyString => false
  | String _ hay' => includes needle hay'
  end.

Definition is_submitter_message (e : error) : bool :=
  match e with
  | SubmitterIsSigner _ _ => true
  | External msg => includes "batch submitter (parent account)" msg
  | _ => false
  end.

(** The [options] object of a signing call, which the tool hands on to
    [signMultiBatch] as it is: [{}] when [None], [{ batchAccount }] for the
    account the caller wants the signature to be for (the prompt: 'batch
    account (optional, press enter to use signer address)'). *)
Definition sign_options : Type := option value.

Section GenerateBatchSignature.
(** The two calls into the xrpl library.  [fromSeed] derives the wallet
    or throws.  [signMultiBatch(wallet, tx, options)] returns nothing: it
    stores the signer array in [tx.BatchSigners], or throws; the model
    returns the value it stores. *)
Variable fromSeed : value -> result wallet.
Variable signMultiBatch : wallet -> value -> sign_options -> result value.

(** The body of the [try].  The checks read [signerWallet.address]; they
    do not read [options]. *)
Definition signature_body (batchTx signerSeed : value) (options : sign_options)
  : traced value :=
  do _ <- lift (validateBatchTransaction batchTx);
  do _ <- lift (validateSeed signerSeed);
  do signerWallet <- lift (fromSeed signerSeed);
  do _ <- emit [LogAddress (address signerWallet)];
  do lines <- lift (checkSignerInvolvement batchTx (address signerWallet));
  do _ <- emit (List.map Printed lines);
  let txToSign := batchTx in   (* { ...batchTx }: same properties *)
  do _ <- emit [Signing signerWallet txToSign];
  do signers <- lift (signMultiBatch signerWallet txToSign options);
  do batchSigner <- lift (index0 signers);
  do inner <- lift (read batchSigner "BatchSigner");
  let formattedOutput := JObj [("BatchSigner", inner)] in
  do _ <- emit [LogOutput formattedOutput];
  lift (Ok formattedOutput).

(** [generateBatchSignature(batchTx, signerSeed, options)], with its
    [catch]: the submitter error is printed and the process exits with
    status 1, any other error is printed and rethrown. *)
Definition generateBatchSignature (batchTx signerSeed : value) (options : sign_options)
  : list event * outcome :=
  let run := signature_body batchTx signerSeed options in
  match snd run with
  | Ok v => (fst run, Returned v)
  | Throw e =>
      if is_submitter_message e
      then (fst run ++ [ErrorLine e], Exited 1)
      else (fst run ++ [ErrorLine e], Rethrown e)
  end.
End GenerateBatchSignature.

Definition is_signing (ev : event) : bool :=
  match ev with Signing _ _ => true | _ => false end.

End Cli.

(** ** script.js: the web form *)

Module Web.

(** The errors of the form; each ends in the validation line or in an
    [alert]. *)
Inductive error :=
| NotABatch                    (* 'TransactionType must be "Batch"' *)
| NoAccount                    (* 'Missing or invalid outer "Account" field' *)
| BadRawTransactions           (* 'RawTransactions must be an array with 2-8 items' *)
| HasBatchSigners              (* 'Remove existing BatchSigners array - this tool
                                  adds one signer at a time' *)
| InvalidRawTransaction (i : nat)   (* 'RawTransactions[i]: Invalid RawTransaction' *)
| FeeNotZero (i : nat)              (* 'RawTransactions[i]: Fee must be "0"' *)
| SigningPubKeyNotEmpty (i : nat)   (* 'RawTransactions[i]: SigningPubKey must be empty' *)
| TxnSignaturePresent (i : nat)     (* 'RawTransactions[i]: TxnSignature not allowed' *)
| MissingInnerFlag (i : nat)        (* 'RawTransactions[i]: Missing tfInnerBatchTxn flag' *)
| SeedMatchesAccount           (* 'Seed matches outer Batch Account - use an inner
                                  account seed' *)
| Cancelled                    (* 'Cancelled' *)
| NoBatchSigner                (* 'No BatchSigner generated' *)
| TypeError                    (* raised by the engine *)
| External (msg : string).     (* thrown inside the xrpl library *)

Abbreviation result := (result error).

Definition read (v : value) (k : string) : result value :=
  match get v k with
  | Some x => Ok x
  | None => Throw TypeError
  end.

(** The mask [0x40000000] of the inner-transaction flag. *)
Definition tfInnerBatchTxn : Z := 0x40000000.

Section Validation.
Variable StringToNumber : string -> number.
Variable ArrayToString : list value -> string.

(** The body of [parsed.RawTransactions.forEach((entry, i) => ...)]. *)
Definition check_entry (i : nat) (entry : value) : result unit :=
  let* tx := read entry "RawTransaction" in
  if negb (truthy tx) || negb (String.eqb (typeof tx) "object")
  then Throw (InvalidRawTransaction i)
  else
    let* fee := read tx "Fee" in
    if negb (strict_eq_str fee "0") then Throw (FeeNotZero i)
    else
      let* key := read tx "SigningPubKey" in
      if truthy key && negb (strict_eq_str key "") then Throw (SigningPubKeyNotEmpty i)
      else
        let* sig := read tx "TxnSignature" in
        if truthy sig then Throw (TxnSignaturePresent i)
        else
          let* flags := read tx "Flags" in
          if Z.eqb (bit_and StringToNumber ArrayToString flags tfInnerBatchTxn) 0
          then Throw (MissingInnerFlag i)
          else Ok tt.

(** The [input] handler of the template field, from [JSON.parse]'s result
    on: [Ok parsed] stores [parsed] in [batchTemplate], [Throw e] stores
    [null] and shows the message of [e]. *)
Definition validateTemplate (parsed : value) : result value :=
  let* kind := read parsed "TransactionType" in
  if negb (strict_eq_str kind "Batch") then Throw NotABatch
  else
    let* account := read parsed "Account" in
    if negb (truthy account) || negb (String.eqb (typeof account) "string")
    then Throw NoAccount
    else
      let* raw := read parsed "RawTransactions" in
      match raw with
      | JArr entries =>
          if Nat.ltb (List.length entries) 2 || Nat.ltb 8 (List.length entries)
          then Throw BadRawTransactions
          else
            let* signers := read parsed "BatchSigners" in
            if truthy signers &&
               gt0 StringToNumber ArrayToString (get_opt signers "length")
            then Throw HasBatchSigners
            else
              let* _ := map_from check_entry 0%nat entries in
              Ok parsed
      | _ => Throw BadRawTransactions
      end.
End Validation.

(** *** The click handler of the Generate button *)

Inductive event :=
| Confirm                        (* the dialog 'Your address not in any inner txn -
                                    proceed anyway?' *)
| Signing (w : wallet) (tx : value)   (* the call xrpl.signMultiBatch(w, tx) *)
| Alert (e : error).             (* alert('Error:' + message) *)

(** The three texts the handler shows on success. *)
Record outputs := {
  signerOutput : value;          (* { BatchSigner: entry } *)
  batchSignersOutput : value;    (* [ { BatchSigner: entry } ] *)
  fullBatchOutput : value        (* { ...batchTemplate, BatchSigners: signersArray } *)
}.

Definition traced (A : Type) : Type := list event * result A.

Definition lift {A} (r : result A) : traced A := ([], r).
Definition emit (evs : list event) : traced unit := (evs, Ok tt).

Definition bindT {A B} (m : traced A) (f : A -> traced B) : traced B :=
  let '(printed, r) := m in
  match r with
  | Ok a => let '(more, r') := f a in (printed ++ more, r')
  | Throw e => (printed, Throw e)
  end.

Notation "'do' x '<-' m ';' k" := (bindT m (fun x => k))
  (at level 10, x name, m at level 100, k at level 200, only parsing).

(** The spread of a value into an object literal: own properties of an
    object; an array spreads its indices and a string its characters, which
    a validated template never is. *)
Definition spread_with (k : string) (v : value) (t : value) : value :=
  match t with
  | JObj o => JObj (set_prop k v o)
  | _ => JObj [(k, v)]
  end.

(** [arr.some(f)] for an [f] that may throw. *)
Fixpoint some_result {A} (f : A -> result bool) (l : list A) : result bool :=
  match l with
  | [] => Ok false
  | x :: l' => let* b := f x in if b then Ok true else some_result f l'
  end.

Definition index0 (v : value) : result value :=
  match v with
  | JPrim PUndefined | JPrim PNull => Throw TypeError
  | JArr (x :: _) => Ok x
  | JPrim (PStr (String c _)) => Ok (JStr (String c EmptyString))
  | JObj o => Ok (own_prop "0" o)
  | _ => Ok JUndefined
  end.

(** [v.length !== 1]. *)
Definition length_is_not_1 (v : value) : bool :=
  match get_opt v "length" with
  | JPrim (PNum (Fin q)) =>
      negb (Z.eqb (QArith_base.Qnum q) (Z.pos (QArith_base.Qden q)))
  | _ => true
  end.

Section Generate.
(** [signMultiBatch] as in the command-line tool: the value it leaves in
    [BatchSigners] of the copy, or the error it throws.  [confirm] is the
    user's answer to the dialog.  The library is handed the JSON copy of
    the template; the full batch that is shown is built from the template
    itself. *)
Variable signMultiBatch : wallet -> value -> result value.
Variable confirm : bool.

Definition generate_body (batchTemplate : value) (w : wallet) : traced outputs :=
  let signerAddress := address w in
  do account <- lift (read batchTemplate "Account");
  if strict_eq_str account signerAddress then lift (Throw SeedMatchesAccount)
  else
    do raw <- lift (read batchTemplate "RawTransactions");
    do involved <- lift (match raw with
                         | JArr entries =>
                             some_result (fun e =>
                               let* tx := read e "RawTransaction" in
                               Ok (strict_eq_str (get_opt tx "Account") signerAddress))
                               entries
                         | _ => Throw TypeError
                         end);
    do proceed <- (if involved then lift (Ok true) else ([Confirm], Ok confirm));
    if negb proceed then lift (Throw Cancelled)
    else
      let batchCopy := json_value batchTemplate in
        (* JSON.parse(JSON.stringify(batchTemplate)) *)
      do _ <- emit [Signing w batchCopy];
      do signers <- lift (signMultiBatch w batchCopy);
      if negb (truthy signers) || length_is_not_1 signers
      then lift (Throw NoBatchSigner)
      else
        do first <- lift (index0 signers);
        do entry <- lift (read first "BatchSigner");
        let signersArray := JArr [JObj [("BatchSigner", entry)]] in
        lift (Ok {| signerOutput := JObj [("BatchSigner", entry)];
                    batchSignersOutput := signersArray;
                    fullBatchOutput := spread_with "BatchSigners" signersArray batchTemplate |}).

(** The handler: nothing happens without a template and a wallet; an
    error ends in an [alert]. *)
Definition generateClick (batchTemplate : option value) (w : option wallet)
  : list event * option outputs :=
  match batchTemplate, w with
  | Some t, Some w =>
      let run := generate_body t w in
      match snd run with
      | Ok out => (fst run, Some out)
      | Throw e => (fst run ++ [Alert e], None)
      end
  | _, _ => ([], None)
  end.
End Generate.

Definition is_signing (ev : event) : bool :=
  match ev with Signing _ _ => true | _ => false end.

End Web.

(** ** Objects in the store: copies, and what signing writes *)

Module Heap.

(** The program passes objects by reference: [{ ...batchTx }] makes a new
    object whose properties hold the same references, the JSON round trip
    makes a new tree, and [signMultiBatch] writes into the object it is
    given.  The store maps a location to the object living there. *)
Definition loc := positive.

Inductive hval :=
| HPrim (p : prim)
| HRef (l : loc).

Inductive object :=
| OArr (elems : list hval)
| OObj (props : list (string * hval)).

Abbreviation heap := (gmap loc object).

Inductive error :=
| TypeError                    (* raised by the engine *)
| NoBatchSigner                (* 'No BatchSigner generated' *)
| External (msg : string).     (* thrown inside the xrpl library *)

Abbreviation result := (result error).

(** A new object at a location not in use. *)
Definition alloc (o : object) (h : heap) : heap * loc :=
  let l := fresh (dom h) in (<[l := o]> h, l).

(** The own enumerable properties of an object; those of an array are its
    elements under their indices. *)
Definition own_props (o : object) : list (string * hval) :=
  match o with
  | OObj props => props
  | OArr elems => imap (fun i v => (pretty i, v)) elems
  end.

Definition props_at (h : heap) (l : loc) : list (string * hval) :=
  match h !! l with
  | Some o => own_props o
  | None => []
  end.

(** [{ ...src }]. *)
Definition spread (src : loc) (h : heap) : heap * loc :=
  alloc (OObj (props_at h src)) h.

(** [{ ...src, k: v }]. *)
Definition spread_with (src : loc) (k : string) (v : hval) (h : heap) : heap * loc :=
  alloc (OObj (set_prop k v (props_at h src))) h.

(** The assignment [l.k = v] on a plain object. *)
Definition store (l : loc) (k : string) (v : hval) (h : heap) : heap :=
  match h !! l with
  | Some (OObj props) => <[l := OObj (set_prop k v props)]> h
  | _ => h
  end.

Definition own_prop (k : string) (o : list (string * hval)) : hval :=
  match find (fun kv => String.eqb (fst kv) k) o with
  | Some kv => snd kv
  | None => HPrim PUndefined
  end.

(** The property read [v.k], as [JS.get] on the store. *)
Definition hget (h : heap) (v : hval) (k : string) : option hval :=
  match v with
  | HPrim PUndefined | HPrim PNull => None
  | HPrim (PStr s) =>
      Some (if String.eqb k "length"
            then HPrim (PNum (of_nat (String.length s))) else HPrim PUndefined)
  | HPrim _ => Some (HPrim PUndefined)
  | HRef l =>
      match h !! l with
      | Some (OObj props) => Some (own_prop k props)
      | Some (OArr elems) =>
          Some (if String.eqb k "length"
                then HPrim (PNum (of_nat (List.length elems))) else HPrim PUndefined)
      | None => Some (HPrim PUndefined)
      end
  end.

Definition read (h : heap) (v : hval) (k : string) : result hval :=
  match hget h v k with
  | Some x => Ok x
  | None => Throw TypeError
  end.

(** [v[0]]. *)
Definition hindex0 (h : heap) (v : hval) : result hval :=
  match v with
  | HPrim PUndefined | HPrim PNull => Throw TypeError
  | HPrim (PStr (String c _)) => Ok (HPrim (PStr (String c EmptyString)))
  | HPrim _ => Ok (HPrim PUndefined)
  | HRef l =>
      match h !! l with
      | Some (OArr (x :: _)) => Ok x
      | Some (OObj props) => Ok (own_prop "0" props)
      | _ => Ok (HPrim PUndefined)
      end
  end.

(** The tree a value of the store denotes, to a depth of [fuel] objects;
    [None] beyond it or at a location not in use. *)
Fixpoint reify (fuel : nat) (h : heap) (v : hval) : option value :=
  match v with
  | HPrim p => Some (JPrim p)
  | HRef l =>
      match fuel with
      | O => None
      | S n =>
          match h !! l with
          | Some (OArr elems) => JArr <$> mapM (reify n h) elems
          | Some (OObj props) =>
              JObj <$> mapM (fun kv => pair (fst kv) <$> reify n h (snd kv)) props
          | None => None
          end
      end
  end.

(** What [JSON.stringify] keeps of a tree: a property whose value is
    [undefined] is left out, [undefined] in an array and the numbers that
    are not finite become [null]. *)
Definition json_prim (p : prim) : prim :=
  match p with
  | PUndefined | PNum NaN | PNum PosInf | PNum NegInf => PNull
  | _ => p
  end.

Definition is_undefined (t : value) : bool :=
  match t with JPrim PUndefined => true | _ => false end.

Fixpoint json_text (t : value) : value :=
  match t with
  | JPrim p => JPrim (json_prim p)
  | JArr l => JArr (List.map json_text l)
  | JObj o =>
      JObj ((fix props (o : list (string * value)) : list (string * value) :=
               match o with
               | [] => []
               | (k, v) :: o' =>
                   if is_undefined v then props o' else (k, json_text v) :: props o'
               end) o)
  end.

Section AllocEach.
(** Allocation of the elements of an array, and of the property values of
    an object, left to right, by [f]. *)
Variable f : value -> heap -> heap * hval.

Fixpoint alloc_elems (l : list value) (h : heap) {struct l} : heap * list hval :=
  match l with
  | [] => (h, [])
  | x :: l' =>
      let '(h1, v) := f x h in
      let '(h2, vs) := alloc_elems l' h1 in
      (h2, v :: vs)
  end.

Fixpoint alloc_props (o : list (string * value)) (h : heap) {struct o}
  : heap * list (string * hval) :=
  match o with
  | [] => (h, [])
  | (k, x) :: o' =>
      let '(h1, v) := f x h in
      let '(h2, ps) := alloc_props o' h1 in
      (h2, (k, v) :: ps)
  end.
End AllocEach.

(** [JSON.parse]: every array and object of the tree becomes a new object
    of the store. *)
Fixpoint alloc_tree (t : value) (h : heap) {struct t} : heap * hval :=
  match t with
  | JPrim p => (h, HPrim p)
  | JArr l =>
      let '(h1, vs) := alloc_elems alloc_tree l h in
      let '(h2, a) := alloc (OArr vs) h1 in
      (h2, HRef a)
  | JObj o =>
      let '(h1, ps) := alloc_props alloc_tree o h in
      let '(h2, a) := alloc (OObj ps) h1 in
      (h2, HRef a)
  end.

(** [JSON.parse(JSON.stringify(v))] for an object or array [v].  A value
    that refers to itself makes [JSON.stringify] throw; a chain of distinct
    objects is no longer than the store, which bounds the depth. *)
Definition json_copy (v : hval) (h : heap) : heap * result hval :=
  match reify (S (size h)) h v with
  | Some t => let '(h', c) := alloc_tree (json_text t) h in (h', Ok c)
  | None => (h, Throw TypeError)
  end.

Definition htruthy (v : hval) : bool :=
  match v with
  | HPrim p => truthy (JPrim p)
  | HRef _ => true
  end.

(** [v.length !== 1] *)
Definition hlength_is_not_1 (h : heap) (v : hval) : bool :=
  match hget h v "length" with
  | Some (HPrim (PNum (Fin q))) =>
      negb (Z.eqb (QArith_base.Qnum q) (Z.pos (QArith_base.Qden q)))
  | _ => true
  end.

(** What [script.js] shows after a successful run, as places in the store. *)
Record outputs := {
  signerOutput : loc;          (* { BatchSigner: entry } *)
  signersArray : loc;          (* [ { BatchSigner: entry } ] *)
  fullBatch : loc              (* { ...batchTemplate, BatchSigners: signersArray } *)
}.

Section Signing.
(** [xrpl.signMultiBatch(wallet, tx)] on the store: the store it leaves,
    and the error if it throws. *)
Variable signMultiBatch : wallet -> hval -> heap -> heap * option error.

(** batchSignerTool.js, [generateBatchSignature] and
    [generateMultipleBatchSignatures]:
    [const txToSign = { ...batchTx }; signMultiBatch(signerWallet, txToSign,
    options); const batchSigner = txToSign.BatchSigners[0];] and then
    [{ BatchSigner: batchSigner.BatchSigner }]. *)
Definition sign_on_spread (w : wallet) (batchTx : loc) (h : heap) : heap * result hval :=
  let '(h1, txToSign) := spread batchTx h in
  let '(h2, thrown) := signMultiBatch w (HRef txToSign) h1 in
  match thrown with
  | Some e => (h2, Throw e)
  | None =>
      match (let* signers := read h2 (HRef txToSign) "BatchSigners" in
             let* batchSigner := hindex0 h2 signers in
             read h2 batchSigner "BatchSigner") with
      | Throw e => (h2, Throw e)
      | Ok inner =>
          let '(h3, formattedOutput) := alloc (OObj [("BatchSigner", inner)]) h2 in
          (h3, Ok (HRef formattedOutput))
      end
  end.

(** batchSignerTool.js, the loop of [generateMultipleBatchSignatures] from
    the copy on: every signer gets a spread copy of its own,
    [txToSign.BatchSigners[0]] of each is collected; the first throw ends
    the loop. *)
Fixpoint sign_each (ws : list wallet) (batchTx : loc) (h : heap)
  : heap * result (list hval) :=
  match ws with
  | [] => (h, Ok [])
  | w :: ws' =>
      let '(h1, txToSign) := spread batchTx h in
      let '(h2, thrown) := signMultiBatch w (HRef txToSign) h1 in
      match thrown with
      | Some e => (h2, Throw e)
      | None =>
          match (let* signers := read h2 (HRef txToSign) "BatchSigners" in
                 hindex0 h2 signers) with
          | Throw e => (h2, Throw e)
          | Ok batchSigner =>
              let '(h3, rest) := sign_each ws' batchTx h2 in
              (h3, let* batchSignatures := rest in Ok (batchSigner :: batchSignatures))
          end
      end
  end.

(** script.js, the click handler from the copy on:
    [const batchCopy = JSON.parse(JSON.stringify(batchTemplate));
    xrpl.signMultiBatch(wallet, batchCopy);] the test of [BatchSigners],
    and the three objects built from [entry]. *)
Definition sign_on_json_copy (w : wallet) (batchTemplate : loc) (h : heap)
  : heap * result outputs :=
  let '(h1, copied) := json_copy (HRef batchTemplate) h in
  match copied with
  | Throw e => (h1, Throw e)
  | Ok batchCopy =>
      let '(h2, thrown) := signMultiBatch w batchCopy h1 in
      match thrown with
      | Some e => (h2, Throw e)
      | None =>
          match (let* signers := read h2 batchCopy "BatchSigners" in
                 if negb (htruthy signers) || hlength_is_not_1 h2 signers
                 then Throw NoBatchSigner
                 else
                   let* first := hindex0 h2 signers in
                   read h2 first "BatchSigner") with
          | Throw e => (h2, Throw e)
          | Ok entry =>
              let '(h3, shown) := alloc (OObj [("BatchSigner", entry)]) h2 in
              let '(h4, element) := alloc (OObj [("BatchSigner", entry)]) h3 in
              let '(h5, array) := alloc (OArr [HRef element]) h4 in
              let '(h6, full) := spread_with batchTemplate "BatchSigners" (HRef array) h5 in
              (h6, Ok {| signerOutput := shown; signersArray := array; fullBatch := full |})
          end
      end
  end.
End Signing.

(** Modelled from the spec: [signMultiBatch] is a function of the xrpl
    package, which is not among the sources.  Section 4.1 has it emit one
    commitment [{signerAddress, signerPublicKey, commitmentSignature}], and
    the callers read it back as [tx.BatchSigners[0].BatchSigner]: the call
    stores a one-element array in property [BatchSigners] of the object it
    is given.  [signature] stands for the signature over the batch. *)
Definition signMultiBatch_model (signature : string) (w : wallet) (tx : hval) (h : heap)
  : heap * option error :=
  match tx with
  | HRef l =>
      let '(h1, signer) :=
        alloc (OObj [("Account", HPrim (PStr (address w)));
                     ("SigningPubKey", HPrim (PStr (publicKey w)));
                     ("TxnSignature", HPrim (PStr signature))]) h in
      let '(h2, element) := alloc (OObj [("BatchSigner", HRef signer)]) h1 in
      let '(h3, array) := alloc (OArr [HRef element]) h2 in
      (store l "BatchSigners" (HRef array) h3, None)
  | HPrim _ => (h, Some TypeError)
  end.

(** *** The merge of the complete workflows *)

(** Modelled from the spec: [combineBatchSigners] is a function of the
    xrpl package, which is not among the sources.  Section 4.2 has merge
    choose the commitments to attach, steps 1 to 3: the last one of every
    address, in the canonical order, each verified against the template,
    or a failure; a computation that reads what it is given, here
    [arrange] (module [Protocol] spells it out).  Step 4 attaches them as
    the signer commitments of a copy of the template and returns the
    result. *)
Definition merge (arrange : heap -> hval -> hval -> result (list hval))
    (batchTemplate : loc) (commitments : hval) (h : heap) : heap * result hval :=
  match arrange h (HRef batchTemplate) commitments with
  | Throw e => (h, Throw e)
  | Ok ordered =>
      let '(h1, signers) := alloc (OArr ordered) h in
      let '(h2, merged) := spread_with batchTemplate "BatchSigners" (HRef signers) h1 in
      (h2, Ok (HRef merged))
  end.

(** [arr.push(v)]. *)
Definition push (arr : loc) (v : hval) (h : heap) : heap :=
  match h !! arr with
  | Some (OArr elems) => <[arr := OArr (elems ++ [v])]> h
  | _ => h
  end.

Section Merging.
Variable signMultiBatch : wallet -> hval -> heap -> heap * option error.
Variable arrange : heap -> hval -> hval -> result (list hval).

(** batchSignerTool.js, the loop of [generateAndSubmitMultiSignerBatch]
    from the copy on: [const txForSigning = { ...autofilledTx };
    signMultiBatch(signerWallet, txForSigning, options);
    signedTransactions.push(txForSigning);] for every signer; the first
    throw ends the loop.  [generateAndSubmitBatch] does it for one signer
    and writes the array as a literal. *)
Fixpoint sign_copies (ws : list wallet) (autofilledTx signedTransactions : loc) (h : heap)
  : heap * option error :=
  match ws with
  | [] => (h, None)
  | w :: ws' =>
      let '(h1, txForSigning) := spread autofilledTx h in
      let '(h2, thrown) := signMultiBatch w (HRef txForSigning) h1 in
      match thrown with
      | Some e => (h2, Some e)
      | None =>
          sign_copies ws' autofilledTx signedTransactions
            (push signedTransactions (HRef txForSigning) h2)
      end
  end.

(** The two steps as the workflows chain them:
    [const signedTransactions = [];] the loop, and
    [combineBatchSigners(signedTransactions)].  The library is handed the
    signed copies, which hold the properties of [autofilledTx] and one
    commitment each. *)
Definition sign_and_merge (ws : list wallet) (autofilledTx : loc) (h : heap)
  : heap * result hval :=
  let '(h1, signedTransactions) := alloc (OArr []) h in
  let '(h2, thrown) := sign_copies ws autofilledTx signedTransactions h1 in
  match thrown with
  | Some e => (h2, Throw e)
  | None => merge arrange autofilledTx (HRef signedTransactions) h2
  end.
End Merging.

End Heap.

(** ** The authorization protocol the library carries out *)

Module Protocol.

(** The program leaves the commitment and the merge to [signMultiBatch]
    and [combineBatchSigners] of the xrpl package, which is not among the
    sources.  This module writes both down as sections 3, 4.1 and 4.2 of
    the specification describe them, over a hash and a signature scheme
    that stay abstract. *)

(** Modelled from the spec: the inner transaction of section 3; its
    fields are not read by the xrpl functions' callers. *)
Record InnerTransaction := {
  transactionKind : string;
  actingAccount : string;
  fee : string;
  explicitSigningKey : string;
  innerSignature : option string;
  innerExecutionFlagBit : bool;
  operationFields : list (string * string)
}.

(** Modelled from the spec: the errors of section 7 that [commit] and
    [merge] raise. *)
Inductive error :=
| InvalidBatchStructure
| SelfCommitmentRejected
| InvalidSignerCommitment (address : string).

Abbreviation result := (result error).

(** Modelled from the spec: the width of the flags in the digest input of
    section 4.1, 4 bytes; the encoding is done inside the xrpl package. *)
Definition flag_bits : Z := 32.

(** Modelled from the spec: "exactly one policy bit set" (sections 3 and
    4.1), on the flags masked to the policy bits; the test is left to the
    xrpl package. *)
Definition single_bit (x : Z) : bool := Z.ltb 0 x && Z.eqb (Z.land x (x - 1)) 0.

Section Scheme.
(** The hash of an inner transaction's canonical form, the hash of the
    digest input (prefix byte, 4-byte flags, inner hashes in order), the
    signature scheme, the randomness a signature may draw, the mask of the
    policy bits and the ledger's ordering of account identifiers. *)
Variables txhash digest signature randomness : Type.
Variable hash_inner : InnerTransaction -> txhash.
Variable hash_batch : Z -> list txhash -> digest.
Variable deriveKeypair : string -> wallet.
Variable sign : string -> digest -> randomness -> signature.
Variable verify : string -> digest -> signature -> bool.
Variable policy_mask : Z.
Variable canonical_leb : string -> string -> bool.

(** Modelled from the spec: the signer commitment of section 3. *)
Record SignerCommitment := {
  signerAddress : string;
  signerPublicKey : string;
  commitmentSignature : signature
}.

(** Modelled from the spec: the batch transaction of section 3. *)
Record BatchTransaction := {
  submitterAddress : string;
  authorizationFlags : Z;
  innerTransactions : list InnerTransaction;
  signerCommitments : list SignerCommitment
}.

(** Modelled from the spec: step 2 of section 4.1, the digest over the
    4-byte flags and the hashes of the inner transactions in their order. *)
Definition batch_digest (t : BatchTransaction) : digest :=
  hash_batch (authorizationFlags t mod 2 ^ flag_bits)
             (List.map hash_inner (innerTransactions t)).

(** Modelled from the spec: the preconditions of step 1 of section 4.1
    on the template. *)
Definition well_formed (t : BatchTransaction) : bool :=
  negb (Nat.eqb (List.length (innerTransactions t)) 0)
  && single_bit (Z.land (authorizationFlags t) policy_mask).

(** Modelled from the spec: [commit] of section 4.1 ([signMultiBatch] of
    the xrpl package).  A signer equal to the submitter is refused with
    [SelfCommitmentRejected] (sections 7 and 8). *)
Definition commit (t : BatchTransaction) (signer : string) (keypair : wallet)
    (r : randomness) : result SignerCommitment :=
  if String.eqb signer (submitterAddress t) then Throw SelfCommitmentRejected
  else if negb (well_formed t) then Throw InvalidBatchStructure
  else Ok {| signerAddress := signer;
             signerPublicKey := publicKey keypair;
             commitmentSignature := sign (privateKey keypair) (batch_digest t) r |}.

(** Modelled from the spec: the key of the deduplication of section 4.2,
    the signer's address. *)
Definition same_address (a : string) (c : SignerCommitment) : bool :=
  String.eqb (signerAddress c) a.

(** Modelled from the spec: step 1 of section 4.2; of the commitments of
    one address the last of the input stays. *)
Fixpoint dedup (cs : list SignerCommitment) : list SignerCommitment :=
  match cs with
  | [] => []
  | c :: rest =>
      if existsb (same_address (signerAddress c)) rest
      then dedup rest
      else c :: dedup rest
  end.

(** Modelled from the spec: the order of step 2 of section 4.2, the
    canonical ordering of the signers' addresses. *)
Definition before (c1 c2 : SignerCommitment) : Prop :=
  canonical_leb (signerAddress c1) (signerAddress c2) = true.

#[local] Instance before_dec (c1 c2 : SignerCommitment) : Decision (before c1 c2).
Proof. unfold before. apply _. Defined.

(** Modelled from the spec: step 3 of section 4.2; the first commitment
    that does not verify ends the merge. *)
Fixpoint verify_all (d : digest) (cs : list SignerCommitment) : result unit :=
  match cs with
  | [] => Ok tt
  | c :: rest =>
      if verify (signerPublicKey c) d (commitmentSignature c)
      then verify_all d rest
      else Throw (InvalidSignerCommitment (signerAddress c))
  end.

(** Modelled from the spec: [merge] of section 4.2 ([combineBatchSigners]
    of the xrpl package): dedup, sort, verify, attach to a copy. *)
Definition merge (t : BatchTransaction) (cs : list SignerCommitment)
  : result BatchTransaction :=
  let ordered := merge_sort before (dedup cs) in
  let* _ := verify_all (batch_digest t) ordered in
  Ok {| submitterAddress := submitterAddress t;
        authorizationFlags := authorizationFlags t;
        innerTransactions := innerTransactions t;
        signerCommitments := ordered |}.

(** The commitment of an address that comes last in the input. *)
Definition latest (a : string) (cs : list SignerCommitment) : option SignerCommitment :=
  last (List.filter (same_address a) cs).

(** A commitment that verifies against the template. *)
Definition valid_for (t : BatchTransaction) (c : SignerCommitment) : Prop :=
  verify (signerPublicKey c) (batch_digest t) (commitmentSignature c) = true.

(** A commitment made against the template by some key holder. *)
Definition produced_on (t : BatchTransaction) (c : SignerCommitment) : Prop :=
  exists signer secret r, commit t signer (deriveKeypair secret) r = Ok c.

End Scheme.

#[export] Existing Instance before_dec.

Arguments signerAddress {signature} s.
Arguments signerPublicKey {signature} s.
Arguments commitmentSignature {signature} s.
Arguments submitterAddress {signature} b.
Arguments authorizationFlags {signature} b.
Arguments innerTransactions {signature} b.
Arguments signerCommitments {signature} b.
Arguments batch_digest {txhash digest signature} hash_inner hash_batch t.
Arguments well_formed {signature} policy_mask t.
Arguments commit {txhash digest signature randomness} hash_inner hash_batch sign
  policy_mask t signer keypair r.
Arguments same_address {signature} a c.
Arguments dedup {signature} cs.
Arguments before {signature} canonical_leb c1 c2.
Arguments verify_all {digest signature} verify d cs.
Arguments merge {txhash digest signature} hash_inner hash_batch verify canonical_leb t cs.
Arguments latest {signature} a cs.
Arguments valid_for {txhash digest signature} hash_inner hash_batch verify t c.
Arguments produced_on {txhash digest signature randomness} hash_inner hash_batch
  deriveKeypair sign policy_mask t c.

End Protocol.

(** ** Loops over arrays, for a body that may throw *)

(** [arr.some(f)]. *)
Fixpoint exists_result {E A} (f : A -> result E bool) (l : list A) : result E bool :=
  match l with
  | [] => Ok false
  | x :: l' => let* b := f x in if b then Ok true else exists_result f l'
  end.

(** [arr.find(f)]: the first element [f] holds of, if any. *)
Fixpoint find_result {E A} (f : A -> result E bool) (l : list A) : result E (option A) :=
  match l with
  | [] => Ok None
  | x :: l' => let* b := f x in if b then Ok (Some x) else find_result f l'
  end.

(** A [for] loop that updates its variables [b] once per element. *)
Fixpoint fold_result {E A B} (f : B -> A -> result E B) (l : list A) (b : B)
  : result E B :=
  match l with
  | [] => Ok b
  | x :: l' => let* b' := f b x in fold_result f l' b'
  end.

(** [arr.filter((x, i) => p(i, x))]. *)
Fixpoint filter_from {A} (p : nat -> A -> bool) (i : nat) (l : list A) : list A :=
  match l with
  | [] => []
  | x :: l' => if p i x then x :: filter_from p (S i) l' else filter_from p (S i) l'
  end.

(** ** batchSignerTool.js: the roles of the test accounts *)

Module Roles.

(** What [assignAccountRoles] throws: an error of the engine, or its own. *)
Inductive error :=
| Tool (e : Cli.error)
| CouldNotAssign.  (* 'Could not assign appropriate accounts for this batch transaction' *)

Abbreviation result := (result error).

Definition tool {A} (r : Cli.result A) : result A :=
  match r with
  | Ok a => Ok a
  | Throw e => Throw (Tool e)
  end.

(** The property read, for the names [Account], [RawTransactions],
    [RawTransaction], [TransactionType], [Amount], [accounts], [address]
    and [role]. *)
Definition read (v : value) (k : string) : result value := tool (Cli.read v k).

(** [a === b] on numbers: [NaN] equals nothing. *)
Definition number_eq (a b : number) : bool :=
  match a, b with
  | Fin p, Fin q => QArith_base.Qeq_bool p q
  | PosInf, PosInf => true
  | NegInf, NegInf => true
  | _, _ => false
  end.

Definition prim_eq (p q : prim) : bool :=
  match p, q with
  | PUndefined, PUndefined => true
  | PNull, PNull => true
  | PBool a, PBool b => Bool.eqb a b
  | PNum a, PNum b => number_eq a b
  | PStr a, PStr b => String.eqb a b
  | _, _ => false
  end.

(** [v === w] for two values read at two places of parsed JSON: primitives
    are compared by value, and two arrays or objects are never the same
    object, since [JSON.parse] makes a new one at every place. *)
Definition strict_eq (v w : value) : bool :=
  match v, w with
  | JPrim p, JPrim q => prim_eq p q
  | _, _ => false
  end.

(** The comparison of [arr.includes]: as [===], but [NaN] is found. *)
Definition same_value_zero (v w : value) : bool :=
  match v, w with
  | JPrim (PNum NaN), JPrim (PNum NaN) => true
  | _, _ => strict_eq v w
  end.

(** [arr.indexOf(x)] from index [j] on, [same j y] telling whether the
    element [y] at index [j] is [=== x]. *)
Fixpoint index_of (same : nat -> value -> bool) (j : nat) (arr : list value) : option nat :=
  match arr with
  | [] => None
  | y :: arr' => if same j y then Some j else index_of same (S j) arr'
  end.

(** [arr.indexOf(address) === index] for the element [address] at [index]
    of [arr]: at its own index an element is the same value as itself
    unless it is [NaN]. *)
Definition is_first_occurrence (arr : list value) (index : nat) (address : value) : bool :=
  match index_of (fun j y =>
                    if Nat.eqb j index
                    then match address with JPrim p => prim_eq p p | _ => true end
                    else strict_eq y address) 0 arr with
  | Some j => Nat.eqb j index
  | None => false
  end.

Definition remove_duplicates (arr : list value) : list value :=
  filter_from (is_first_occurrence arr) 0 arr.

(** What [for (const account of v)] visits: the elements of an array, the
    characters of a string; nothing else the program can hold is iterable. *)
Fixpoint characters (s : string) : list value :=
  match s with
  | EmptyString => []
  | String c s' => JStr (String c EmptyString) :: characters s'
  end.

Definition iterate (v : value) : result (list value) :=
  match v with
  | JArr l => Ok l
  | JPrim (PStr s) => Ok (characters s)
  | _ => Throw (Tool Cli.TypeError)
  end.

(** [v[i]]. *)
Definition index (v : value) (i : nat) : result value :=
  match v with
  | JPrim PUndefined | JPrim PNull => Throw (Tool Cli.TypeError)
  | JArr l => Ok (nth i l JUndefined)
  | JPrim (PStr s) =>
      Ok (match String.get i s with
          | Some c => JStr (String c EmptyString)
          | None => JUndefined
          end)
  | JObj o => Ok (own_prop (pretty i) o)
  | _ => Ok JUndefined
  end.

(** [accounts.find(acc => acc.role === role)]; only an array has [find]. *)
Definition find_role (accounts : value) (role : string) : result value :=
  match accounts with
  | JArr l =>
      let* found := find_result (fun acc => let* r := read acc "role" in
                                            Ok (strict_eq_str r role)) l in
      Ok (match found with Some acc => acc | None => JUndefined end)
  | _ => Throw (Tool Cli.TypeError)
  end.

(** The addresses that need a signature: the [Account]s of the inner
    transactions, each once, without the outer [Account]. *)
Definition signer_addresses (parentAddress : value) (accounts : list value) : list value :=
  List.filter (fun address => negb (strict_eq address parentAddress))
    (remove_duplicates accounts).

(** The body of the loop over the test accounts: the variables are
    [parentAccount] and [signerAccounts]. *)
Definition match_account (parentAddress : value) (signerAddresses : list value)
    (found : value * list value) (account : value) : result (value * list value) :=
  let* address := read account "address" in
  let parentAccount := if strict_eq address parentAddress then account else fst found in
  let signerAccounts :=
    if existsb (fun a => same_value_zero a address) signerAddresses
    then snd found ++ [account] else snd found in
  Ok (parentAccount, signerAccounts).

(** The function up to the end of the loop: [isMultiSigner] and the two
    variables. *)
Definition exact_matches (batchTx devnetAccounts : value)
  : result (bool * (value * list value)) :=
  let* parentAddress := read batchTx "Account" in
  let* accounts := tool (Cli.inner_accounts batchTx) in
  let signerAddresses := signer_addresses parentAddress accounts in
  let isMultiSigner := Nat.ltb 1 (List.length signerAddresses) in
  let* list := read devnetAccounts "accounts" in
  let* elements := iterate list in
  let* found :=
    fold_result (match_account parentAddress signerAddresses) elements (JNull, []) in
  Ok (isMultiSigner, found).

(** [hasTokens]: some inner transaction is a [TrustSet] or has an [Amount]
    that is an object. *)
Definition has_tokens (batchTx : value) : result bool :=
  let* raw := read batchTx "RawTransactions" in
  match raw with
  | JArr l =>
      exists_result (fun rawTx =>
        let* tx := read rawTx "RawTransaction" in
        let* kind := read tx "TransactionType" in
        if strict_eq_str kind "TrustSet" then Ok true
        else
          let* amount := read tx "Amount" in
          Ok (truthy amount && String.eqb (typeof amount) "object")) l
  | _ => Throw (Tool Cli.TypeError)
  end.

Definition is_empty {A} (l : list A) : bool :=
  match l with [] => true | _ => false end.

(** The assignment by role and position, taken when the loop left a
    variable empty. *)
Definition auto_assign (batchTx devnetAccounts : value) (isMultiSigner : bool)
    (found : value * list value) : result (value * list value) :=
  let* hasTokens := has_tokens batchTx in
  let* accounts := read devnetAccounts "accounts" in
  if hasTokens then
    let* parentAccount :=
      if truthy (fst found) then Ok (fst found) else find_role accounts "issuer" in
    let* signerAccounts :=
      if is_empty (snd found)
      then let* holder := find_role accounts "new_holder" in Ok [holder]
      else Ok (snd found) in
    Ok (parentAccount, signerAccounts)
  else
    let* parentAccount :=
      if truthy (fst found) then Ok (fst found) else index accounts 0 in
    let* signerAccounts :=
      if is_empty (snd found)
      then if isMultiSigner
           then let* one := index accounts 1 in
                let* two := index accounts 2 in Ok [one; two]
           else let* one := index accounts 1 in Ok [one]
      else Ok (snd found) in
    Ok (parentAccount, signerAccounts).

Record assignment := {
  signerAccounts : list value;
  parentAccount : value;
  isMultiSigner : bool
}.

(** [assignAccountRoles(batchTx, devnetAccounts)]: whether the line
    'Auto-assigning accounts based on transaction structure...' was
    printed, and the object returned or the error thrown.  The two
    arguments are two results of [JSON.parse]. *)
Definition assignAccountRoles (batchTx devnetAccounts : value) : bool * result assignment :=
  match exact_matches batchTx devnetAccounts with
  | Throw e => (false, Throw e)
  | Ok (multi, found) =>
      let unmatched := is_empty (snd found) || negb (truthy (fst found)) in
      (unmatched,
       let* chosen := if unmatched
                      then auto_assign batchTx devnetAccounts multi found
                      else Ok found in
       if is_empty (snd chosen) || negb (truthy (fst chosen))
       then Throw CouldNotAssign
       else Ok {| signerAccounts := snd chosen;
                  parentAccount := fst chosen;
                  isMultiSigner := multi |})
  end.

End Roles.

(** ** accountSetup.js: the example files *)

Module Setup.
Import Roles.

(** The inner transactions of the examples, properties in the order of
    the source. *)
Definition payment (amount account destination : value) : value :=
  JObj [("RawTransaction",
         JObj [("TransactionType", JStr "Payment");
               ("Amount", amount);
               ("Account", account);
               ("Destination", destination);
               ("Flags", JInt 1073741824);
               ("Fee", JStr "0");
               ("SigningPubKey", JStr "")])].

Definition token_amount (currency : value) (amount : string) (issuer : value) : value :=
  JObj [("currency", currency); ("value", JStr amount); ("issuer", issuer)].

Definition trust_set (account limit : value) : value :=
  JObj [("RawTransaction",
         JObj [("TransactionType", JStr "TrustSet");
               ("Account", account);
               ("LimitAmount", limit);
               ("Flags", JInt 1073741824);
               ("Fee", JStr "0");
               ("SigningPubKey", JStr "")])].

Definition batch (account : value) (inner : list value) : value :=
  JObj [("TransactionType", JStr "Batch");
        ("Account", account);
        ("Flags", JInt 262144);
        ("RawTransactions", JArr inner)].

(** The four objects, from the addresses of the issuer, of the existing
    holder and of the new holder. *)
Definition examplePayment (issuer existingHolder newHolder : value) : value :=
  batch existingHolder
    [payment (JStr "1000000") newHolder issuer;
     payment (JStr "1000000") existingHolder issuer].

Definition exampleMultiPayment (issuer existingHolder newHolder : value) : value :=
  batch issuer
    [payment (JStr "1000000") existingHolder newHolder;
     payment (JStr "1000000") newHolder existingHolder].

Definition exampleTrustline (tokenCurrency issuer existingHolder newHolder : value) : value :=
  batch issuer
    [trust_set newHolder (token_amount tokenCurrency "1000000" issuer);
     payment (token_amount tokenCurrency "100" issuer) issuer existingHolder;
     payment (token_amount tokenCurrency "100" issuer) issuer newHolder].

Definition myCustomBatch (issuer existingHolder newHolder : value) : value :=
  batch existingHolder
    [payment (JStr "2000000") newHolder issuer;
     payment (JStr "2000000") existingHolder issuer].

(** [updateExampleFiles(accountsData)]: the files it writes, each with the
    object handed to [JSON.stringify], in the order of the writes.  A
    write that fails is reported and skipped by the source; a read of a
    missing account ends the function before any write. *)
Definition updateExampleFiles (accountsData : value) : result (list (string * value)) :=
  let* accounts := read accountsData "accounts" in
  let* issuer := find_role accounts "issuer" in
  let* accounts := read accountsData "accounts" in
  let* existingHolder := find_role accounts "existing_holder" in
  let* accounts := read accountsData "accounts" in
  let* newHolder := find_role accounts "new_holder" in
  let* tokenInfo := read accountsData "tokenInfo" in
  let* tokenCurrency := read tokenInfo "currency" in
  let* holding := read existingHolder "address" in
  let* joining := read newHolder "address" in
  let* issuing := read issuer "address" in
  Ok [("examplePayment.json", examplePayment issuing holding joining);
      ("exampleTrustline.json", exampleTrustline tokenCurrency issuing holding joining);
      ("exampleMultiPayment.json", exampleMultiPayment issuing holding joining);
      ("myCustomBatch.json", myCustomBatch issuing holding joining)].

End Setup.

(** ** batchSignerTool.js: signatures for several signers *)

Module Multi.
Import Cli.

Section GenerateMultiple.
Variable fromSeed : value -> result wallet.
Variable signMultiBatch : wallet -> value -> result value.

(** One turn of the loop over [signerSeeds]: the entry pushed on
    [batchSignatures]. *)
Definition sign_with (batchTx signerSeed : value) : traced value :=
  do _ <- lift (validateSeed signerSeed);
  do signerWallet <- lift (fromSeed signerSeed);
  do _ <- emit [LogAddress (address signerWallet)];
  do lines <- lift (checkSignerInvolvement batchTx (address signerWallet));
  do _ <- emit (List.map Printed lines);
  let txToSign := batchTx in   (* { ...batchTx }: same properties *)
  do _ <- emit [Signing signerWallet txToSign];
  do signers <- lift (signMultiBatch signerWallet txToSign);
  do batchSigner <- lift (index0 signers);
  lift (Ok batchSigner).

Fixpoint sign_each (batchTx : value) (signerSeeds : list value) : traced (list value) :=
  match signerSeeds with
  | [] => lift (Ok [])
  | signerSeed :: rest =>
      do batchSigner <- sign_with batchTx signerSeed;
      do more <- sign_each batchTx rest;
      lift (Ok (batchSigner :: more))
  end.

(** The body of the [try]; [signerSeeds] is the array of seeds the caller
    builds. *)
Definition multiple_body (batchTx : value) (signerSeeds : list value) : traced value :=
  do _ <- lift (validateBatchTransaction batchTx);
  do batchSignatures <- sign_each batchTx signerSeeds;
  do _ <- emit [LogOutput (JArr batchSignatures)];
  lift (Ok (JArr batchSignatures)).

(** [generateMultipleBatchSignatures(batchTx, signerSeeds, options)]: an
    error is printed and rethrown, whichever it is. *)
Definition generateMultipleBatchSignatures (batchTx : value) (signerSeeds : list value)
  : list event * outcome :=
  let run := multiple_body batchTx signerSeeds in
  match snd run with
  | Ok v => (fst run, Returned v)
  | Throw e => (fst run ++ [ErrorLine e], Rethrown e)
  end.
End GenerateMultiple.

End Multi.

(** ** batchSignerTool.js: the complete workflows *)

Module Workflow.

Inductive error :=
| Tool (e : Cli.error)
| ParentMismatch (parent : string) (account : value).
    (* 'Parent wallet address (<parent>) doesn't match batch Account (<account>)' *)

Abbreviation result := (result error).

Definition tool {A} (r : Cli.result A) : result A :=
  match r with
  | Ok a => Ok a
  | Throw e => Throw (Tool e)
  end.

(** The property read, for the names [Account], [RawTransactions],
    [BatchSigner], [tx_blob], [result], [meta], [TransactionResult] and
    [length]. *)
Definition read (v : value) (k : string) : result value := tool (Cli.read v k).

(** What an observer sees of a workflow: the calls that leave the program
    and the lines that tell how far it came. *)
Inductive event :=
| Connect                               (* client.connect() *)
| LogAddress (a : string)               (* the address of a wallet just derived *)
| Printed (c : Cli.console)             (* a line of [checkSignerInvolvement] *)
| Autofill (tx : value)                 (* client.autofill(tx) *)
| Signing (w : wallet) (tx : value)     (* signMultiBatch(w, tx, options) *)
| Combine (txs : list value)            (* combineBatchSigners(txs) *)
| Decode (blob : value)                 (* xrpl.decode(blob) *)
| ParentSign (w : wallet) (tx : value)  (* w.sign(tx) *)
| Submit (blob : value)                 (* client.submitAndWait(blob) *)
| LogSuccess                            (* the success banner, hash, ledger and time *)
| LogSummary (inner : value)            (* 'Inner Transactions: <inner>' *)
| LogFailed (code : value)              (* 'Transaction failed: <code>' *)
| Disconnect                            (* client.disconnect() *)
| ErrorLine (e : error).                (* console.error with the message of [e] *)

Inductive outcome :=
| Returned (v : value)
| Rethrown (e : error).

Definition traced (A : Type) : Type := list event * result A.

Definition lift {A} (r : result A) : traced A := ([], r).
Definition emit (evs : list event) : traced unit := (evs, Ok tt).

Definition bindT {A B} (m : traced A) (f : A -> traced B) : traced B :=
  let '(printed, r) := m in
  match r with
  | Ok a => let '(more, r') := f a in (printed ++ more, r')
  | Throw e => (printed, Throw e)
  end.

Notation "'do' x '<-' m ';' k" := (bindT m (fun x => k))
  (at level 10, x name, m at level 100, k at level 200, only parsing).

Section Submit.
(** The calls that leave the program.  [fromSeed] and [signMultiBatch] are
    those of [generateBatchSignature].  [autofill] and [reAutofill] are the
    first and the second call of [client.autofill], which resolves to a new
    object; the ledger moves between the two.  [connect], [disconnect],
    [combineBatchSigners], [decode], [sign] and [submitAndWait] return or
    throw as the library decides. *)
Variable fromSeed : value -> Cli.result wallet.
Variable signMultiBatch : wallet -> value -> Cli.result value.
Variable connect : Cli.result unit.
Variable autofill : value -> Cli.result (list (string * value)).
Variable reAutofill : value -> Cli.result (list (string * value)).
Variable combineBatchSigners : list value -> Cli.result value.
Variable decode : value -> Cli.result value.
Variable sign : wallet -> value -> Cli.result value.
Variable submitAndWait : value -> Cli.result value.
Variable disconnect : Cli.result unit.

(** Steps 5 to 8 and the disconnection, the same statements in the two
    workflows. *)
Definition submit_combined (batchTx : value) (parentWallet : wallet)
    (signedTransactions : list value) : traced value :=
  do _ <- emit [Combine signedTransactions];
  do combinedTx <- lift (tool (combineBatchSigners signedTransactions));
  do _ <- emit [Decode combinedTx];
  do decodedTx <- lift (tool (decode combinedTx));
  do _ <- emit [Autofill decodedTx];
  do refilled <- lift (tool (reAutofill decodedTx));
  let reAutofilledTx := JObj (set_prop "Fee" (JStr "1000") refilled) in
  do _ <- emit [ParentSign parentWallet reAutofilledTx];
  do signed <- lift (tool (sign parentWallet reAutofilledTx));
  do blob <- lift (read signed "tx_blob");
  do _ <- emit [Submit blob];
  do result <- lift (tool (submitAndWait blob));
  do inner <- lift (read result "result");
  do meta <- lift (read inner "meta");
  do code <- lift (read meta "TransactionResult");
  do _ <- (if strict_eq_str code "tesSUCCESS"
           then do _ <- emit [LogSuccess];
                do raw <- lift (read batchTx "RawTransactions");
                do count <- lift (read raw "length");
                emit [LogSummary count]
           else emit [LogFailed code]);
  do _ <- emit [Disconnect];
  do _ <- lift (tool disconnect);
  lift (Ok result).

(** The body of the [try] of [generateAndSubmitBatch]. *)
Definition submit_body (batchTx signerSeed parentSeed : value) : traced value :=
  do _ <- emit [Connect];
  do _ <- lift (tool connect);
  do _ <- lift (tool (Cli.validateSeed signerSeed));
  do _ <- lift (tool (Cli.validateSeed parentSeed));
  do signerWallet <- lift (tool (fromSeed signerSeed));
  do parentWallet <- lift (tool (fromSeed parentSeed));
  do _ <- emit [LogAddress (address signerWallet); LogAddress (address parentWallet)];
  do account <- lift (read batchTx "Account");
  if negb (strict_eq_str account (address parentWallet))
  then lift (Throw (ParentMismatch (address parentWallet) account))
  else
    do _ <- emit [Autofill batchTx];
    do filled <- lift (tool (autofill batchTx));
    let autofilledTx := JObj filled in
    do lines <- lift (tool (Cli.checkSignerInvolvement autofilledTx (address signerWallet)));
    do _ <- emit (List.map Printed lines);
    let txForSigning := autofilledTx in   (* { ...autofilledTx } *)
    do _ <- emit [Signing signerWallet txForSigning];
    do signers <- lift (tool (signMultiBatch signerWallet txForSigning));
    let txForSigning := JObj (set_prop "BatchSigners" signers filled) in
    do first <- lift (tool (Cli.index0 signers));
    do entry <- lift (read first "BatchSigner");
    do _ <- lift (read entry "Account");
    submit_combined batchTx parentWallet [txForSigning].

(** One turn of the loop of [generateAndSubmitMultiSignerBatch]: the copy
    pushed on [signedTransactions]. *)
Definition sign_for (filled : list (string * value)) (signerSeed : value) : traced value :=
  let autofilledTx := JObj filled in
  do _ <- lift (tool (Cli.validateSeed signerSeed));
  do signerWallet <- lift (tool (fromSeed signerSeed));
  do _ <- emit [LogAddress (address signerWallet)];
  do lines <- lift (tool (Cli.checkSignerInvolvement autofilledTx (address signerWallet)));
  do _ <- emit (List.map Printed lines);
  let txForSigning := autofilledTx in   (* { ...autofilledTx } *)
  do _ <- emit [Signing signerWallet txForSigning];
  do signers <- lift (tool (signMultiBatch signerWallet txForSigning));
  lift (Ok (JObj (set_prop "BatchSigners" signers filled))).

Fixpoint sign_all (filled : list (string * value)) (signerSeeds : list value)
  : traced (list value) :=
  match signerSeeds with
  | [] => lift (Ok [])
  | signerSeed :: rest =>
      do txForSigning <- sign_for filled signerSeed;
      do more <- sign_all filled rest;
      lift (Ok (txForSigning :: more))
  end.

(** The body of the [try] of [generateAndSubmitMultiSignerBatch];
    [signerSeeds] is the array of seeds the caller builds. *)
Definition multi_body (batchTx : value) (signerSeeds : list value) (parentSeed : value)
  : traced value :=
  do _ <- emit [Connect];
  do _ <- lift (tool connect);
  do _ <- lift (tool (Cli.validateSeed parentSeed));
  do parentWallet <- lift (tool (fromSeed parentSeed));
  do _ <- emit [LogAddress (address parentWallet)];
  do account <- lift (read batchTx "Account");
  if negb (strict_eq_str account (address parentWallet))
  then lift (Throw (ParentMismatch (address parentWallet) account))
  else
    do _ <- emit [Autofill batchTx];
    do filled <- lift (tool (autofill batchTx));
    do signedTransactions <- sign_all filled signerSeeds;
    submit_combined batchTx parentWallet signedTransactions.

(** The [catch] of both workflows: the error is printed and rethrown. *)
Definition rethrowing (run : traced value) : list event * outcome :=
  match snd run with
  | Ok v => (fst run, Returned v)
  | Throw e => (fst run ++ [ErrorLine e], Rethrown e)
  end.

Definition generateAndSubmitBatch (batchTx signerSeed parentSeed : value)
  : list event * outcome :=
  rethrowing (submit_body batchTx signerSeed parentSeed).

Definition generateAndSubmitMultiSignerBatch (batchTx : value) (signerSeeds : list value)
    (parentSeed : value) : list event * outcome :=
  rethrowing (multi_body batchTx signerSeeds parentSeed).
End Submit.

End Workflow.

(** ** batchSignerTool.js: the choice of a mode *)

Module Launcher.

(** What [main] hands the arguments to. *)
Inductive mode :=
| InteractiveProduction (batchTxPath : string)   (* runInteractiveProduction *)
| CommandLine (args : list string)               (* runCommandLine *)
| TestMode (batchTxPath : string)                (* runTestMode *)
| Interactive                                    (* runInteractive *)
| UsageHelp.                                     (* the usage text *)

(** [main], for [args = process.argv.slice(2)]. *)
Definition main (args : list string) : mode :=
  let testFlag := existsb (fun arg => String.eqb arg "--test") args in
  let filteredArgs := List.filter (fun arg => negb (String.eqb arg "--test")) args in
  if Nat.leb 1 (List.length filteredArgs) && negb testFlag then
    if Nat.eqb (List.length filteredArgs) 1
    then InteractiveProduction (hd "" filteredArgs)
    else CommandLine filteredArgs
  else if Nat.eqb (List.length filteredArgs) 1 && testFlag then
    TestMode (hd "" filteredArgs)
  else if Nat.eqb (List.length filteredArgs) 0 && negb testFlag then Interactive
  else UsageHelp.

(** What [runCommandLine] does with its arguments: the usage text, the
    error line of its [catch], or the call it makes, with the value of
    [options.batchAccount] when it sets one. *)
Inductive call :=
| Usage
| LoadFailed
| SignatureOnly (batchTx signerSeed : value) (batchAccount : option value)
| CompleteWorkflow (batchTx signerSeed parentSeed : value) (batchAccount : option value).

Section Files.
(** The file system and [JSON.parse]; [None] is a throw. *)
Variable existsSync : string -> bool.
Variable readFileSync : string -> option string.
Variable parse : string -> option value.

(** An element of the destructuring [[a, b, c, d] = filteredArgs]:
    [undefined] past the end. *)
Definition positional (filteredArgs : list string) (i : nat) : value :=
  match nth_error filteredArgs i with
  | Some arg => JStr arg
  | None => JUndefined
  end.

(** The loading of the batch: a file if one has that name, else the
    argument itself as JSON text.  Without a first argument no file exists
    and [JSON.parse(undefined)] is a syntax error. *)
Definition load (batchTxPath : value) : option value :=
  match batchTxPath with
  | JPrim (PStr path) =>
      if existsSync path
      then match readFileSync path with
           | Some fileContent => parse fileContent
           | None => None
           end
      else parse path
  | _ => None
  end.

Definition option_of (v : value) : option value :=
  if truthy v then Some v else None.

(** [runCommandLine(args)], up to the call it makes. *)
Definition runCommandLine (args : list string) : call :=
  if Nat.ltb (List.length args) 2 then Usage
  else
    let submitMode := existsb (fun arg => String.eqb arg "--submit") args in
    let filteredArgs := List.filter (fun arg => negb (String.eqb arg "--submit")) args in
    match load (positional filteredArgs 0) with
    | None => LoadFailed
    | Some batchTx =>
        if submitMode
        then CompleteWorkflow batchTx (positional filteredArgs 1) (positional filteredArgs 2)
               (option_of (positional filteredArgs 3))
        else SignatureOnly batchTx (positional filteredArgs 1)
               (option_of (positional filteredArgs 2))
    end.
End Files.

End Launcher.

(** ** script.js: the state of the form *)

Module Form.

(** The two variables of the script, the mode switch and the two buttons. *)
Record state := {
  batchTemplate : option value;     (* [null], or the template last accepted *)
  wallet : option Xrpl.wallet;      (* [null], or the wallet of the seed typed *)
  devnetMode : bool;                (* devnetModeCheckbox.checked *)
  generateDisabled : bool;          (* generateBtn.disabled *)
  startDemoDisabled : bool          (* startDemoBtn.disabled *)
}.

(** [batchTemplate && wallet], as a condition. *)
Definition ready (s : state) : bool :=
  match batchTemplate s, wallet s with
  | Some t, Some _ => truthy t
  | _, _ => false
  end.

Definition checkReadyToGenerate (s : state) : state :=
  if devnetMode s
  then {| batchTemplate := batchTemplate s; wallet := wallet s; devnetMode := devnetMode s;
          generateDisabled := true; startDemoDisabled := false |}
  else {| batchTemplate := batchTemplate s; wallet := wallet s; devnetMode := devnetMode s;
          generateDisabled := negb (ready s); startDemoDisabled := true |}.

Definition with_template (t : option value) (s : state) : state :=
  {| batchTemplate := t; wallet := wallet s; devnetMode := devnetMode s;
     generateDisabled := generateDisabled s; startDemoDisabled := startDemoDisabled s |}.

Definition with_wallet (w : option Xrpl.wallet) (s : state) : state :=
  {| batchTemplate := batchTemplate s; wallet := w; devnetMode := devnetMode s;
     generateDisabled := generateDisabled s; startDemoDisabled := startDemoDisabled s |}.

Definition with_mode (b : bool) (s : state) : state :=
  {| batchTemplate := batchTemplate s; wallet := wallet s; devnetMode := b;
     generateDisabled := generateDisabled s; startDemoDisabled := startDemoDisabled s |}.

Definition with_generate (b : bool) (s : state) : state :=
  {| batchTemplate := batchTemplate s; wallet := wallet s; devnetMode := devnetMode s;
     generateDisabled := b; startDemoDisabled := startDemoDisabled s |}.

Definition with_startDemo (b : bool) (s : state) : state :=
  {| batchTemplate := batchTemplate s; wallet := wallet s; devnetMode := devnetMode s;
     generateDisabled := generateDisabled s; startDemoDisabled := b |}.

(** What the user does.  A text field reports its content after [trim]:
    blank, or the text; of the template the handler sees what [JSON.parse]
    makes of it, [None] for a syntax error. *)
Inductive input :=
| TemplateBlank
| TemplateText (parsed : option value)
| SeedBlank
| SeedText (seed : string)
| ModeChange                       (* the mode switch is flipped *)
| GenerateClick (confirm : bool)   (* with the answer to the dialog, if it is shown *)
| DemoStart                        (* click on Start Devnet Demo *)
| DemoEnd.                         (* the [finally] of that click, after the demo *)

Section Handlers.
Variable StringToNumber : string -> number.
Variable ArrayToString : list value -> string.
Variable fromSeed : string -> Web.result Xrpl.wallet.
Variable signMultiBatch : Xrpl.wallet -> value -> Web.result value.

(** The [input] handler of the template field. *)
Definition templateInput (parsed : option (option value)) (s : state) : state :=
  match parsed with
  | None => checkReadyToGenerate (with_template None s)
  | Some None => checkReadyToGenerate (with_template None s)
  | Some (Some v) =>
      match Web.validateTemplate StringToNumber ArrayToString v with
      | Ok t => checkReadyToGenerate (with_template (Some t) s)
      | Throw _ => checkReadyToGenerate (with_template None s)
      end
  end.

(** The [input] handler of the seed field. *)
Definition seedInput (seed : option string) (s : state) : state :=
  match seed with
  | None => checkReadyToGenerate (with_wallet None s)
  | Some text =>
      match fromSeed text with
      | Ok w => checkReadyToGenerate (with_wallet (Some w) s)
      | Throw _ => checkReadyToGenerate (with_wallet None s)
      end
  end.

(** The [change] handler of the mode switch; the switch has flipped when
    it runs. *)
Definition modeChange (s : state) : state :=
  checkReadyToGenerate (with_mode (negb (devnetMode s)) s).

(** The [click] handler of the Generate button: what it shows, and the
    state it leaves.  Its [finally] enables the button. *)
Definition generateClick (confirm : bool) (s : state)
  : (list Web.event * option Web.outputs) * state :=
  if negb (ready s) then (([], None), s)
  else (Web.generateClick signMultiBatch confirm (batchTemplate s) (wallet s),
        with_generate false s).

(** One input and the state after its handler.  A disabled button gets
    no click.  The demo started by a click ends at some later time, other
    inputs may come in between; the relation lets [DemoEnd] come at any
    time. *)
Inductive step : state -> input -> state -> Prop :=
| step_template_blank s : step s TemplateBlank (templateInput None s)
| step_template_text s parsed : step s (TemplateText parsed) (templateInput (Some parsed) s)
| step_seed_blank s : step s SeedBlank (seedInput None s)
| step_seed_text s seed : step s (SeedText seed) (seedInput (Some seed) s)
| step_mode s : step s ModeChange (modeChange s)
| step_generate s confirm :
    generateDisabled s = false ->
    step s (GenerateClick confirm) (snd (generateClick confirm s))
| step_demo_start s :
    startDemoDisabled s = false ->
    step s DemoStart (with_startDemo true s)
| step_demo_end s : step s DemoEnd (with_startDemo false s).

(** The state once the script has run: both variables [null], the buttons
    as [checkReadyToGenerate] sets them for the position of the switch. *)
Definition initial (devnet : bool) : state :=
  checkReadyToGenerate
    {| batchTemplate := None; wallet := None; devnetMode := devnet;
       generateDisabled := false; startDemoDisabled := false |}.

(** The states the form can be in. *)
Inductive reachable : state -> Prop :=
| reachable_initial devnet : reachable (initial devnet)
| reachable_step s i s' : reachable s -> step s i s' -> reachable s'.
End Handlers.

End Form.

(** ** devnet.js: the demo on the test network *)

Module Demo.

Inductive error :=
| Lib (e : Web.error)              (* raised by the engine or inside the xrpl library,
                                      or 'No BatchSigner generated' *)
| Failed (code message : value).   (* 'Failed: <code> - <message>' *)

Abbreviation result := (result error).

Definition lib {A} (r : Web.result A) : result A :=
  match r with
  | Ok a => Ok a
  | Throw e => Throw (Lib e)
  end.

(** The property read, for the names [result], [info], [build_version],
    [meta], [TransactionResult], [TransactionResultMessage], [hash],
    [BatchSigner] and [length]. *)
Definition read (v : value) (k : string) : result value := lib (Web.read v k).

(** What the page and the network see of a run. *)
Inductive event :=
| Connect                                 (* client.connect() *)
| ServerInfo                              (* client.request({ command: 'server_info' }) *)
| LogVersion (version : value)            (* 'rippled <version>' *)
| Fund (i : nat)                          (* the i-th client.fundWallet() *)
| LogAccounts (a1 a2 a3 : string)         (* the three addresses *)
| Autofill (tx : value)                   (* client.autofill(tx) *)
| LedgerIndex                             (* client.getLedgerIndex() *)
| Signing (w : wallet) (tx : value)       (* xrpl.signMultiBatch(w, tx) *)
| ShowSigners (v : value)                 (* batchSignersOutput.textContent *)
| ShowFullBatch (v : value)               (* fullBatchOutput.textContent *)
| OuterSign (w : wallet) (tx : value)     (* acc1.wallet.sign(tx) *)
| Submit (attempt : nat) (blob : value)   (* client.submitAndWait(blob) *)
| LogSuccess (hash : value)               (* 'Success! Batch executed.', the hash, the
                                             explorer link and the result view *)
| LogExpired                              (* 'Ledger expired - retrying with higher fee...' *)
| ShowResults                             (* resultSection.style.display = 'block' *)
| LogError (e : error)                    (* 'ERROR: <message>' and console.error *)
| Disconnect                              (* client.disconnect() *)
| LogDisconnected                         (* 'Disconnected.' *)
| LogComplete.                            (* 'Demo complete.' *)

Definition traced (A : Type) : Type := list event * result A.

Definition lift {A} (r : result A) : traced A := ([], r).
Definition emit (evs : list event) : traced unit := (evs, Ok tt).

Definition bindT {A B} (m : traced A) (f : A -> traced B) : traced B :=
  let '(printed, r) := m in
  match r with
  | Ok a => let '(more, r') := f a in (printed ++ more, r')
  | Throw e => (printed, Throw e)
  end.

Notation "'do' x '<-' m ';' k" := (bindT m (fun x => k))
  (at level 10, x name, m at level 100, k at level 200, only parsing).

(** The template the demo builds from the three addresses. *)
Definition demo_payment (account destination : string) : value :=
  JObj [("RawTransaction",
         JObj [("TransactionType", JStr "Payment");
               ("Account", JStr account);
               ("Destination", JStr destination);
               ("Amount", JStr "1000000");
               ("Fee", JStr "0");
               ("Flags", JInt 1073741824)])].

Definition batchTemplate (a1 a2 a3 : string) : value :=
  JObj [("TransactionType", JStr "Batch");
        ("Account", JStr a1);
        ("Flags", JInt 262144);
        ("RawTransactions", JArr [demo_payment a1 a3; demo_payment a2 a3])].

(** [code.includes('telLAST_LEDGER_SEQUENCE')]: a search in a string, a
    membership test in an array; nothing else has the method. *)
Definition includes_expired (code : value) : result bool :=
  match code with
  | JPrim (PStr s) => Ok (Cli.includes "telLAST_LEDGER_SEQUENCE" s)
  | JArr l => Ok (existsb (fun x => strict_eq_str x "telLAST_LEDGER_SEQUENCE") l)
  | _ => Throw (Lib Web.TypeError)
  end.

Section Run.
(** The calls that leave the page.  [newClient] is the construction of
    the client; [fundWallet i] the i-th funding, which resolves to an
    object holding a wallet; [autofill] and [sign] resolve to objects;
    [submitAndWait i] is the i-th submission. *)
Variable newClient : Web.result unit.
Variable connect : Web.result unit.
Variable serverInfo : Web.result value.
Variable fundWallet : nat -> Web.result wallet.
Variable autofill : value -> Web.result (list (string * value)).
Variable getLedgerIndex : Web.result Z.
Variable signMultiBatch : wallet -> value -> Web.result value.
Variable sign : wallet -> value -> Web.result (list (string * value)).
Variable submitAndWait : nat -> value -> Web.result value.
Variable disconnect : Web.result unit.

(** The loop [for (let attempt = 1; attempt <= 2; attempt++)], with
    [left] turns to go; its variables are the blob in [signedOuter] and
    the object [autofilled]. *)
Fixpoint attempts (left attempt : nat) (payer : wallet) (blob : value)
    (autofilled : list (string * value)) : traced unit :=
  match left with
  | O => lift (Ok tt)
  | S left' =>
      do _ <- emit [Submit attempt blob];
      do response <- lift (lib (submitAndWait attempt blob));
      do inner <- lift (read response "result");
      do meta <- lift (read inner "meta");
      do code <- lift (read meta "TransactionResult");
      if strict_eq_str code "tesSUCCESS"
      then
        do hash <- lift (read inner "hash");
        emit [LogSuccess hash; ShowResults]
      else
        do expired <- lift (includes_expired code);
        if expired
        then
          do _ <- emit [LogExpired];
          let autofilled' := set_prop "Fee" (JStr "200") autofilled in
          do _ <- emit [OuterSign payer (JObj autofilled')];
          do newSigned <- lift (lib (sign payer (JObj autofilled')));
          attempts left' (S attempt) payer (own_prop "tx_blob" newSigned) autofilled'
        else
          do message <- lift (read meta "TransactionResultMessage");
          lift (Throw (Failed code message))
  end.

(** The body of the [try]. *)
Definition demo_body : traced unit :=
  do _ <- lift (lib newClient);
  do _ <- emit [Connect];
  do _ <- lift (lib connect);
  do _ <- emit [ServerInfo];
  do info <- lift (lib serverInfo);
  do inner <- lift (read info "result");
  do details <- lift (read inner "info");
  do version <- lift (read details "build_version");
  do _ <- emit [LogVersion version];
  do _ <- emit [Fund 1];
  do acc1 <- lift (lib (fundWallet 1));
  do _ <- emit [Fund 2];
  do acc2 <- lift (lib (fundWallet 2));
  do _ <- emit [Fund 3];
  do acc3 <- lift (lib (fundWallet 3));
  do _ <- emit [LogAccounts (address acc1) (address acc2) (address acc3)];
  let template := batchTemplate (address acc1) (address acc2) (address acc3) in
  do _ <- emit [Autofill template];
  do filled <- lift (lib (autofill template));
  do _ <- emit [LedgerIndex];
  do currentLedger <- lift (lib getLedgerIndex);
  let autofilled :=
    set_prop "LastLedgerSequence" (JInt (currentLedger + 60))
      (set_prop "Fee" (JStr "100") filled) in
  let batchCopy := json_value (JObj autofilled) in
  do _ <- emit [Signing acc2 batchCopy];
  do signers <- lift (lib (signMultiBatch acc2 batchCopy));
  if negb (truthy (get_opt signers "length"))
  then lift (Throw (Lib Web.NoBatchSigner))
  else
    do first <- lift (lib (Web.index0 signers));
    do signerEntry <- lift (read first "BatchSigner");
    let signersArray := JArr [JObj [("BatchSigner", signerEntry)]] in
    let fullBatch := JObj (set_prop "BatchSigners" signersArray autofilled) in
    do _ <- emit [ShowSigners signersArray; ShowFullBatch fullBatch];
    do _ <- emit [OuterSign acc1 fullBatch];
    do signedOuter <- lift (lib (sign acc1 fullBatch));
    do _ <- attempts 2 1 acc1 (own_prop "tx_blob" signedOuter) autofilled;
    emit [ShowResults].

(** [runDevnetDemo()]: the [catch] reports every error of the body, the
    [finally] disconnects a client that was constructed.  The promise is
    rejected only when the disconnection throws. *)
Definition runDevnetDemo : list event * result unit :=
  let run := demo_body in
  let reported :=
    match snd run with
    | Ok _ => fst run
    | Throw e => fst run ++ [LogError e]
    end in
  match newClient with
  | Ok _ =>
      match disconnect with
      | Ok _ => (reported ++ [Disconnect; LogDisconnected; LogComplete], Ok tt)
      | Throw e => (reported ++ [Disconnect], Throw (Lib e))
      end
  | Throw _ => (reported ++ [LogComplete], Ok tt)
  end.
End Run.

End Demo.

(** ** batchSignerTool.js: the test mode *)

Module TestMode.

(** What the [try] of [runTestMode] can catch before it calls a signing
    function. *)
Inductive error :=
| Assigning (e : Roles.error)     (* thrown by [assignAccountRoles], or by the engine *)
| FileNotFound (path : string)    (* 'Batch transaction file not found: <path>' *)
| Unreadable.                     (* thrown by [readFileSync] or [JSON.parse] *)

Abbreviation result := (result error).

Definition assigning {A} (r : Roles.result A) : result A :=
  match r with
  | Ok a => Ok a
  | Throw e => Throw (Assigning e)
  end.

(** The property read, for the names [accounts], [length], [tokenInfo],
    [currency], [issuer], [role], [address] and [seed]. *)
Definition read (v : value) (k : string) : result value := assigning (Roles.read v k).

(** How the mode ends: without accounts, with the error line of its
    [catch], with the line about an invalid choice, or in the call of one
    of the four signing functions. *)
Inductive action :=
| NoAccounts
| Failed (e : error)
| InvalidChoice
| SignatureOnly (batchTx signerSeed : value)
    (* generateBatchSignature(batchTx, signerSeed) *)
| MultipleSignatures (batchTx : value) (signerSeeds : list value)
    (* generateMultipleBatchSignatures(batchTx, signerSeeds) *)
| CompleteWorkflow (batchTx signerSeed parentSeed : value)
    (* generateAndSubmitBatch(batchTx, signerSeed, parentSeed) *)
| CompleteMultiWorkflow (batchTx : value) (signerSeeds : list value) (parentSeed : value).
    (* generateAndSubmitMultiSignerBatch(batchTx, signerSeeds, parentSeed) *)

Section Files.
(** The file system and [JSON.parse]; [None] is a throw. *)
Variable existsSync : string -> bool.
Variable readFileSync : string -> option string.
Variable parse : string -> option value.

(** [loadDevnetAccounts()]: [null] without the file, and when reading or
    parsing it throws. *)
Definition loadDevnetAccounts : value :=
  if existsSync "devnetAccounts.json"
  then match readFileSync "devnetAccounts.json" with
       | Some fileContent =>
           match parse fileContent with
           | Some parsed => parsed
           | None => JNull
           end
       | None => JNull
       end
  else JNull.

(** The loading of the batch, from a file only. *)
Definition loadBatch (batchTxPath : string) : result value :=
  if existsSync batchTxPath
  then match readFileSync batchTxPath with
       | Some fileContent =>
           match parse fileContent with
           | Some parsed => Ok parsed
           | None => Throw Unreadable
           end
       | None => Throw Unreadable
       end
  else Throw (FileNotFound batchTxPath).

(** The lines about the roles: they read [role] and [address] of every
    signer when there are several, of the first one otherwise. *)
Definition describe (roles : Roles.assignment) : result unit :=
  let* _ :=
    if Roles.isMultiSigner roles
    then map_result (fun signer => let* _ := read signer "role" in read signer "address")
           (Roles.signerAccounts roles)
    else
      let first := nth 0 (Roles.signerAccounts roles) JUndefined in
      let* _ := read first "role" in
      let* a := read first "address" in Ok [a] in
  let* _ := read (Roles.parentAccount roles) "address" in
  Ok tt.

(** The body of the [try], from the accounts on; [choice] is the answer
    to the question, trimmed. *)
Definition test_body (devnetAccounts : value) (batchTxPath choice : string)
  : result action :=
  let* accounts := read devnetAccounts "accounts" in
  let* _ := read accounts "length" in
  let* tokenInfo := read devnetAccounts "tokenInfo" in
  let* _ := read tokenInfo "currency" in
  let* _ := read tokenInfo "issuer" in
  let* batchTx := loadBatch batchTxPath in
  let* roles := assigning (snd (Roles.assignAccountRoles batchTx devnetAccounts)) in
  let* _ := describe roles in
  let first := nth 0 (Roles.signerAccounts roles) JUndefined in
  if String.eqb choice "1" then
    if Roles.isMultiSigner roles
    then let* signerSeeds :=
           map_result (fun account => read account "seed") (Roles.signerAccounts roles) in
         Ok (MultipleSignatures batchTx signerSeeds)
    else let* signerSeed := read first "seed" in
         Ok (SignatureOnly batchTx signerSeed)
  else if String.eqb choice "2" then
    if Roles.isMultiSigner roles
    then let* signerSeeds :=
           map_result (fun account => read account "seed") (Roles.signerAccounts roles) in
         let* parentSeed := read (Roles.parentAccount roles) "seed" in
         Ok (CompleteMultiWorkflow batchTx signerSeeds parentSeed)
    else let* signerSeed := read first "seed" in
         let* parentSeed := read (Roles.parentAccount roles) "seed" in
         Ok (CompleteWorkflow batchTx signerSeed parentSeed)
  else Ok InvalidChoice.

(** [runTestMode(batchTxPath)], up to the call it makes. *)
Definition runTestMode (batchTxPath choice : string) : action :=
  let devnetAccounts := loadDevnetAccounts in
  if negb (truthy devnetAccounts) then NoAccounts
  else
    match test_body devnetAccounts batchTxPath choice with
    | Ok act => act
    | Throw e => Failed e
    end.
End Files.

End TestMode.

(** ** Facts about the command-line tool *)

Module CliFacts.
Import Cli.

Lemma prefix_empty (s : string) : String.prefix "" s = true.
Proof. now destruct s. Qed.

Lemma prefix_s (s : string) :
  String.prefix "s" s = true <-> exists rest, s = String "s"%char rest.
Proof.
  destruct s as [|c rest]; cbn -[Ascii.ascii_dec].
  - split; [discriminate | intros [r Hr]; discriminate].
  - destruct (Ascii.ascii_dec "s" c) as [<-|Hne].
    + rewrite prefix_empty. split; [eauto | reflexivity].
    + split; [discriminate | intros [r Hr]; congruence].
Qed.

Lemma validateSeed_string (s : string) :
  validateSeed (JStr s) = Ok true <->
  String.prefix "s" s = true /\ (25 <= String.length s)%nat.
Proof.
  unfold validateSeed. simpl.
  destruct (String.eqb_spec s "") as [->|Hne]; simpl.
  - split; [discriminate | intros [Hp _]; discriminate].
  - destruct (String.prefix "s" s); simpl.
    + destruct (Nat.ltb_spec (String.length s) 25) as [Hlt|Hge].
      * split; [discriminate | intros [_ Hlen]; lia].
      * split; auto.
    + split; [discriminate | intros [Hp _]; discriminate].
Qed.

(** C9. [validateSeed] returns [true] exactly on a string that starts with
    the character s and has at least 25 code units, and throws on every
    other value; nothing else about the seed (alphabet, checksum) is
    looked at. *)
Theorem validateSeed_accepts_iff (seed : value) :
  (validateSeed seed = Ok true <->
     exists s, seed = JStr s
               /\ (exists rest, s = String "s"%char rest)
               /\ (25 <= String.length s)%nat)
  /\ (validateSeed seed = Ok true \/ exists e, validateSeed seed = Throw e).
Proof.
  split.
  - split.
    + destruct seed as [[| |b|n|s]|l|o]; try discriminate.
      * now destruct b.
      * unfold validateSeed. now destruct (negb (truthy (JNum n))).
      * intros H. apply validateSeed_string in H. destruct H as [Hp Hlen].
        exists s. rewrite <- prefix_s. auto.
    + intros (s & -> & Hp & Hlen). apply validateSeed_string.
      rewrite prefix_s. auto.
  - destruct (validateSeed seed) as [[|]|e] eqn:Hv; eauto.
    exfalso. unfold validateSeed in Hv.
    destruct (negb (truthy seed) || negb (String.eqb (typeof seed) "string")); [discriminate|].
    destruct seed as [[| |b|n|s]|l|o]; try discriminate.
    destruct (negb (String.prefix "s" s)); [discriminate|].
    destruct (Nat.ltb (String.length s) 25); discriminate.
Qed.

(** The three errors of [validateSeed], each with the inputs that raise it. *)
Lemma validateSeed_errors (seed : value) (e : error) :
  validateSeed seed = Throw e ->
  (e = SeedNotString /\ (forall s, seed = JStr s -> s = ""))
  \/ (exists s, seed = JStr s /\ e = SeedPrefix /\ String.prefix "s" s = false)
  \/ (exists s, seed = JStr s /\ e = SeedTooShort /\ (String.length s < 25)%nat).
Proof.
  unfold validateSeed.
  destruct (negb (truthy seed) || negb (String.eqb (typeof seed) "string")) eqn:Hs.
  - intros [= <-]. left. split; [reflexivity|]. intros s ->.
    destruct s; [reflexivity | discriminate].
  - destruct seed as [[| |b|n|s]|l|o]; simpl in Hs;
      try rewrite orb_true_r in Hs; try discriminate.
    destruct (String.prefix "s" s) eqn:Hp; simpl.
    + destruct (Nat.ltb_spec (String.length s) 25) as [Hlt|Hge]; [|discriminate].
      intros [= <-]. right; right. eauto.
    + intros [= <-]. right; left. eauto.
Qed.

(** [validateBatchTransaction] accepts exactly the objects whose
    [TransactionType] is the string Batch and whose [RawTransactions] is a
    non-empty array. *)
Lemma validateBatchTransaction_accepts_iff (batchTx : value) :
  validateBatchTransaction batchTx = Ok true <->
  exists props first rest,
    batchTx = JObj props /\
    own_prop "TransactionType" props = JStr "Batch" /\
    own_prop "RawTransactions" props = JArr (first :: rest).
Proof.
  unfold validateBatchTransaction, read. split.
  - destruct (negb (truthy batchTx) || negb (String.eqb (typeof batchTx) "object")) eqn:Hobj;
      [discriminate|].
    destruct batchTx as [[| |b|n|s]|l|o]; simpl in Hobj;
      try rewrite orb_true_r in Hobj; try discriminate.
    simpl.
    destruct (own_prop "TransactionType" o) as [[| |b|n|s]|l|o'] eqn:Ht;
      simpl; try discriminate.
    destruct (String.eqb_spec s "Batch") as [->|Hne]; simpl; [|discriminate].
    destruct (own_prop "RawTransactions" o) as [p|[|x l]|o'] eqn:Hr;
      simpl; try discriminate.
    intros _. eauto 6.
  - intros (props & first & rest & -> & Ht & Hr). simpl. rewrite Ht, Hr. reflexivity.
Qed.

Lemma validateBatchTransaction_total (batchTx : value) :
  validateBatchTransaction batchTx = Ok true \/
  exists e, validateBatchTransaction batchTx = Throw e /\
            (e = NotAnObject \/ e = NotABatch \/ e = NoRawTransactions).
Proof.
  unfold validateBatchTransaction.
  destruct (negb (truthy batchTx) || negb (String.eqb (typeof batchTx) "object")) eqn:Hobj;
    [eauto 6|].
  unfold read. destruct (get batchTx "TransactionType") as [kind|] eqn:Hk; simpl.
  2:{ destruct batchTx as [[| |b|n|s]|l|o]; simpl in *; discriminate. }
  destruct (negb (strict_eq_str kind "Batch")); [eauto 6|].
  destruct (get batchTx "RawTransactions") as [raw|] eqn:Hr; simpl.
  2:{ destruct batchTx as [[| |b|n|s]|l|o]; simpl in *; discriminate. }
  destruct raw as [p|l|o]; eauto 6.
  destruct (Nat.eqb (List.length l) 0); eauto 6.
Qed.

(** *** The involvement checker *)

Lemma strict_eq_str_true (v : value) (s : string) :
  strict_eq_str v s = true <-> v = JStr s.
Proof.
  destruct v as [[| |b|n|s']|l|o]; simpl; try (split; [discriminate | intros [=]]).
  destruct (String.eqb_spec s' s) as [->|Hne]; split; congruence.
Qed.

Lemma strict_eq_str_false (v : value) (s : string) :
  strict_eq_str v s = false <-> v <> JStr s.
Proof.
  rewrite <- strict_eq_str_true. destruct (strict_eq_str v s); split; congruence.
Qed.

Lemma filter_none {A} (f : A -> bool) (l : list A) :
  List.length (List.filter f l) = 0%nat <-> forall x, In x l -> f x = false.
Proof.
  induction l as [|a l IH]; simpl.
  - split; [intros _ x [] | reflexivity].
  - destruct (f a) eqn:Ha; simpl.
    + split; [discriminate|]. intros H. specialize (H a (or_introl eq_refl)). congruence.
    + rewrite IH. split.
      * intros H x [<-|Hx]; auto.
      * intros H x Hx. apply H. now right.
Qed.

(** The number of inner transactions whose [Account] is [signer]. *)
Definition involved_count (accounts : list value) (signer : string) : nat :=
  List.length (List.filter (fun account => strict_eq_str account signer) accounts).

Lemma involved_count_zero (accounts : list value) (signer : string) :
  involved_count accounts signer = 0%nat <-> ~ In (JStr signer) accounts.
Proof.
  unfold involved_count. rewrite filter_none. split.
  - intros H Hin. specialize (H _ Hin). simpl in H. now rewrite String.eqb_refl in H.
  - intros H x Hx. apply strict_eq_str_false. intros ->. contradiction.
Qed.

Lemma read_same_object (v : value) (k k' : string) (x : value) :
  read v k = Ok x -> read v k' = Ok (get_opt v k').
Proof.
  unfold read, get_opt. destruct v as [[| |b|n|s]|l|o]; simpl; try discriminate; reflexivity.
Qed.

Lemma inner_accounts_read (batchTx : value) (accounts : list value) (k : string) :
  inner_accounts batchTx = Ok accounts -> read batchTx k = Ok (get_opt batchTx k).
Proof.
  unfold inner_accounts. intros H.
  destruct (read batchTx "RawTransactions") as [raw|e] eqn:Hr; [|discriminate].
  eapply read_same_object; eauto.
Qed.

(** With readable inner accounts the checker is decided by two tests. *)
Lemma checkSignerInvolvement_eq (batchTx : value) (signer : string) (accounts : list value) :
  inner_accounts batchTx = Ok accounts ->
  checkSignerInvolvement batchTx signer =
    if strict_eq_str (get_opt batchTx "Account") signer
    then Throw (SubmitterIsSigner signer (involved_count accounts signer))
    else if Nat.eqb (involved_count accounts signer) 0
         then Ok [WarnNotInvolved signer; WarnMayNotBeRequired]
         else Ok [LogInvolved signer (involved_count accounts signer)].
Proof.
  intros H. unfold checkSignerInvolvement. rewrite H. simpl.
  rewrite (inner_accounts_read _ _ "Account" H). reflexivity.
Qed.

(** When the candidate is the outer [Account] the checker never returns. *)
Lemma checkSignerInvolvement_submitter (batchTx : value) (signer : string) :
  get_opt batchTx "Account" = JStr signer ->
  exists e, checkSignerInvolvement batchTx signer = Throw e /\
            (e = TypeError \/ exists n, e = SubmitterIsSigner signer n).
Proof.
  intros Hacc. destruct (inner_accounts batchTx) as [accounts|e] eqn:Hin.
  - rewrite (checkSignerInvolvement_eq _ _ _ Hin), Hacc. simpl.
    rewrite String.eqb_refl. eauto 6.
  - unfold checkSignerInvolvement. rewrite Hin. simpl. exists e. split; [reflexivity|].
    left. unfold inner_accounts, read in Hin.
    destruct (get batchTx "RawTransactions") as [raw|]; simpl in Hin; [|congruence].
    destruct raw as [p|l|o]; try congruence.
    revert Hin. unfold map_result. generalize 0%nat. revert e.
    induction l as [|x l IH]; intros e i; simpl; [discriminate|].
    destruct (get x "RawTransaction") as [tx|]; simpl; [|congruence].
    destruct (get tx "Account") as [a|]; simpl; [|congruence].
    destruct (map_from _ (S i) l) eqn:Hrest; simpl; [discriminate|].
    intros [= <-]. eapply IH; eauto.
Qed.

(** *** The signing run *)

Section Run.
Variable fromSeed : value -> result wallet.
Variable signMultiBatch : wallet -> value -> sign_options -> result value.

Abbreviation body := (signature_body fromSeed signMultiBatch).
Abbreviation run := (generateBatchSignature fromSeed signMultiBatch).

(** Up to the call of the library the run is decided by the four checks. *)
Lemma signature_body_checked
    (batchTx seed : value) (options : sign_options) (w : wallet) (lines : list console) :
  validateBatchTransaction batchTx = Ok true ->
  validateSeed seed = Ok true ->
  fromSeed seed = Ok w ->
  checkSignerInvolvement batchTx (address w) = Ok lines ->
  exists rest,
    fst (body batchTx seed options) =
      LogAddress (address w) :: List.map Printed lines ++ Signing w batchTx :: rest.
Proof.
  intros Hv Hs Hw Hc. unfold signature_body, bindT, lift, emit.
  rewrite Hv. simpl. rewrite Hs. simpl. rewrite Hw. simpl. rewrite Hc. simpl.
  destruct (signMultiBatch w batchTx options) as [signers|e]; simpl;
    [|eexists; reflexivity].
  destruct (index0 signers) as [first|e]; simpl; [|eexists; reflexivity].
  destruct (read first "BatchSigner"); simpl; eexists; reflexivity.
Qed.

(** A check that throws ends the body before the library is called. *)
Lemma signature_body_blocked
    (batchTx seed : value) (options : sign_options) (w : wallet) (e : error) :
  fromSeed seed = Ok w ->
  checkSignerInvolvement batchTx (address w) = Throw e ->
  existsb is_signing (fst (body batchTx seed options)) = false /\
  exists e', snd (body batchTx seed options) = Throw e' /\
    (validateBatchTransaction batchTx = Ok true -> validateSeed seed = Ok true -> e' = e).
Proof.
  intros Hw Hc. unfold signature_body, bindT, lift, emit.
  destruct (validateBatchTransaction batchTx) as [b|e1] eqn:Hv; simpl.
  2:{ split; [reflexivity|]. exists e1. split; [reflexivity | discriminate]. }
  destruct (validateSeed seed) as [b'|e2] eqn:Hs; simpl.
  2:{ split; [reflexivity|]. exists e2. split; [reflexivity | discriminate]. }
  rewrite Hw. simpl. rewrite Hc. simpl. split; [reflexivity|].
  exists e. split; auto.
Qed.

Lemma run_trace (batchTx seed : value) (options : sign_options) :
  fst (run batchTx seed options) =
    fst (body batchTx seed options) ++
    match snd (body batchTx seed options) with
    | Ok _ => []
    | Throw e => [ErrorLine e]
    end.
Proof.
  unfold generateBatchSignature.
  destruct (snd (body batchTx seed options)) as [v|e]; simpl.
  - now rewrite app_nil_r.
  - now destruct (is_submitter_message e).
Qed.

Lemma run_signs_iff (batchTx seed : value) (options : sign_options) :
  existsb is_signing (fst (run batchTx seed options)) =
  existsb is_signing (fst (body batchTx seed options)).
Proof.
  rewrite run_trace, existsb_app.
  destruct (snd (body batchTx seed options)); simpl; now rewrite orb_false_r.
Qed.

End Run.

(** A template in the shape of the repository's payment example: the parent
    submits, two children each send a payment to the other. *)
Definition inner_payment (account destination : string) : value :=
  JObj [("RawTransaction",
         JObj [("TransactionType", JStr "Payment");
               ("Flags", JInt 1073741824);
               ("Account", JStr account);
               ("Destination", JStr destination);
               ("Amount", JStr "1000000");
               ("Fee", JStr "0");
               ("SigningPubKey", JStr "")])].

Definition example_batch : value :=
  JObj [("TransactionType", JStr "Batch");
        ("Account", JStr "rParent");
        ("Flags", JInt 262144);
        ("RawTransactions",
         JArr [inner_payment "rChild1" "rChild2"; inner_payment "rChild2" "rChild1"])].

(** C6. The involvement checker, on a template whose inner accounts can be
    read: a candidate equal to the outer Account makes it throw; a
    candidate that is the Account of at least one inner transaction is
    reported with a plain log line and the checker returns; a candidate
    found nowhere gets two warnings and the checker returns all the same.
    In the signing run only the first case keeps the library from being
    called. *)
Theorem involvement_classification
    (batchTx : value) (signer : string) (accounts : list value) :
  inner_accounts batchTx = Ok accounts ->
  let n := involved_count accounts signer in
  (get_opt batchTx "Account" = JStr signer ->
     checkSignerInvolvement batchTx signer = Throw (SubmitterIsSigner signer n))
  /\ (get_opt batchTx "Account" <> JStr signer -> In (JStr signer) accounts ->
        (1 <= n)%nat /\
        checkSignerInvolvement batchTx signer = Ok [LogInvolved signer n])
  /\ (get_opt batchTx "Account" <> JStr signer -> ~ In (JStr signer) accounts ->
        checkSignerInvolvement batchTx signer =
          Ok [WarnNotInvolved signer; WarnMayNotBeRequired])
  /\ (forall fromSeed signMultiBatch seed options w,
        validateBatchTransaction batchTx = Ok true ->
        validateSeed seed = Ok true ->
        fromSeed seed = Ok w ->
        address w = signer ->
        (existsb is_signing
           (fst (generateBatchSignature fromSeed signMultiBatch batchTx seed options))
         = true
         <-> get_opt batchTx "Account" <> JStr signer)).
Proof.
  intros Hin n. pose proof (checkSignerInvolvement_eq batchTx signer accounts Hin) as Heq.
  fold n in Heq.
  assert (Hsub : get_opt batchTx "Account" = JStr signer ->
                 checkSignerInvolvement batchTx signer = Throw (SubmitterIsSigner signer n)).
  { intros Hacc. rewrite Heq, Hacc. simpl. now rewrite String.eqb_refl. }
  assert (Hother : get_opt batchTx "Account" <> JStr signer ->
                   exists lines, checkSignerInvolvement batchTx signer = Ok lines).
  { intros Hne. apply strict_eq_str_false in Hne. rewrite Heq, Hne.
    destruct (Nat.eqb n 0); eauto. }
  split; [exact Hsub|]. split; [|split].
  - intros Hne Hmem. apply strict_eq_str_false in Hne. rewrite Heq, Hne.
    assert (Hn : n <> 0%nat) by (unfold n; rewrite involved_count_zero; tauto).
    split; [lia|]. destruct (Nat.eqb_spec n 0); [contradiction | reflexivity].
  - intros Hne Hmem. apply strict_eq_str_false in Hne. rewrite Heq, Hne.
    apply involved_count_zero in Hmem. fold n in Hmem. now rewrite Hmem.
  - intros fromSeed sign seed options w Hv Hs Hw <-. rewrite run_signs_iff. split.
    + intros Hsig Hacc.
      destruct (signature_body_blocked fromSeed sign batchTx seed options w _ Hw
                  (Hsub Hacc))
        as [Hno _].
      congruence.
    + intros Hne. destruct (Hother Hne) as [lines Hc].
      destruct (signature_body_checked fromSeed sign batchTx seed options w lines
                  Hv Hs Hw Hc)
        as [rest ->].
      simpl. rewrite existsb_app. simpl. now rewrite orb_true_r.
Qed.

Lemma involvement_classification_witness :
  checkSignerInvolvement example_batch "rParent" = Throw (SubmitterIsSigner "rParent" 0)
  /\ checkSignerInvolvement example_batch "rChild1" = Ok [LogInvolved "rChild1" 1]
  /\ checkSignerInvolvement example_batch "rStranger" =
       Ok [WarnNotInvolved "rStranger"; WarnMayNotBeRequired].
Proof.
  pose proof (fun signer =>
    involvement_classification example_batch signer [JStr "rChild1"; JStr "rChild2"]
      eq_refl) as H.
  split; [|split].
  - apply (H "rParent"). reflexivity.
  - apply (H "rChild1"); [discriminate | simpl; tauto].
  - apply (H "rStranger"); [discriminate|].
    simpl. intros [H1|[H1|[]]]; discriminate.
Defined.

End CliFacts.

(** ** Facts about the web form *)

Module WebFacts.
Import Web.

Local Arguments Z.testbit : simpl never.
Local Arguments Z.land : simpl never.

Lemma land_bit30 (x : Z) :
  Z.eqb (Z.land x tfInnerBatchTxn) 0 = negb (Z.testbit x 30).
Proof.
  change tfInnerBatchTxn with (2 ^ 30).
  destruct (Z.testbit x 30) eqn:Hb; simpl.
  - apply Z.eqb_neq. intros H0.
    assert (Z.testbit (Z.land x (2 ^ 30)) 30 = true)
      by (rewrite Z.land_spec, Hb, Z.pow2_bits_true; [reflexivity | lia]).
    rewrite H0, Z.bits_0 in H. discriminate.
  - apply Z.eqb_eq. apply Z.bits_inj'. intros n Hn.
    rewrite Z.land_spec, Z.bits_0.
    destruct (Z.eq_dec n 30) as [->|Hne].
    + now rewrite Hb.
    + rewrite (Z.pow2_bits_false 30 n) by lia. apply andb_false_r.
Qed.

Lemma own_prop_set_same (k : string) (v : value) (o : list (string * value)) :
  own_prop k (set_prop k v o) = v.
Proof.
  unfold own_prop. induction o as [|[k' v'] o IH]; simpl.
  - now rewrite String.eqb_refl.
  - destruct (String.eqb_spec k' k) as [->|Hne]; simpl.
    + now rewrite String.eqb_refl.
    + destruct (String.eqb_spec k' k); [contradiction | exact IH].
Qed.

Lemma own_prop_set_other (k k' : string) (v : value) (o : list (string * value)) :
  k <> k' -> own_prop k' (set_prop k v o) = own_prop k' o.
Proof.
  intros Hne. unfold own_prop. induction o as [|[k0 v0] o IH]; simpl.
  - destruct (String.eqb_spec k k'); [contradiction | reflexivity].
  - destruct (String.eqb_spec k0 k) as [->|Hne0]; simpl.
    + destruct (String.eqb_spec k k'); [contradiction | reflexivity].
    + destruct (String.eqb_spec k0 k'); [reflexivity | exact IH].
Qed.

Section Validation.
Variable StringToNumber : string -> number.
Variable ArrayToString : list value -> string.

Abbreviation int32_of := (fun v => number_to_int32 (to_number StringToNumber ArrayToString v)).
Abbreviation check := (check_entry StringToNumber ArrayToString).
Abbreviation validate := (validateTemplate StringToNumber ArrayToString).

(** An inner entry the form lets through: its [RawTransaction] is an object
    whose [Fee] is the string 0, whose [SigningPubKey] and [TxnSignature]
    are absent or falsy, and whose [Flags], as a 32-bit integer, have bit 30
    (tfInnerBatchTxn) set. *)
Definition inner_accepted (entry : value) : Prop :=
  exists props,
    get_opt entry "RawTransaction" = JObj props /\
    own_prop "Fee" props = JStr "0" /\
    truthy (own_prop "SigningPubKey" props) = false /\
    truthy (own_prop "TxnSignature" props) = false /\
    Z.testbit (int32_of (own_prop "Flags" props)) 30 = true.

(** A non-empty array counts as existing signers; so does any other truthy
    value with a positive [length]. *)
Definition has_signers (signers : value) : bool :=
  truthy signers && gt0 StringToNumber ArrayToString (get_opt signers "length").

(** A template the form lets through. *)
Definition template_accepted (parsed : value) : Prop :=
  exists props entries account,
    parsed = JObj props /\
    own_prop "TransactionType" props = JStr "Batch" /\
    own_prop "Account" props = JStr account /\ account <> "" /\
    own_prop "RawTransactions" props = JArr entries /\
    (2 <= List.length entries <= 8)%nat /\
    has_signers (own_prop "BatchSigners" props) = false /\
    Forall inner_accepted entries.

Lemma truthy_not_empty (v : value) :
  truthy v && negb (strict_eq_str v "") = truthy v.
Proof.
  destruct v as [[| |b|n|s]|l|o]; simpl; try reflexivity; try apply andb_true_r.
  now destruct (String.eqb s "").
Qed.

Lemma check_entry_ok (i : nat) (entry : value) :
  check i entry = Ok tt <-> inner_accepted entry.
Proof.
  unfold check_entry, inner_accepted, read, get_opt. split.
  - destruct (get entry "RawTransaction") as [tx|]; simpl; [|discriminate].
    destruct tx as [[| |b|n|s]|l|props]; simpl;
      try discriminate; try (rewrite orb_true_r; discriminate).
    destruct (strict_eq_str (own_prop "Fee" props) "0") eqn:Hfee; simpl; [|discriminate].
    rewrite truthy_not_empty.
    destruct (truthy (own_prop "SigningPubKey" props)) eqn:Hkey; simpl; [discriminate|].
    destruct (truthy (own_prop "TxnSignature" props)) eqn:Hsig; simpl; [discriminate|].
    unfold bit_and. rewrite land_bit30.
    destruct (Z.testbit _ 30) eqn:Hbit; simpl; [|discriminate].
    intros _. exists props. apply CliFacts.strict_eq_str_true in Hfee. auto.
  - intros (props & Htx & Hfee & Hkey & Hsig & Hbit).
    destruct (get entry "RawTransaction") as [tx|]; [|discriminate].
    subst tx. simpl. rewrite Hfee. simpl.
    rewrite truthy_not_empty, Hkey, Hsig. simpl.
    unfold bit_and. rewrite land_bit30, Hbit. reflexivity.
Qed.

Lemma check_entry_unit (i : nat) (entry : value) (u : unit) :
  check i entry = Ok u <-> inner_accepted entry.
Proof. destruct u. apply check_entry_ok. Qed.

Lemma check_entries_ok (entries : list value) (i : nat) :
  (exists us, map_from check i entries = Ok us) <-> Forall inner_accepted entries.
Proof.
  revert i. induction entries as [|entry entries IH]; intros i; simpl.
  - split; [constructor | eauto].
  - split.
    + intros [us Hus].
      destruct (check i entry) as [u|e] eqn:Hc; simpl in Hus; [|discriminate].
      destruct (map_from check (S i) entries) as [us'|e] eqn:Hrest;
        simpl in Hus; [|discriminate].
      constructor.
      * eapply check_entry_unit; eauto.
      * eapply IH; eauto.
    + intros H. inversion H as [|? ? Hentry Hrest]; subst.
      apply (check_entry_ok i) in Hentry. rewrite Hentry. simpl.
      apply (IH (S i)) in Hrest. destruct Hrest as [us ->]. simpl. eauto.
Qed.

(** The form accepts exactly the templates of [template_accepted], and
    stores the parsed value unchanged. *)
Lemma validateTemplate_accepts_iff (parsed v : value) :
  validate parsed = Ok v <-> v = parsed /\ template_accepted parsed.
Proof.
  unfold validateTemplate, template_accepted, read. split.
  - destruct parsed as [[| |b|n|s]|l|props]; simpl; try discriminate.
    destruct (own_prop "TransactionType" props) as [[| |b|n|s]|l|o] eqn:Hk;
      simpl; try discriminate.
    destruct (String.eqb_spec s "Batch") as [->|Hne]; simpl; [|discriminate].
    destruct (own_prop "Account" props) as [[| |b|n|a]|l|o] eqn:Ha;
      simpl; try discriminate; try (rewrite orb_true_r; discriminate).
    destruct (String.eqb_spec a "") as [->|Hne]; simpl; [discriminate|].
    destruct (own_prop "RawTransactions" props) as [p|entries|o] eqn:Hr;
      simpl; try discriminate.
    destruct (Nat.ltb_spec (List.length entries) 2) as [Hlt|Hge2]; simpl; [discriminate|].
    destruct (Nat.ltb_spec 8 (List.length entries)) as [Hlt|Hle8]; simpl; [discriminate|].
    fold (has_signers (own_prop "BatchSigners" props)).
    destruct (has_signers (own_prop "BatchSigners" props)) eqn:Hsig; [discriminate|].
    destruct (map_from check 0 entries) as [us|e] eqn:Hentries; simpl; [|discriminate].
    intros [= <-]. split; [reflexivity|].
    exists props, entries, a. repeat split; auto.
    apply (check_entries_ok entries 0%nat). eauto.
  - intros (-> & props & entries & a & -> & Hk & Ha & Hne & Hr & [Hge Hle] & Hsig & Hall).
    simpl. rewrite Hk. simpl. rewrite Ha. simpl.
    destruct (String.eqb_spec a "") as [->|_]; [contradiction|]. simpl.
    rewrite Hr.
    destruct (Nat.ltb_spec (List.length entries) 2) as [Hlt|_]; [lia|].
    destruct (Nat.ltb_spec 8 (List.length entries)) as [Hlt|_]; [lia|]. simpl.
    fold (has_signers (own_prop "BatchSigners" props)). rewrite Hsig.
    apply (check_entries_ok entries 0%nat) in Hall. destruct Hall as [us ->].
    reflexivity.
Qed.

Lemma has_signers_array (first : value) (rest : list value) :
  has_signers (JArr (first :: rest)) = true.
Proof.
  unfold has_signers, gt0, get_opt. simpl. unfold of_nat, of_Z. simpl. reflexivity.
Qed.

End Validation.

(** *** What validation lets through *)

(** An inner transaction carrying a fee, a signing key and a signature, and
    lacking the inner flag, inside a batch whose [Flags] are 0. *)
Definition signed_inner : value :=
  JObj [("TransactionType", JStr "Payment");
        ("Flags", JInt 0);
        ("Account", JStr "rChild1");
        ("Destination", JStr "rChild2");
        ("Amount", JStr "1000000");
        ("Fee", JStr "12");
        ("SigningPubKey", JStr "02AB");
        ("TxnSignature", JStr "3045")].

Definition malformed_batch : value :=
  JObj [("TransactionType", JStr "Batch");
        ("Account", JStr "rParent");
        ("Flags", JInt 0);
        ("RawTransactions", JArr [JObj [("RawTransaction", signed_inner)]])].

(** The payment example with no bit set in the outer [Flags]. *)
Definition flagless_batch : value :=
  JObj [("TransactionType", JStr "Batch");
        ("Account", JStr "rParent");
        ("Flags", JInt 0);
        ("RawTransactions",
         JArr [CliFacts.inner_payment "rChild1" "rChild2";
               CliFacts.inner_payment "rChild2" "rChild1"])].

(** A batch with a single, well-formed inner transaction. *)
Definition single_batch : value :=
  JObj [("TransactionType", JStr "Batch");
        ("Account", JStr "rParent");
        ("Flags", JInt 262144);
        ("RawTransactions", JArr [CliFacts.inner_payment "rChild1" "rParent"])].

(** The engine conversions used where a concrete run is shown; the
    templates of the examples hold numbers wherever a number is read, so
    the conversions of strings and arrays are never called. *)
Definition no_number (_ : string) : number := NaN.
Definition no_text (_ : list value) : string := "".

(** Validation does not fail exactly on the listed defects.  The
    command-line validation passes a template that has every inner defect
    of the list and no bit at all in its outer [Flags]; the form passes a
    template with no bit in its outer [Flags], and refuses a template
    without any of the defects because it has a single inner transaction. *)
Lemma validation_misses_defects :
  Cli.validateBatchTransaction malformed_batch = Ok true
  /\ get_opt malformed_batch "Flags" = JInt 0
  /\ get_opt malformed_batch "RawTransactions" = JArr [JObj [("RawTransaction", signed_inner)]]
  /\ get_opt signed_inner "Fee" = JStr "12"
  /\ get_opt signed_inner "SigningPubKey" = JStr "02AB"
  /\ get_opt signed_inner "TxnSignature" = JStr "3045"
  /\ get_opt signed_inner "Flags" = JInt 0
  /\ validateTemplate no_number no_text flagless_batch = Ok flagless_batch
  /\ get_opt flagless_batch "Flags" = JInt 0
  /\ validateTemplate no_number no_text single_batch = Throw BadRawTransactions
  /\ Cli.validateBatchTransaction single_batch = Ok true.
Proof. repeat split. Qed.

(** Whatever the engine's conversions, the form refuses the single inner
    transaction and passes the template without flags. *)
Lemma web_validation_on_examples (stn : string -> number) (ats : list value -> string) :
  validateTemplate stn ats single_batch = Throw BadRawTransactions
  /\ validateTemplate stn ats flagless_batch = Ok flagless_batch.
Proof. split; reflexivity. Qed.

(** C1 (as amended). The command-line validation returns [true] exactly on
    an object whose TransactionType is the string Batch and whose
    RawTransactions is a non-empty array, and throws one of its three
    errors otherwise; it reads neither Flags nor the inner transactions.
    The form accepts exactly the templates of [template_accepted] (kind
    Batch, a non-empty string Account, 2 to 8 inner entries, no existing
    signers, every inner entry with Fee 0, no signing key, no signature and
    the inner flag) and throws otherwise; the outer Flags are not read. *)
Theorem validation_accepts_exactly :
  (forall batchTx : value,
      (Cli.validateBatchTransaction batchTx = Ok true <->
         exists props first rest,
           batchTx = JObj props /\
           own_prop "TransactionType" props = JStr "Batch" /\
           own_prop "RawTransactions" props = JArr (first :: rest))
      /\ (Cli.validateBatchTransaction batchTx = Ok true \/
          exists e, Cli.validateBatchTransaction batchTx = Throw e /\
                    (e = Cli.NotAnObject \/ e = Cli.NotABatch \/ e = Cli.NoRawTransactions)))
  /\ (forall (stn : string -> number) (ats : list value -> string) (parsed : value),
         (validateTemplate stn ats parsed = Ok parsed <-> template_accepted stn ats parsed)
         /\ (validateTemplate stn ats parsed = Ok parsed \/
             exists e, validateTemplate stn ats parsed = Throw e)).
Proof.
  split.
  - intros batchTx. split.
    + apply CliFacts.validateBatchTransaction_accepts_iff.
    + apply CliFacts.validateBatchTransaction_total.
  - intros stn ats parsed. split.
    + rewrite validateTemplate_accepts_iff. tauto.
    + destruct (validateTemplate stn ats parsed) as [v|e] eqn:Hv; [|eauto].
      apply validateTemplate_accepts_iff in Hv. destruct Hv as [-> _]. now left.
Qed.

(** *** Templates that already carry signers *)

(** C10. The form rejects every template whose BatchSigners is a non-empty
    array: validation throws whatever else the template holds, and a
    template the form accepts is refused with the message about existing
    BatchSigners once such an array is put into it. *)
Theorem existing_signers_rejected
    (stn : string -> number) (ats : list value -> string)
    (first : value) (rest : list value) :
  (forall parsed : value,
      get_opt parsed "BatchSigners" = JArr (first :: rest) ->
      exists e, validateTemplate stn ats parsed = Throw e)
  /\ (forall props : list (string * value),
         validateTemplate stn ats (JObj props) = Ok (JObj props) ->
         validateTemplate stn ats
           (JObj (set_prop "BatchSigners" (JArr (first :: rest)) props))
         = Throw HasBatchSigners).
Proof.
  split.
  - intros parsed Hsig.
    destruct (validateTemplate stn ats parsed) as [v|e] eqn:Hv; [|eauto].
    apply validateTemplate_accepts_iff in Hv.
    destruct Hv as (_ & props & entries & a & -> & _ & _ & _ & _ & _ & Hno & _).
    unfold get_opt in Hsig. simpl in Hsig. rewrite Hsig in Hno.
    rewrite has_signers_array in Hno. discriminate.
  - intros props Hok. apply validateTemplate_accepts_iff in Hok.
    destruct Hok as (_ & props' & entries & a & [= <-] & Hk & Ha & Hne & Hr & [Hge Hle] & _ & _).
    unfold validateTemplate, read. simpl.
    rewrite !own_prop_set_other by discriminate.
    rewrite own_prop_set_same, Hk. simpl. rewrite Ha. simpl.
    destruct (String.eqb_spec a "") as [->|_]; [contradiction|]. simpl.
    rewrite Hr.
    destruct (Nat.ltb_spec (List.length entries) 2) as [Hlt|_]; [lia|].
    destruct (Nat.ltb_spec 8 (List.length entries)) as [Hlt|_]; [lia|].
    reflexivity.
Qed.

Definition stale_signer : value :=
  JObj [("BatchSigner",
         JObj [("Account", JStr "rChild1");
               ("SigningPubKey", JStr "02AB");
               ("TxnSignature", JStr "3045")])].

Lemma existing_signers_rejected_witness :
  validateTemplate no_number no_text CliFacts.example_batch = Ok CliFacts.example_batch
  /\ validateTemplate no_number no_text
       (JObj (set_prop "BatchSigners" (JArr [stale_signer])
                [("TransactionType", JStr "Batch");
                 ("Account", JStr "rParent");
                 ("Flags", JInt 262144);
                 ("RawTransactions",
                  JArr [CliFacts.inner_payment "rChild1" "rChild2";
                        CliFacts.inner_payment "rChild2" "rChild1"])]))
     = Throw HasBatchSigners.
Proof.
  split; [reflexivity|].
  apply (existing_signers_rejected no_number no_text stale_signer []).
  reflexivity.
Defined.

End WebFacts.

(** ** A commitment for the submitter's own address *)

Module SelfCommitment.

Lemma get_opt_string (v : value) (k s : string) :
  get_opt v k = JStr s -> get v k = Some (JStr s).
Proof.
  unfold get_opt. destruct (get v k); [congruence | discriminate].
Qed.

(** The form stops at its first test. *)
Lemma generateClick_submitter
    (signMultiBatch : wallet -> value -> Web.result value) (confirm : bool)
    (batchTemplate : value) (w : wallet) :
  get_opt batchTemplate "Account" = JStr (address w) ->
  Web.generateClick signMultiBatch confirm (Some batchTemplate) (Some w)
  = ([Web.Alert Web.SeedMatchesAccount], None).
Proof.
  intros Hacc. apply get_opt_string in Hacc.
  unfold Web.generateClick, Web.generate_body, Web.bindT, Web.lift, Web.read.
  rewrite Hacc. simpl. rewrite String.eqb_refl. reflexivity.
Qed.

(** The command-line run ends before the library is called. *)
Lemma generateBatchSignature_submitter
    (fromSeed : value -> Cli.result wallet)
    (signMultiBatch : wallet -> value -> Cli.sign_options -> Cli.result value)
    (batchTx seed : value) (options : Cli.sign_options) (w : wallet) :
  fromSeed seed = Ok w ->
  get_opt batchTx "Account" = JStr (address w) ->
  let run := Cli.generateBatchSignature fromSeed signMultiBatch batchTx seed options in
  existsb Cli.is_signing (fst run) = false
  /\ (forall v, snd run <> Cli.Returned v)
  /\ (forall accounts,
         Cli.validateBatchTransaction batchTx = Ok true ->
         Cli.validateSeed seed = Ok true ->
         Cli.inner_accounts batchTx = Ok accounts ->
         run = ([Cli.LogAddress (address w);
                 Cli.ErrorLine
                   (Cli.SubmitterIsSigner (address w)
                      (CliFacts.involved_count accounts (address w)))],
                Cli.Exited 1)).
Proof.
  intros Hw Hacc run.
  destruct (CliFacts.checkSignerInvolvement_submitter _ _ Hacc) as (e & He & _).
  destruct (CliFacts.signature_body_blocked fromSeed signMultiBatch batchTx seed options
              w e Hw He)
    as (Hno & e' & Hthrow & Hsame).
  split; [|split].
  - unfold run. now rewrite CliFacts.run_signs_iff.
  - intros v. unfold run, Cli.generateBatchSignature. rewrite Hthrow.
    now destruct (Cli.is_submitter_message e').
  - intros accounts Hv Hs Hin.
    rewrite (CliFacts.checkSignerInvolvement_eq _ _ _ Hin), Hacc in He.
    simpl in He. rewrite String.eqb_refl in He. injection He as <-.
    unfold run, Cli.generateBatchSignature, Cli.signature_body, Cli.bindT, Cli.lift, Cli.emit.
    rewrite Hv. simpl. rewrite Hs. simpl. rewrite Hw. simpl.
    rewrite (CliFacts.checkSignerInvolvement_eq _ _ _ Hin), Hacc.
    simpl. rewrite String.eqb_refl. reflexivity.
Qed.

(** The refusal where it is made: for a signing key whose own address is
    the template's outer Account.  The checker throws the submitter error,
    whatever the number of inner transactions of that same account; the
    command-line run calls the signing library in no case, whatever its
    options are, never returns a signature, and on a template and seed that
    pass validation prints the address, then that error, and exits with
    status 1; the form alerts 'Seed matches outer Batch Account' and
    produces nothing. *)
Lemma own_address_rejected :
  (forall (batchTx : value) (signer : string) (accounts : list value),
      Cli.inner_accounts batchTx = Ok accounts ->
      get_opt batchTx "Account" = JStr signer ->
      Cli.checkSignerInvolvement batchTx signer =
        Throw (Cli.SubmitterIsSigner signer (CliFacts.involved_count accounts signer)))
  /\ (forall fromSeed signMultiBatch (batchTx seed : value) options (w : wallet),
         fromSeed seed = Ok w ->
         get_opt batchTx "Account" = JStr (address w) ->
         let run :=
           Cli.generateBatchSignature fromSeed signMultiBatch batchTx seed options in
         existsb Cli.is_signing (fst run) = false
         /\ (forall v, snd run <> Cli.Returned v)
         /\ (forall accounts,
                Cli.validateBatchTransaction batchTx = Ok true ->
                Cli.validateSeed seed = Ok true ->
                Cli.inner_accounts batchTx = Ok accounts ->
                run = ([Cli.LogAddress (address w);
                        Cli.ErrorLine
                          (Cli.SubmitterIsSigner (address w)
                             (CliFacts.involved_count accounts (address w)))],
                       Cli.Exited 1)))
  /\ (forall signMultiBatch (confirm : bool) (batchTemplate : value) (w : wallet),
         get_opt batchTemplate "Account" = JStr (address w) ->
         Web.generateClick signMultiBatch confirm (Some batchTemplate) (Some w)
         = ([Web.Alert Web.SeedMatchesAccount], None)).
Proof.
  split; [|split].
  - intros batchTx signer accounts Hin Hacc.
    rewrite (CliFacts.checkSignerInvolvement_eq _ _ _ Hin), Hacc.
    simpl. now rewrite String.eqb_refl.
  - intros. now apply generateBatchSignature_submitter.
  - intros. now apply generateClick_submitter.
Qed.

(** A batch whose submitter also sends one of the inner payments. *)
Definition parent_inside_batch : value :=
  JObj [("TransactionType", JStr "Batch");
        ("Account", JStr "rParent");
        ("Flags", JInt 262144);
        ("RawTransactions",
         JArr [CliFacts.inner_payment "rParent" "rChild2";
               CliFacts.inner_payment "rChild2" "rParent"])].

Definition parent : wallet :=
  {| address := "rParent"; publicKey := "02EF"; privateKey := "sParent" |}.

Definition parent_seed : value := JStr "sParentSeedOfTwentyFiveCh".

Lemma own_address_rejected_example :
  Cli.checkSignerInvolvement parent_inside_batch "rParent"
  = Throw (Cli.SubmitterIsSigner "rParent" 1)
  /\ Cli.generateBatchSignature
       (fun _ => Ok parent) (fun _ _ _ => Throw (Cli.External "not reached"))
       parent_inside_batch parent_seed None
     = ([Cli.LogAddress "rParent"; Cli.ErrorLine (Cli.SubmitterIsSigner "rParent" 1)],
        Cli.Exited 1)
  /\ Web.generateClick (fun _ _ => Throw (Web.External "not reached")) true
       (Some parent_inside_batch) (Some parent)
     = ([Web.Alert Web.SeedMatchesAccount], None).
Proof.
  destruct own_address_rejected as (Hcheck & Hrun & Hclick).
  split; [|split].
  - apply (Hcheck parent_inside_batch "rParent" [JStr "rParent"; JStr "rChild2"]);
      reflexivity.
  - destruct (Hrun (fun _ => Ok parent) (fun _ _ _ => Throw (Cli.External "not reached"))
                parent_inside_batch parent_seed None parent eq_refl eq_refl)
      as (_ & _ & Hexit).
    apply (Hexit [JStr "rParent"; JStr "rChild2"]); reflexivity.
  - apply (Hclick (fun _ _ => Throw (Web.External "not reached")) true
             parent_inside_batch parent). reflexivity.
Qed.

(** *** A commitment asked for through [options.batchAccount] *)

(** The events of a run that reaches the library. *)
Definition reaching (w : wallet) (lines : list Cli.console) (batchTx : value)
  : list Cli.event :=
  Cli.LogAddress (address w) :: List.map Cli.Printed lines ++ [Cli.Signing w batchTx].

Lemma index0_error (v : value) (e : Cli.error) :
  Cli.index0 v = Throw e -> e = Cli.TypeError.
Proof.
  destruct v as [[| |b|n|[|c s]]|[|x l]|o]; simpl; congruence.
Qed.

Lemma read_error (v : value) (k : string) (e : Cli.error) :
  Cli.read v k = Throw e -> e = Cli.TypeError.
Proof.
  unfold Cli.read. destruct (get v k); congruence.
Qed.

(** C2. The refusal is tied to the signing key, not to the account the
    commitment is asked for.  With [options.batchAccount] set to the
    template's outer Account and a key of any other address, on a template
    and a seed that pass validation, the checker is asked about the key's
    address only and returns, although it throws for the outer Account
    itself; the library is called with these options, and the run ends as
    the library decides: a signer entry it produces is printed and
    returned, so no self-commitment is refused by the tool. *)
Theorem batch_account_not_checked
    (fromSeed : value -> Cli.result wallet)
    (signMultiBatch : wallet -> value -> Cli.sign_options -> Cli.result value)
    (batchTx seed : value) (w : wallet) (submitter : string) (accounts : list value) :
  Cli.validateBatchTransaction batchTx = Ok true ->
  Cli.validateSeed seed = Ok true ->
  fromSeed seed = Ok w ->
  Cli.inner_accounts batchTx = Ok accounts ->
  get_opt batchTx "Account" = JStr submitter ->
  address w <> submitter ->
  let options := Some (JStr submitter) in
  let run := Cli.generateBatchSignature fromSeed signMultiBatch batchTx seed options in
  Cli.checkSignerInvolvement batchTx submitter =
    Throw (Cli.SubmitterIsSigner submitter (CliFacts.involved_count accounts submitter)) /\
  exists lines,
    Cli.checkSignerInvolvement batchTx (address w) = Ok lines /\
    run =
      match signMultiBatch w batchTx options with
      | Throw e =>
          (reaching w lines batchTx ++ [Cli.ErrorLine e],
           if Cli.is_submitter_message e then Cli.Exited 1 else Cli.Rethrown e)
      | Ok signers =>
          match (let* batchSigner := Cli.index0 signers in
                 Cli.read batchSigner "BatchSigner") with
          | Throw e => (reaching w lines batchTx ++ [Cli.ErrorLine e], Cli.Rethrown e)
          | Ok entry =>
              (reaching w lines batchTx ++ [Cli.LogOutput (JObj [("BatchSigner", entry)])],
               Cli.Returned (JObj [("BatchSigner", entry)]))
          end
      end.
Proof.
  intros Hv Hs Hw Hin Hacc Hne options run. split.
  - rewrite (CliFacts.checkSignerInvolvement_eq _ _ _ Hin), Hacc. simpl.
    now rewrite String.eqb_refl.
  - assert (Hother : strict_eq_str (get_opt batchTx "Account") (address w) = false).
    { rewrite Hacc. simpl. apply String.eqb_neq. congruence. }
    assert (Hlines : exists lines, Cli.checkSignerInvolvement batchTx (address w) = Ok lines).
    { rewrite (CliFacts.checkSignerInvolvement_eq _ _ _ Hin), Hother.
      destruct (Nat.eqb _ 0); eauto. }
    destruct Hlines as [lines Hlines]. exists lines. split; [exact Hlines|].
    unfold run, Cli.generateBatchSignature, Cli.signature_body, Cli.bindT, Cli.lift,
      Cli.emit, reaching.
    rewrite Hv. simpl. rewrite Hs. simpl. rewrite Hw. simpl. rewrite Hlines. simpl.
    destruct (signMultiBatch w batchTx options) as [signers|e]; simpl.
    2:{ rewrite <- app_assoc. now destruct (Cli.is_submitter_message e). }
    destruct (Cli.index0 signers) as [first|e] eqn:Hfirst; simpl.
    2:{ apply index0_error in Hfirst. subst e. simpl. now rewrite <- app_assoc. }
    destruct (Cli.read first "BatchSigner") as [entry|e] eqn:Hentry; simpl.
    2:{ apply read_error in Hentry. subst e. simpl. now rewrite <- app_assoc. }
    now rewrite <- app_assoc.
Qed.

(** A second holder of the batch above, and a stand-in for the library
    that signs for the account it is asked for. *)
Definition child : wallet :=
  {| address := "rChild2"; publicKey := "03CD"; privateKey := "sChild2" |}.

Definition child_seed : value := JStr "sChildSeedOfTwentyFiveCha".

Definition sign_for (w : wallet) (tx : value) (options : Cli.sign_options)
  : Cli.result value :=
  Ok (JArr [JObj [("BatchSigner",
                   JObj [("Account",
                          match options with Some a => a | None => JStr (address w) end);
                         ("SigningPubKey", JStr (publicKey w));
                         ("TxnSignature", JStr "3045")])]]).

Definition parent_entry : value :=
  JObj [("BatchSigner",
         JObj [("Account", JStr "rParent");
               ("SigningPubKey", JStr "03CD");
               ("TxnSignature", JStr "3045")])].

Lemma batch_account_not_checked_witness :
  Cli.checkSignerInvolvement parent_inside_batch "rParent" =
    Throw (Cli.SubmitterIsSigner "rParent" 1) /\
  exists lines,
    Cli.checkSignerInvolvement parent_inside_batch "rChild2" = Ok lines /\
    Cli.generateBatchSignature (fun _ => Ok child) sign_for parent_inside_batch child_seed
      (Some (JStr "rParent")) =
      (reaching child lines parent_inside_batch ++ [Cli.LogOutput parent_entry],
       Cli.Returned parent_entry).
Proof.
  apply (batch_account_not_checked (fun _ => Ok child) sign_for parent_inside_batch
           child_seed child "rParent" [JStr "rParent"; JStr "rChild2"]);
    try reflexivity.
  discriminate.
Defined.

(** The command line that asks for it: a batch file, the seed of the
    child, and the outer Account as the third argument. *)
Lemma batch_account_from_command_line :
  Launcher.runCommandLine (fun _ => true) (fun _ => Some "")
    (fun _ => Some parent_inside_batch)
    ["batch.json"; "sChildSeedOfTwentyFiveCha"; "rParent"]
  = Launcher.SignatureOnly parent_inside_batch child_seed (Some (JStr "rParent")).
Proof. reflexivity. Qed.

End SelfCommitment.

(** ** Facts about the store *)

Module HeapFacts.
Import Heap.

Local Arguments alloc : simpl never.

Lemma value_nested_ind (P : value -> Prop) :
  (forall p, P (JPrim p)) ->
  (forall l, Forall P l -> P (JArr l)) ->
  (forall o, Forall (fun kv => P (snd kv)) o -> P (JObj o)) ->
  forall t, P t.
Proof.
  intros Hp Ha Ho. fix IH 1. intros [p|l|o].
  - apply Hp.
  - apply Ha. induction l as [|x l IHl]; constructor; [apply IH | exact IHl].
  - apply Ho. induction o as [|[k v] o IHo]; constructor; [apply IH | exact IHo].
Qed.

(** Allocation touches no object in use. *)
Lemma alloc_fresh (o : object) (h : heap) : h !! snd (alloc o h) = None.
Proof. unfold alloc. cbn. apply not_elem_of_dom, is_fresh. Qed.

Lemma alloc_extends (o : object) (h : heap) : h ⊆ fst (alloc o h).
Proof. unfold alloc. cbn. apply insert_subseteq, not_elem_of_dom, is_fresh. Qed.

Lemma alloc_lookup (o : object) (h : heap) :
  fst (alloc o h) !! snd (alloc o h) = Some o.
Proof. unfold alloc. cbn. apply lookup_insert_eq. Qed.

Lemma extends_fresh (h h' : heap) (l : loc) : h ⊆ h' -> h' !! l = None -> h !! l = None.
Proof.
  intros Hsub Hnone. destruct (h !! l) as [o|] eqn:Hl; [|reflexivity].
  rewrite (lookup_weaken _ _ _ _ Hl Hsub) in Hnone. discriminate.
Qed.

(** [JSON.parse] builds its tree out of new objects only. *)
Definition allocates_fresh (t : value) : Prop :=
  forall h, h ⊆ fst (alloc_tree t h) /\
            forall a, snd (alloc_tree t h) = HRef a -> h !! a = None.

Lemma alloc_elems_extends (l : list value) :
  Forall allocates_fresh l -> forall h, h ⊆ fst (alloc_elems alloc_tree l h).
Proof.
  induction 1 as [|x l Hx _ IH]; intros h; simpl; [reflexivity|].
  destruct (alloc_tree x h) as [h1 v] eqn:Hx1.
  destruct (alloc_elems alloc_tree l h1) as [h2 vs] eqn:Hl. simpl.
  transitivity h1.
  - destruct (Hx h) as [Hsub _]. now rewrite Hx1 in Hsub.
  - specialize (IH h1). now rewrite Hl in IH.
Qed.

Lemma alloc_props_extends (o : list (string * value)) :
  Forall (fun kv => allocates_fresh (snd kv)) o ->
  forall h, h ⊆ fst (alloc_props alloc_tree o h).
Proof.
  induction 1 as [|[k x] o Hx _ IH]; intros h; simpl in *; [reflexivity|].
  destruct (alloc_tree x h) as [h1 v] eqn:Hx1.
  destruct (alloc_props alloc_tree o h1) as [h2 ps] eqn:Ho. simpl.
  transitivity h1.
  - destruct (Hx h) as [Hsub _]. now rewrite Hx1 in Hsub.
  - specialize (IH h1). now rewrite Ho in IH.
Qed.

Lemma alloc_tree_fresh (t : value) : allocates_fresh t.
Proof.
  induction t as [p|l IH|o IH] using value_nested_ind; intros h; cbn [alloc_tree].
  - split; [reflexivity | discriminate].
  - pose proof (alloc_elems_extends l IH h) as Hsub.
    destruct (alloc_elems alloc_tree l h) as [h1 vs]. simpl in Hsub.
    pose proof (alloc_extends (OArr vs) h1) as Hsub'.
    pose proof (alloc_fresh (OArr vs) h1) as Hnew.
    destruct (alloc (OArr vs) h1) as [h2 a]. simpl in *. split.
    + now transitivity h1.
    + intros a' [= <-]. eapply extends_fresh; eauto.
  - pose proof (alloc_props_extends o IH h) as Hsub.
    destruct (alloc_props alloc_tree o h) as [h1 ps]. simpl in Hsub.
    pose proof (alloc_extends (OObj ps) h1) as Hsub'.
    pose proof (alloc_fresh (OObj ps) h1) as Hnew.
    destruct (alloc (OObj ps) h1) as [h2 a]. simpl in *. split.
    + now transitivity h1.
    + intros a' [= <-]. eapply extends_fresh; eauto.
Qed.

Lemma json_copy_extends (v : hval) (h : heap) : h ⊆ fst (json_copy v h).
Proof.
  unfold json_copy. destruct (reify (S (size h)) h v) as [t|]; [|reflexivity].
  destruct (alloc_tree_fresh (json_text t) h) as [Hsub _].
  now destruct (alloc_tree (json_text t) h).
Qed.

Lemma json_copy_fresh (v : hval) (h : heap) (a : loc) :
  snd (json_copy v h) = Ok (HRef a) -> h !! a = None.
Proof.
  unfold json_copy. destruct (reify (S (size h)) h v) as [t|]; [|discriminate].
  destruct (alloc_tree_fresh (json_text t) h) as [_ Hnew].
  destruct (alloc_tree (json_text t) h) as [h' c]. simpl in *.
  intros [= ->]. now apply Hnew.
Qed.

(** A larger store denotes the same trees. *)
Lemma reify_extends (h h' : heap) (fuel : nat) :
  h ⊆ h' -> forall v t, reify fuel h v = Some t -> reify fuel h' v = Some t.
Proof.
  intros Hsub. induction fuel as [|n IH]; intros [p|l] t; simpl; try (intros H; exact H).
  destruct (h !! l) as [o|] eqn:Hl; [|discriminate].
  rewrite (lookup_weaken _ _ _ _ Hl Hsub).
  destruct o as [elems|props].
  - destruct (mapM (reify n h) elems) as [ts|] eqn:Hm; [|discriminate].
    intros [= <-]. apply mapM_Some in Hm.
    assert (Hm' : mapM (reify n h') elems = Some ts).
    { apply mapM_Some. eapply Forall2_impl; [exact Hm | auto]. }
    now rewrite Hm'.
  - destruct (mapM (fun kv => pair (fst kv) <$> reify n h (snd kv)) props)
      as [ts|] eqn:Hm; [|discriminate].
    intros [= <-]. apply mapM_Some in Hm.
    assert (Hm' : mapM (fun kv => pair (fst kv) <$> reify n h' (snd kv)) props = Some ts).
    { apply mapM_Some. eapply Forall2_impl; [exact Hm|].
      intros [k v] kt. simpl.
      destruct (reify n h v) as [t|] eqn:Hv; [|discriminate].
      intros [= <-]. now rewrite (IH _ _ Hv). }
    now rewrite Hm'.
Qed.

Lemma store_other (l l' : loc) (k : string) (v : hval) (h : heap) :
  l' <> l -> store l k v h !! l' = h !! l'.
Proof.
  intros Hne. unfold store. destruct (h !! l) as [[elems|props]|]; try reflexivity.
  now apply lookup_insert_ne.
Qed.

(** The model of [signMultiBatch] writes the object it is given and no
    other object in use. *)
Lemma signMultiBatch_model_frame (signature : string) (w : wallet) (tx : hval)
    (h : heap) (l : loc) (o : object) :
  tx <> HRef l -> h !! l = Some o ->
  fst (signMultiBatch_model signature w tx h) !! l = Some o.
Proof.
  intros Hne Hl. unfold signMultiBatch_model. destruct tx as [p|a]; [exact Hl|].
  match goal with |- context [alloc ?ob h] =>
    pose proof (alloc_extends ob h) as H1; destruct (alloc ob h) as [h1 signer] end.
  match goal with |- context [alloc ?ob h1] =>
    pose proof (alloc_extends ob h1) as H2; destruct (alloc ob h1) as [h2 element] end.
  match goal with |- context [alloc ?ob h2] =>
    pose proof (alloc_extends ob h2) as H3; destruct (alloc ob h2) as [h3 array] end.
  cbn in *. rewrite store_other by congruence.
  eapply lookup_weaken; [|exact H3]. eapply lookup_weaken; [|exact H2].
  eapply lookup_weaken; [exact Hl | exact H1].
Qed.

(** The merge allocates; it writes into no object in use. *)
Lemma merge_extends (arrange : heap -> hval -> hval -> result (list hval))
    (batchTemplate : loc) (commitments : hval) (h : heap) :
  h ⊆ fst (merge arrange batchTemplate commitments h).
Proof.
  unfold merge. destruct (arrange h (HRef batchTemplate) commitments) as [ordered|e];
    [|reflexivity].
  pose proof (alloc_extends (OArr ordered) h) as H1.
  destruct (alloc (OArr ordered) h) as [h1 signers]. cbn in H1. unfold spread_with.
  set (full := OObj (set_prop "BatchSigners" (HRef signers) (props_at h1 batchTemplate))).
  pose proof (alloc_extends full h1) as H2.
  destruct (alloc full h1) as [h2 merged]. cbn in *. now transitivity h1.
Qed.

Lemma merge_attaches (arrange : heap -> hval -> hval -> result (list hval))
    (batchTemplate : loc) (commitments : hval) (h : heap) (merged : hval) (tpl : object) :
  snd (merge arrange batchTemplate commitments h) = Ok merged ->
  h !! batchTemplate = Some tpl ->
  exists copy signers ordered,
    merged = HRef copy /\
    arrange h (HRef batchTemplate) commitments = Ok ordered /\
    h !! copy = None /\ h !! signers = None /\
    fst (merge arrange batchTemplate commitments h) !! signers = Some (OArr ordered) /\
    fst (merge arrange batchTemplate commitments h) !! copy =
      Some (OObj (set_prop "BatchSigners" (HRef signers) (own_props tpl))).
Proof.
  unfold merge. destruct (arrange h (HRef batchTemplate) commitments) as [ordered|e];
    [|discriminate].
  pose proof (alloc_extends (OArr ordered) h) as H1.
  pose proof (alloc_fresh (OArr ordered) h) as Hnew1.
  pose proof (alloc_lookup (OArr ordered) h) as Hat1.
  destruct (alloc (OArr ordered) h) as [h1 signers]. cbn in H1, Hnew1, Hat1.
  unfold spread_with.
  set (full := OObj (set_prop "BatchSigners" (HRef signers) (props_at h1 batchTemplate))).
  pose proof (alloc_extends full h1) as H2.
  pose proof (alloc_fresh full h1) as Hnew2.
  pose proof (alloc_lookup full h1) as Hat2.
  destruct (alloc full h1) as [h2 copy]. cbn in H2, Hnew2, Hat2 |- *.
  intros [= <-] Htpl. exists copy, signers, ordered.
  split; [reflexivity|]. split; [reflexivity|].
  split; [eapply extends_fresh; eauto|]. split; [exact Hnew1|].
  split; [eapply lookup_weaken; eauto|].
  rewrite Hat2. unfold full, props_at.
  now rewrite (lookup_weaken _ _ _ _ Htpl H1).
Qed.

Lemma push_keeps (arr : loc) (v : hval) (h0 h : heap) :
  h0 ⊆ h -> h0 !! arr = None -> h0 ⊆ push arr v h.
Proof.
  intros Hsub Hnew. unfold push. destruct (h !! arr) as [[elems|props]|]; try exact Hsub.
  now apply insert_subseteq_r.
Qed.

Section Frame.
Variable signMultiBatch : wallet -> hval -> heap -> heap * option error.

(** What the callers rely on when they hand [signMultiBatch] a copy: the
    call writes into the object it is given, and into no other object that
    was in use. *)
Hypothesis sign_frame :
  forall (w : wallet) (tx : hval) (h : heap) (l : loc) (o : object),
    tx <> HRef l -> h !! l = Some o -> fst (signMultiBatch w tx h) !! l = Some o.

Lemma sign_keeps (w : wallet) (tx : hval) (h h1 : heap) :
  h ⊆ h1 -> (forall a, tx = HRef a -> h !! a = None) ->
  h ⊆ fst (signMultiBatch w tx h1).
Proof.
  intros Hsub Hnew. apply map_subseteq_spec. intros l o Hl.
  apply sign_frame.
  - intros ->. rewrite (Hnew l eq_refl) in Hl. discriminate.
  - eapply lookup_weaken; eauto.
Qed.

Lemma sign_on_spread_extends (w : wallet) (batchTx : loc) (h : heap) :
  h ⊆ fst (sign_on_spread signMultiBatch w batchTx h).
Proof.
  unfold sign_on_spread, spread.
  pose proof (alloc_extends (OObj (props_at h batchTx)) h) as H1.
  pose proof (alloc_fresh (OObj (props_at h batchTx)) h) as Hnew.
  destruct (alloc (OObj (props_at h batchTx)) h) as [h1 txToSign]. cbn in H1, Hnew.
  assert (H2 : h ⊆ fst (signMultiBatch w (HRef txToSign) h1)).
  { apply sign_keeps; [exact H1|]. now intros a [= <-]. }
  destruct (signMultiBatch w (HRef txToSign) h1) as [h2 [e|]]; cbn in *; [exact H2|].
  match goal with |- context [match ?r with Ok _ => _ | Throw _ => _ end] =>
    destruct r as [inner|e] end; [|exact H2].
  pose proof (alloc_extends (OObj [("BatchSigner", inner)]) h2) as H3.
  destruct (alloc (OObj [("BatchSigner", inner)]) h2) as [h3 out]. cbn in *.
  now transitivity h2.
Qed.

Lemma sign_each_extends (ws : list wallet) (batchTx : loc) (h : heap) :
  h ⊆ fst (sign_each signMultiBatch ws batchTx h).
Proof.
  revert h. induction ws as [|w ws IH]; intros h; cbn [sign_each]; [reflexivity|].
  unfold spread.
  pose proof (alloc_extends (OObj (props_at h batchTx)) h) as H1.
  pose proof (alloc_fresh (OObj (props_at h batchTx)) h) as Hnew.
  destruct (alloc (OObj (props_at h batchTx)) h) as [h1 txToSign]. cbn in H1, Hnew.
  assert (H2 : h ⊆ fst (signMultiBatch w (HRef txToSign) h1)).
  { apply sign_keeps; [exact H1|]. now intros a [= <-]. }
  destruct (signMultiBatch w (HRef txToSign) h1) as [h2 [e|]]; cbn in *; [exact H2|].
  match goal with |- context [match ?r with Ok _ => _ | Throw _ => _ end] =>
    destruct r as [batchSigner|e] end; [|exact H2].
  specialize (IH h2). destruct (sign_each signMultiBatch ws batchTx h2) as [h3 rest].
  cbn in *. now transitivity h2.
Qed.

(** The stages of the click handler, each store inside the next. *)
Lemma sign_on_json_copy_stages (w : wallet) (batchTemplate : loc) (h : heap) :
  h ⊆ fst (sign_on_json_copy signMultiBatch w batchTemplate h) /\
  forall out tpl,
    snd (sign_on_json_copy signMultiBatch w batchTemplate h) = Ok out ->
    h !! batchTemplate = Some tpl ->
    h !! fullBatch out = None /\
    h !! signersArray out = None /\
    fst (sign_on_json_copy signMultiBatch w batchTemplate h) !! fullBatch out =
      Some (OObj (set_prop "BatchSigners" (HRef (signersArray out)) (own_props tpl))).
Proof.
  unfold sign_on_json_copy.
  pose proof (json_copy_extends (HRef batchTemplate) h) as H1.
  pose proof (json_copy_fresh (HRef batchTemplate) h) as Hnew.
  destruct (json_copy (HRef batchTemplate) h) as [h1 [batchCopy|e]]; cbn in H1, Hnew;
    [|split; [exact H1 | discriminate]].
  assert (H2 : h ⊆ fst (signMultiBatch w batchCopy h1)).
  { apply sign_keeps; [exact H1|]. intros a ->. now apply Hnew. }
  destruct (signMultiBatch w batchCopy h1) as [h2 [e|]]; cbn in H2;
    [split; [exact H2 | discriminate]|].
  match goal with |- context [match ?r with Ok _ => _ | Throw _ => _ end] =>
    destruct r as [entry|e] end; [|split; [exact H2 | discriminate]].
  pose proof (alloc_extends (OObj [("BatchSigner", entry)]) h2) as H3.
  destruct (alloc (OObj [("BatchSigner", entry)]) h2) as [h3 shown]. cbn in H3.
  pose proof (alloc_extends (OObj [("BatchSigner", entry)]) h3) as H4.
  destruct (alloc (OObj [("BatchSigner", entry)]) h3) as [h4 element]. cbn in H4.
  pose proof (alloc_extends (OArr [HRef element]) h4) as H5.
  pose proof (alloc_fresh (OArr [HRef element]) h4) as Harr.
  destruct (alloc (OArr [HRef element]) h4) as [h5 array]. cbn in H5, Harr.
  unfold spread_with.
  set (full := OObj (set_prop "BatchSigners" (HRef array) (props_at h5 batchTemplate))).
  pose proof (alloc_extends full h5) as H6.
  pose proof (alloc_fresh full h5) as Hfull.
  pose proof (alloc_lookup full h5) as Hat.
  destruct (alloc full h5) as [h6 fullLoc]. cbn in H6, Hfull, Hat |- *.
  assert (H05 : h ⊆ h5).
  { transitivity h2; [exact H2|]. transitivity h3; [exact H3|].
    transitivity h4; [exact H4 | exact H5]. }
  split; [now transitivity h5|].
  intros out tpl [= <-] Htpl. cbn. split; [|split].
  - eapply extends_fresh; eauto.
  - eapply extends_fresh; [|exact Harr].
    transitivity h2; [exact H2|]. transitivity h3; [exact H3 | exact H4].
  - rewrite Hat. unfold full, props_at.
    now rewrite (lookup_weaken _ _ _ _ Htpl H05).
Qed.

Lemma sign_copies_keeps (ws : list wallet) (autofilledTx signedTransactions : loc)
    (h0 h : heap) :
  h0 ⊆ h -> h0 !! signedTransactions = None ->
  h0 ⊆ fst (sign_copies signMultiBatch ws autofilledTx signedTransactions h).
Proof.
  intros Hsub Hnew. revert h Hsub.
  induction ws as [|w ws IH]; intros h Hsub; cbn [sign_copies]; [exact Hsub|].
  unfold spread.
  pose proof (alloc_extends (OObj (props_at h autofilledTx)) h) as H1.
  pose proof (alloc_fresh (OObj (props_at h autofilledTx)) h) as Hcopy.
  destruct (alloc (OObj (props_at h autofilledTx)) h) as [h1 txForSigning].
  cbn in H1, Hcopy.
  assert (H2 : h0 ⊆ fst (signMultiBatch w (HRef txForSigning) h1)).
  { apply sign_keeps; [now transitivity h|].
    intros a [= <-]. eapply extends_fresh; eauto. }
  destruct (signMultiBatch w (HRef txForSigning) h1) as [h2 [e|]]; cbn in H2 |- *;
    [exact H2|].
  apply IH. now apply push_keeps.
Qed.

Lemma sign_and_merge_extends (arrange : heap -> hval -> hval -> result (list hval))
    (ws : list wallet) (autofilledTx : loc) (h : heap) :
  h ⊆ fst (sign_and_merge signMultiBatch arrange ws autofilledTx h).
Proof.
  unfold sign_and_merge.
  pose proof (alloc_extends (OArr []) h) as H1.
  pose proof (alloc_fresh (OArr []) h) as Hnew.
  destruct (alloc (OArr []) h) as [h1 signedTransactions]. cbn in H1, Hnew.
  pose proof (sign_copies_keeps ws autofilledTx signedTransactions h h1 H1 Hnew) as H2.
  destruct (sign_copies signMultiBatch ws autofilledTx signedTransactions h1)
    as [h2 [e|]]; cbn in H2 |- *; [exact H2|].
  transitivity h2; [exact H2 | apply merge_extends].
Qed.

(** C7. Signing and merge leave what they are given as it was.  In the
    command-line tool (a spread copy is signed, once or once per signer),
    in the form (a JSON copy is signed, then the signer array is attached
    by a second spread), in the merge (the commitments are attached to a
    copy of the template) and in the complete workflow (a copy per signer
    is signed and collected, the collection is merged) every object that
    was in the store before the call is the same object after it; so
    whatever tree a value denoted before, it denotes after: the template's
    Account, Flags and RawTransactions, every field of every inner
    transaction, their number and order, and the sequence of commitments
    with every commitment in it.  The batch the form shows with the
    signers attached is a new object, and so is the signer array; the new
    batch holds the template's own properties with BatchSigners set.  The
    same holds of the merged batch: the object returned and the array of
    the chosen commitments are new, and the object holds the template's
    own properties with BatchSigners set to that array. *)
Theorem signing_and_merge_leave_inputs
    (arrange : heap -> hval -> hval -> result (list hval))
    (w : wallet) (ws : list wallet) (batchTx : loc) (commitments : hval) (h : heap) :
  let after_cli := fst (sign_on_spread signMultiBatch w batchTx h) in
  let after_all := fst (sign_each signMultiBatch ws batchTx h) in
  let after_web := fst (sign_on_json_copy signMultiBatch w batchTx h) in
  let after_merge := fst (merge arrange batchTx commitments h) in
  let after_workflow := fst (sign_and_merge signMultiBatch arrange ws batchTx h) in
  (forall l o,
      h !! l = Some o ->
      after_cli !! l = Some o /\ after_all !! l = Some o /\ after_web !! l = Some o /\
      after_merge !! l = Some o /\ after_workflow !! l = Some o)
  /\ (forall fuel v t,
         reify fuel h v = Some t ->
         reify fuel after_cli v = Some t
         /\ reify fuel after_all v = Some t
         /\ reify fuel after_web v = Some t
         /\ reify fuel after_merge v = Some t
         /\ reify fuel after_workflow v = Some t)
  /\ (forall out tpl,
         snd (sign_on_json_copy signMultiBatch w batchTx h) = Ok out ->
         h !! batchTx = Some tpl ->
         h !! fullBatch out = None /\
         h !! signersArray out = None /\
         after_web !! fullBatch out =
           Some (OObj (set_prop "BatchSigners" (HRef (signersArray out)) (own_props tpl))))
  /\ (forall merged tpl,
         snd (merge arrange batchTx commitments h) = Ok merged ->
         h !! batchTx = Some tpl ->
         exists copy signers ordered,
           merged = HRef copy /\
           arrange h (HRef batchTx) commitments = Ok ordered /\
           h !! copy = None /\ h !! signers = None /\
           after_merge !! signers = Some (OArr ordered) /\
           after_merge !! copy =
             Some (OObj (set_prop "BatchSigners" (HRef signers) (own_props tpl)))).
Proof.
  intros after_cli after_all after_web after_merge after_workflow.
  pose proof (sign_on_spread_extends w batchTx h) as Hcli.
  pose proof (sign_each_extends ws batchTx h) as Hall.
  destruct (sign_on_json_copy_stages w batchTx h) as [Hweb Hfull].
  pose proof (merge_extends arrange batchTx commitments h) as Hmerge.
  pose proof (sign_and_merge_extends arrange ws batchTx h) as Hflow.
  split; [|split; [|split]].
  - intros l o Hl. repeat split; eapply lookup_weaken; eauto.
  - intros fuel v t Ht. repeat split; eapply reify_extends; eauto.
  - exact Hfull.
  - intros merged tpl. apply merge_attaches.
Qed.

End Frame.

(** A store holding the payment example, and the wallet of its first
    child. *)
Definition example_store : heap := fst (alloc_tree CliFacts.example_batch ∅).
Definition example_template : loc := 6%positive.
Definition child1 : wallet :=
  {| address := "rChild1"; publicKey := "02AB"; privateKey := "sChild1" |}.
Definition child2 : wallet :=
  {| address := "rChild2"; publicKey := "03CD"; privateKey := "sChild2" |}.

(** A stand-in for steps 1 to 3 of the merge: the commitment of every
    signed copy, the copies taken from the last to the first. *)
Definition arrange_model (h : heap) (batchTemplate commitments : hval)
  : result (list hval) :=
  match commitments with
  | HRef c =>
      match h !! c with
      | Some (OArr signed) =>
          map_result (fun tx => let* signers := read h tx "BatchSigners" in
                                hindex0 h signers) (rev signed)
      | _ => Throw TypeError
      end
  | HPrim _ => Throw TypeError
  end.

(** The store after both children signed a copy, and the array of the
    signed copies. *)
Definition signed_array : loc := snd (alloc (OArr []) example_store).

Definition signed_store : heap :=
  fst (sign_copies (signMultiBatch_model "3045") [child1; child2] example_template
         signed_array (fst (alloc (OArr []) example_store))).

Lemma signing_and_merge_leave_inputs_witness :
  let after (h : heap) :=
    reify 4 h (HRef example_template) = Some CliFacts.example_batch /\
    reify 5 h (HRef signed_array) = reify 5 signed_store (HRef signed_array) in
  after (fst (sign_on_spread (signMultiBatch_model "3045") child1
                example_template signed_store))
  /\ after (fst (sign_each (signMultiBatch_model "3045") [child1; child2]
                   example_template signed_store))
  /\ after (fst (sign_on_json_copy (signMultiBatch_model "3045") child1
                   example_template signed_store))
  /\ after (fst (merge arrange_model example_template (HRef signed_array) signed_store))
  /\ after (fst (sign_and_merge (signMultiBatch_model "3045") arrange_model
                   [child1; child2] example_template signed_store))
  /\ exists merged, snd (merge arrange_model example_template (HRef signed_array)
                           signed_store) = Ok merged.
Proof.
  destruct (signing_and_merge_leave_inputs (signMultiBatch_model "3045")
              (signMultiBatch_model_frame "3045") arrange_model child1 [child1; child2]
              example_template (HRef signed_array) signed_store) as (_ & Hsame & _ & _).
  assert (Ht : reify 4 signed_store (HRef example_template) = Some CliFacts.example_batch)
    by (vm_compute; reflexivity).
  assert (Hc : exists t, reify 5 signed_store (HRef signed_array) = Some t)
    by (vm_compute; eexists; reflexivity).
  destruct Hc as [t Hc].
  destruct (Hsame 4%nat _ _ Ht) as (T1 & T2 & T3 & T4 & T5).
  destruct (Hsame 5%nat _ _ Hc) as (S1 & S2 & S3 & S4 & S5).
  cbn zeta. rewrite Hc.
  repeat split; try assumption.
  vm_compute. eexists. reflexivity.
Defined.

End HeapFacts.

(** ** Facts about the protocol *)

Module ProtocolFacts.
Import Protocol.

Section Facts.
Context {txhash digest signature randomness : Type}.
Variable hash_inner : InnerTransaction -> txhash.
Variable hash_batch : Z -> list txhash -> digest.
Variable deriveKeypair : string -> wallet.
Variable sign : string -> digest -> randomness -> signature.
Variable verify : string -> digest -> signature -> bool.
Variable policy_mask : Z.
Variable canonical_leb : string -> string -> bool.

Abbreviation commitment := (SignerCommitment signature).
Abbreviation batch := (BatchTransaction signature).
Abbreviation digest_of := (batch_digest hash_inner hash_batch).
Abbreviation precedes := (@before signature canonical_leb).
Abbreviation sorted := (StronglySorted precedes).

(** *** Deduplication *)

Lemma same_address_spec (a : string) (c : commitment) :
  reflect (signerAddress c = a) (same_address a c).
Proof using Type. unfold same_address. apply String.eqb_spec. Qed.

Lemma existsb_same_address (a : string) (cs : list commitment) :
  existsb (same_address a) cs = true <-> exists c, In c cs /\ signerAddress c = a.
Proof using Type.
  rewrite existsb_exists. unfold same_address.
  split; intros [c [Hin Hc]]; exists c; split; auto.
  - now apply String.eqb_eq.
  - now apply String.eqb_eq.
Qed.

Lemma dedup_In (c : commitment) (cs : list commitment) : In c (dedup cs) -> In c cs.
Proof using Type.
  induction cs as [|c0 cs IH]; simpl; [exact (fun H => H)|].
  destruct (existsb _ cs); simpl; [now right; apply IH|].
  intros [Heq|H]; [now left | now right; apply IH].
Qed.

Lemma dedup_addresses (a : string) (cs : list commitment) :
  In a (List.map signerAddress (dedup cs)) <-> In a (List.map signerAddress cs).
Proof using Type.
  induction cs as [|c0 cs IH]; simpl; [reflexivity|].
  destruct (existsb (same_address (signerAddress c0)) cs) eqn:Hex; simpl.
  - rewrite IH. split; [now right|]. intros [<-|H]; [|exact H].
    apply existsb_same_address in Hex. destruct Hex as [c [Hin Hc]].
    rewrite <- Hc. now apply in_map.
  - now rewrite IH.
Qed.

Lemma dedup_NoDup (cs : list commitment) : NoDup (List.map signerAddress (dedup cs)).
Proof using Type.
  induction cs as [|c0 cs IH]; simpl; [constructor|].
  destruct (existsb (same_address (signerAddress c0)) cs) eqn:Hex; [exact IH|].
  simpl. apply NoDup_cons. split; [|exact IH].
  rewrite list_elem_of_In, dedup_addresses, in_map_iff. intros [c [Hc Hin]].
  assert (Hex' : existsb (same_address (signerAddress c0)) cs = true)
    by (apply existsb_same_address; eauto).
  congruence.
Qed.

Lemma dedup_distinct (cs : list commitment) :
  NoDup (List.map signerAddress cs) -> dedup cs = cs.
Proof using Type.
  induction cs as [|c0 cs IH]; simpl; [reflexivity|].
  intros Hnd. apply NoDup_cons in Hnd. destruct Hnd as [Hnot Hnd].
  destruct (existsb (same_address (signerAddress c0)) cs) eqn:Hex.
  - exfalso. apply Hnot. apply existsb_same_address in Hex.
    destruct Hex as [c [Hin Hc]]. rewrite list_elem_of_In, <- Hc. now apply in_map.
  - now rewrite IH.
Qed.

Lemma dedup_nonempty (cs : list commitment) : cs <> [] -> dedup cs <> [].
Proof using Type.
  induction cs as [|c0 cs IH]; [congruence|]. intros _. simpl.
  destruct (existsb (same_address (signerAddress c0)) cs) eqn:Hex; [|discriminate].
  apply IH. intros ->. discriminate.
Qed.

(** Of each address the deduplicated list keeps the commitment that comes
    last in the input. *)
Lemma filter_dedup (a : string) (cs : list commitment) :
  List.filter (same_address a) (dedup cs) =
    match latest a cs with
    | Some c => [c]
    | None => []
    end.
Proof using Type.
  unfold latest. induction cs as [|c0 cs IH]; simpl; [reflexivity|].
  destruct (existsb (same_address (signerAddress c0)) cs) eqn:Hex.
  - rewrite IH. destruct (same_address_spec a c0) as [Ha|Ha]; [|reflexivity].
    rewrite last_cons.
    destruct (last (List.filter (same_address a) cs)) as [c|] eqn:Hl; [reflexivity|].
    exfalso. apply last_None in Hl.
    apply existsb_same_address in Hex. destruct Hex as [c [Hin Hc]].
    assert (Hc' : In c (List.filter (same_address a) cs)).
    { apply filter_In. split; [exact Hin|].
      destruct (same_address_spec a c); congruence. }
    rewrite Hl in Hc'. destruct Hc'.
  - simpl. destruct (same_address_spec a c0) as [Ha|Ha]; [|exact IH].
    assert (Hnone : List.filter (same_address a) cs = []).
    { destruct (List.filter (same_address a) cs) as [|c l] eqn:Hf; [reflexivity|].
      exfalso. assert (Hin : In c (List.filter (same_address a) cs))
        by (rewrite Hf; now left).
      apply filter_In in Hin. destruct Hin as [Hin Hc].
      destruct (same_address_spec a c) as [Hc'|]; [|discriminate].
      assert (Hex' : existsb (same_address (signerAddress c0)) cs = true)
        by (apply existsb_same_address; exists c; split; congruence).
      congruence. }
    rewrite Hnone in IH |- *. simpl in *. now rewrite IH.
Qed.

Lemma latest_exists (c0 : commitment) (cs : list commitment) :
  In c0 cs -> exists c, latest (signerAddress c0) cs = Some c.
Proof using Type.
  intros Hin. unfold latest.
  destruct (last (List.filter (same_address (signerAddress c0)) cs)) as [c|] eqn:Hl;
    [eauto|].
  apply last_None in Hl.
  assert (Hc : In c0 (List.filter (same_address (signerAddress c0)) cs))
    by (apply filter_In; split; [exact Hin | apply String.eqb_refl]).
  rewrite Hl in Hc. destruct Hc.
Qed.

(** *** Sorting and verification *)

Lemma filter_Permutation (f : commitment -> bool) (l l' : list commitment) :
  l ≡ₚ l' -> List.filter f l ≡ₚ List.filter f l'.
Proof using Type.
  induction 1 as [|x l l' _ IH|x y l|l l' l'' _ IH1 _ IH2]; simpl.
  - reflexivity.
  - destruct (f x); [now constructor | exact IH].
  - destruct (f x), (f y); try reflexivity. apply perm_swap.
  - now transitivity (List.filter f l').
Qed.

Lemma distinct_addresses (cs : list commitment) (c1 c2 : commitment) :
  NoDup (List.map signerAddress cs) -> In c1 cs -> In c2 cs ->
  signerAddress c1 = signerAddress c2 -> c1 = c2.
Proof using Type.
  induction cs as [|c cs IH]; simpl; [intros _ []|].
  intros Hnd. apply NoDup_cons in Hnd. destruct Hnd as [Hnot Hnd].
  rewrite list_elem_of_In in Hnot.
  intros [<-|H1] [<-|H2] Heq; auto.
  - exfalso. apply Hnot. rewrite Heq. now apply in_map.
  - exfalso. apply Hnot. rewrite <- Heq. now apply in_map.
Qed.

Lemma verify_all_ok (t : batch) (l : list commitment) :
  verify_all verify (digest_of t) l = Ok tt <->
  Forall (valid_for hash_inner hash_batch verify t) l.
Proof using Type.
  unfold valid_for. induction l as [|c l IH]; simpl.
  - split; [constructor | reflexivity].
  - destruct (verify (signerPublicKey c) (digest_of t) (commitmentSignature c)) eqn:Hv.
    + rewrite IH. split; [now constructor | now inversion 1].
    + split; [discriminate|]. inversion 1; congruence.
Qed.

(** The merge verifies the sorted, deduplicated commitments and nothing
    else decides its outcome. *)
Lemma merge_ok (t : batch) (cs : list commitment) :
  Forall (valid_for hash_inner hash_batch verify t) (dedup cs) ->
  merge hash_inner hash_batch verify canonical_leb t cs =
    Ok {| submitterAddress := submitterAddress t;
          authorizationFlags := authorizationFlags t;
          innerTransactions := innerTransactions t;
          signerCommitments := merge_sort precedes (dedup cs) |}.
Proof using Type.
  intros Hvalid. unfold merge.
  assert (Hall : verify_all verify (digest_of t)
                   (merge_sort precedes (dedup cs)) = Ok tt).
  { apply verify_all_ok. rewrite Forall_forall in Hvalid |- *. intros c Hc.
    apply Hvalid. rewrite list_elem_of_In in Hc |- *.
    eapply Permutation_in; [apply (merge_sort_Permutation precedes) | exact Hc]. }
  rewrite Hall. reflexivity.
Qed.

Lemma valid_dedup (t : batch) (cs : list commitment) :
  Forall (valid_for hash_inner hash_batch verify t) cs ->
  Forall (valid_for hash_inner hash_batch verify t) (dedup cs).
Proof using Type.
  rewrite !Forall_forall. intros H c Hc. apply H.
  rewrite list_elem_of_In in Hc |- *. now apply dedup_In.
Qed.

Section Ordering.
(** The canonical ordering is a total order on addresses. *)
Hypothesis leb_total : forall a b, canonical_leb a b = true \/ canonical_leb b a = true.
Hypothesis leb_trans : forall a b c,
  canonical_leb a b = true -> canonical_leb b c = true -> canonical_leb a c = true.
Hypothesis leb_antisym : forall a b,
  canonical_leb a b = true -> canonical_leb b a = true -> a = b.

#[local] Instance before_total : Total precedes.
Proof using leb_total. intros c1 c2. apply leb_total. Qed.

#[local] Instance before_trans : Transitive precedes.
Proof using leb_trans. intros c1 c2 c3. apply leb_trans. Qed.

Lemma merge_sort_sorted (l : list commitment) : sorted (merge_sort precedes l).
Proof using leb_total leb_trans. apply StronglySorted_merge_sort; apply _. Qed.

(** Two orders of the same commitments, of distinct addresses, sort to the
    same list. *)
Lemma merge_sort_order_free (l l' : list commitment) :
  l' ≡ₚ l -> NoDup (List.map signerAddress l) ->
  merge_sort precedes l' = merge_sort precedes l.
Proof using leb_total leb_trans leb_antisym.
  intros Hperm Hnd. apply (StronglySorted_unique_strong precedes).
  - intros c1 c2 H1 H2 H12 H21.
    apply (distinct_addresses l); [exact Hnd | | | now apply leb_antisym].
    + rewrite list_elem_of_In in H1.
      eapply Permutation_in; [exact Hperm|].
      eapply Permutation_in; [apply (merge_sort_Permutation precedes) | exact H1].
    + rewrite list_elem_of_In in H2.
      eapply Permutation_in; [apply (merge_sort_Permutation precedes) | exact H2].
  - apply merge_sort_sorted.
  - apply merge_sort_sorted.
  - rewrite !merge_sort_Permutation. exact Hperm.
Qed.

(** C3. Merging valid commitments yields the template with the
    commitments sorted by the canonical ordering of their addresses, each
    address once; a permutation of an input of distinct addresses yields
    the same transaction. *)
Theorem merge_canonical_order (t : batch) (cs : list commitment) :
  Forall (valid_for hash_inner hash_batch verify t) cs ->
  exists t',
    merge hash_inner hash_batch verify canonical_leb t cs = Ok t'
    /\ sorted (signerCommitments t')
    /\ NoDup (List.map signerAddress (signerCommitments t'))
    /\ signerCommitments t' ≡ₚ dedup cs
    /\ (forall cs',
           cs' ≡ₚ cs -> NoDup (List.map signerAddress cs) ->
           merge hash_inner hash_batch verify canonical_leb t cs' = Ok t').
Proof using leb_total leb_trans leb_antisym.
  intros Hvalid. eexists. split; [apply (merge_ok t cs (valid_dedup t cs Hvalid))|]. simpl.
  split; [apply merge_sort_sorted|]. split; [|split].
  - assert (Hp : List.map signerAddress (merge_sort precedes (dedup cs))
                 ≡ₚ List.map signerAddress (dedup cs))
      by apply Permutation_map, (merge_sort_Permutation precedes).
    rewrite Hp. apply dedup_NoDup.
  - apply (merge_sort_Permutation precedes).
  - intros cs' Hperm Hnd.
    assert (Hnd' : NoDup (List.map signerAddress cs')).
    { assert (Hp : List.map signerAddress cs' ≡ₚ List.map signerAddress cs)
        by now apply Permutation_map.
      now rewrite Hp. }
    assert (Hvalid' : Forall (valid_for hash_inner hash_batch verify t) cs').
    { rewrite Forall_forall in Hvalid |- *. intros c Hc. apply Hvalid.
      now rewrite <- Hperm. }
    rewrite (merge_ok t cs' (valid_dedup t cs' Hvalid')).
    rewrite (dedup_distinct cs Hnd), (dedup_distinct cs' Hnd').
    now rewrite (merge_sort_order_free cs cs' Hperm Hnd).
Qed.

End Ordering.

(** C4. Commitments that share an address are merged without error, and
    of each address the merged transaction holds exactly one commitment:
    the one that comes last in the input.  Only the commitments that stay
    need to verify: an earlier one of the same address is dropped unseen. *)
Theorem merge_last_wins (t : batch) (cs : list commitment) :
  Forall (valid_for hash_inner hash_batch verify t) (dedup cs) ->
  exists t',
    merge hash_inner hash_batch verify canonical_leb t cs = Ok t'
    /\ forall c0, In c0 cs ->
         exists c, latest (signerAddress c0) cs = Some c
                   /\ List.filter (same_address (signerAddress c0)) (signerCommitments t') = [c].
Proof using Type.
  intros Hvalid. eexists. split; [apply (merge_ok t cs Hvalid)|]. simpl.
  intros c0 Hin. destruct (latest_exists c0 cs Hin) as [c Hc]. exists c.
  split; [exact Hc|].
  apply Permutation_length_1_inv.
  rewrite (filter_Permutation _ _ _ (merge_sort_Permutation precedes (dedup cs))).
  now rewrite filter_dedup, Hc.
Qed.

(** *** Stale commitments and replay *)

Lemma flip_changes_flags (flags i : Z) :
  0 <= i < flag_bits ->
  Z.lxor flags (2 ^ i) mod 2 ^ flag_bits <> flags mod 2 ^ flag_bits.
Proof using Type.
  unfold flag_bits. intros Hi Heq.
  assert (Hbit : Z.testbit (Z.lxor flags (2 ^ i) mod 2 ^ 32) i =
                 Z.testbit (flags mod 2 ^ 32) i) by now rewrite Heq.
  rewrite !Z.mod_pow2_bits_low, Z.lxor_spec, Z.pow2_bits_true in Hbit by lia.
  now destruct (Z.testbit flags i).
Qed.

Lemma map_injective {A B} (f : A -> B) (l l' : list A) :
  (forall x y, f x = f y -> x = y) -> List.map f l = List.map f l' -> l = l'.
Proof using Type.
  intros Hinj. revert l'. induction l as [|x l IH]; intros [|y l']; simpl;
    try discriminate; [reflexivity|].
  intros [= Hxy Hl]. f_equal; auto.
Qed.

(** What may have happened to a template after a commitment was made:
    one of the 32 flag bits flipped, or the sequence of inner transactions
    no longer the same (a field changed, an entry added, removed or moved). *)
Inductive tampered (t t' : batch) : Prop :=
| flag_flipped (i : Z) :
    0 <= i < flag_bits ->
    authorizationFlags t' = Z.lxor (authorizationFlags t) (2 ^ i) ->
    tampered t t'
| inner_changed :
    innerTransactions t' <> innerTransactions t ->
    tampered t t'.

Section Crypto.
(** The symbolic reading of the hash and of the signature scheme: distinct
    inputs have distinct hashes, a signature made with a derived key
    verifies under its public key, and only for the digest that was signed. *)
Hypothesis hash_inner_inj : forall x y, hash_inner x = hash_inner y -> x = y.
Hypothesis hash_batch_inj :
  forall f f' l l', hash_batch f l = hash_batch f' l' -> f = f' /\ l = l'.
Hypothesis verify_signed :
  forall secret d r,
    verify (publicKey (deriveKeypair secret)) d
           (sign (privateKey (deriveKeypair secret)) d r) = true.
Hypothesis verify_only_signed :
  forall secret d d' r,
    verify (publicKey (deriveKeypair secret)) d'
           (sign (privateKey (deriveKeypair secret)) d r) = true -> d' = d.

Lemma tampered_digest (t t' : batch) : tampered t t' -> digest_of t' <> digest_of t.
Proof using hash_inner_inj hash_batch_inj.
  unfold batch_digest. intros Htamper Heq. apply hash_batch_inj in Heq.
  destruct Heq as [Hflags Hinner]. destruct Htamper as [i Hi Hflip|Hchanged].
  - rewrite Hflip in Hflags. now apply (flip_changes_flags (authorizationFlags t) i).
  - apply Hchanged. eapply map_injective; eauto.
Qed.

Lemma commit_inv (t : batch) (signer : string) (kp : wallet) (r : randomness)
    (c : commitment) :
  commit hash_inner hash_batch sign policy_mask t signer kp r = Ok c ->
  c = {| signerAddress := signer;
         signerPublicKey := publicKey kp;
         commitmentSignature := sign (privateKey kp) (digest_of t) r |}
  /\ signer <> submitterAddress t /\ well_formed policy_mask t = true.
Proof using Type.
  unfold commit.
  destruct (String.eqb_spec signer (submitterAddress t)) as [|Hne]; [discriminate|].
  destruct (well_formed policy_mask t); simpl; [|discriminate].
  intros [= <-]. auto.
Qed.

Lemma produced_stale (t t' : batch) (c : commitment) :
  digest_of t' <> digest_of t ->
  produced_on hash_inner hash_batch deriveKeypair sign policy_mask t c ->
  verify (signerPublicKey c) (digest_of t') (commitmentSignature c) = false.
Proof using verify_only_signed.
  intros Hne (signer & secret & r & Hc). apply commit_inv in Hc. destruct Hc as [-> _].
  simpl. destruct (verify _ _ _) eqn:Hv; [|reflexivity].
  apply verify_only_signed in Hv. contradiction.
Qed.


(** C8. A commitment is decided by the template and the keypair.  Made a
    second time, with whatever randomness the scheme draws, it succeeds
    again, names the same address and public key, and both signatures
    verify against the one digest of the template; a scheme that draws no
    randomness gives the same commitment twice. *)
Theorem commit_replay (t : batch) (signer secret : string) (r1 r2 : randomness)
    (c1 : commitment) :
  commit hash_inner hash_batch sign policy_mask t signer (deriveKeypair secret) r1 = Ok c1 ->
  exists c2,
    commit hash_inner hash_batch sign policy_mask t signer (deriveKeypair secret) r2 = Ok c2
    /\ signerAddress c1 = signerAddress c2
    /\ signerPublicKey c1 = signerPublicKey c2
    /\ valid_for hash_inner hash_batch verify t c1
    /\ valid_for hash_inner hash_batch verify t c2
    /\ ((forall sk d r r', sign sk d r = sign sk d r') -> c1 = c2).
Proof using verify_signed.
  intros Hc1. apply commit_inv in Hc1. destruct Hc1 as (-> & Hself & Hwf).
  eexists. split.
  - unfold commit. destruct (String.eqb_spec signer (submitterAddress t)); [contradiction|].
    rewrite Hwf. reflexivity.
  - simpl. unfold valid_for. simpl. repeat split; try apply verify_signed.
    intros Hdet. f_equal. apply Hdet.
Qed.

End Crypto.

End Facts.

(** *** A symbolic scheme, and the two-signer scenario run on it *)

(** Hashes kept as the terms they hash, a signature as the record of who
    signed what with which randomness, addresses ordered by their code. *)
#[local] Instance InnerTransaction_eq_dec : EqDecision InnerTransaction.
Proof. solve_decision. Defined.

Definition sym_digest : Type := Z * list InnerTransaction.
Definition sym_signature : Type := string * sym_digest * nat.

Definition sym_hash_inner (x : InnerTransaction) : InnerTransaction := x.
Definition sym_hash_batch (flags : Z) (inner : list InnerTransaction) : sym_digest :=
  (flags, inner).
Definition sym_keypair (secret : string) : wallet :=
  {| address := String.append "r" secret; publicKey := String.append "pub:" secret; privateKey := secret |}.
Definition sym_sign (sk : string) (d : sym_digest) (r : nat) : sym_signature :=
  (String.append "pub:" sk, d, r).
Definition sym_verify (pk : string) (d : sym_digest) (s : sym_signature) : bool :=
  bool_decide (fst (fst s) = pk) && bool_decide (snd (fst s) = d).
Definition sym_leb (a b : string) : bool := Pos.leb (encode a) (encode b).

(** The policy bits of the ledger's batch modes; the templates of the
    repository use 262144 (0x40000). *)
Definition sym_policy_mask : Z := 0xF0000.

Lemma sym_leb_total (a b : string) : sym_leb a b = true \/ sym_leb b a = true.
Proof.
  unfold sym_leb. rewrite !Pos.leb_le. lia.
Qed.

Lemma sym_leb_trans (a b c : string) :
  sym_leb a b = true -> sym_leb b c = true -> sym_leb a c = true.
Proof. unfold sym_leb. rewrite !Pos.leb_le. apply Pos.le_trans. Qed.

Lemma sym_leb_antisym (a b : string) :
  sym_leb a b = true -> sym_leb b a = true -> a = b.
Proof.
  unfold sym_leb. rewrite !Pos.leb_le. intros H1 H2.
  apply (inj encode). now apply Pos.le_antisym.
Qed.

Lemma sym_hash_inner_inj (x y : InnerTransaction) :
  sym_hash_inner x = sym_hash_inner y -> x = y.
Proof. exact (fun H => H). Qed.

Lemma sym_hash_batch_inj (f f' : Z) (l l' : list InnerTransaction) :
  sym_hash_batch f l = sym_hash_batch f' l' -> f = f' /\ l = l'.
Proof. now intros [= -> ->]. Qed.

Lemma sym_verify_signed (secret : string) (d : sym_digest) (r : nat) :
  sym_verify (publicKey (sym_keypair secret)) d
             (sym_sign (privateKey (sym_keypair secret)) d r) = true.
Proof. unfold sym_verify. simpl. now rewrite !bool_decide_eq_true_2. Qed.

Lemma sym_verify_only_signed (secret : string) (d d' : sym_digest) (r : nat) :
  sym_verify (publicKey (sym_keypair secret)) d'
             (sym_sign (privateKey (sym_keypair secret)) d r) = true -> d' = d.
Proof.
  unfold sym_verify. simpl. intros H. apply andb_true_iff in H. destruct H as [_ H].
  apply bool_decide_eq_true in H. now symmetry.
Qed.

Abbreviation sym_commit := (commit sym_hash_inner sym_hash_batch sym_sign sym_policy_mask).
Abbreviation sym_merge := (merge sym_hash_inner sym_hash_batch sym_verify sym_leb).

Definition payment (from to : string) : InnerTransaction :=
  {| transactionKind := "Payment";
     actingAccount := from;
     fee := "0";
     explicitSigningKey := "";
     innerSignature := None;
     innerExecutionFlagBit := true;
     operationFields := [("Destination", to); ("Amount", "1000000")] |}.

(** The end-to-end scenario of section 8: submitter P, flags 0x00040000, A
    pays B and B pays A. *)
Definition scenario : BatchTransaction sym_signature :=
  {| submitterAddress := "rP";
     authorizationFlags := 0x00040000;
     innerTransactions := [payment "rA" "rB"; payment "rB" "rA"];
     signerCommitments := [] |}.

Definition commitment_of (signer secret : string) (r : nat)
  : SignerCommitment sym_signature :=
  {| signerAddress := signer;
     signerPublicKey := String.append "pub:" secret;
     commitmentSignature := sym_sign secret (batch_digest sym_hash_inner sym_hash_batch scenario) r |}.

Definition commitA : SignerCommitment sym_signature := commitment_of "rA" "A" 7.
Definition commitB : SignerCommitment sym_signature := commitment_of "rB" "B" 8.
Definition commitA_again : SignerCommitment sym_signature := commitment_of "rA" "A" 9.

(** The scenario with two policy bits set. *)
Definition two_policies : BatchTransaction sym_signature :=
  {| submitterAddress := "rP";
     authorizationFlags := 0x00050000;
     innerTransactions := [payment "rA" "rB"; payment "rB" "rA"];
     signerCommitments := [] |}.

Lemma scenario_commits :
  sym_commit scenario "rA" (sym_keypair "A") 7%nat = Ok commitA
  /\ sym_commit scenario "rB" (sym_keypair "B") 8%nat = Ok commitB
  /\ sym_commit scenario "rA" (sym_keypair "A") 9%nat = Ok commitA_again
  /\ sym_commit scenario "rP" (sym_keypair "P") 1%nat = Throw SelfCommitmentRejected
  /\ sym_commit two_policies "rA" (sym_keypair "A") 7%nat = Throw InvalidBatchStructure.
Proof. repeat split. Qed.

Lemma scenario_merge :
  sym_merge scenario [commitB; commitA] =
    Ok {| submitterAddress := "rP";
          authorizationFlags := 0x00040000;
          innerTransactions := [payment "rA" "rB"; payment "rB" "rA"];
          signerCommitments := [commitA; commitB] |}.
Proof. vm_compute. reflexivity. Qed.

Lemma scenario_valid (c : SignerCommitment sym_signature) :
  In c [commitB; commitA; commitA_again] ->
  valid_for sym_hash_inner sym_hash_batch sym_verify scenario c.
Proof. intros [<-|[<-|[<-|[]]]]; vm_compute; reflexivity. Qed.

Lemma scenario_produced (c : SignerCommitment sym_signature) :
  In c [commitB; commitA] ->
  produced_on sym_hash_inner sym_hash_batch sym_keypair sym_sign sym_policy_mask scenario c.
Proof.
  intros [<-|[<-|[]]].
  - exists "rB", "B", 8%nat. reflexivity.
  - exists "rA", "A", 7%nat. reflexivity.
Qed.

Lemma merge_canonical_order_witness :
  exists t',
    sym_merge scenario [commitB; commitA] = Ok t'
    /\ StronglySorted (before sym_leb) (signerCommitments t')
    /\ NoDup (List.map signerAddress (signerCommitments t'))
    /\ signerCommitments t' ≡ₚ dedup [commitB; commitA]
    /\ (forall cs',
           cs' ≡ₚ [commitB; commitA] ->
           NoDup (List.map signerAddress [commitB; commitA]) ->
           sym_merge scenario cs' = Ok t').
Proof.
  apply (merge_canonical_order sym_hash_inner sym_hash_batch sym_verify sym_leb
           sym_leb_total sym_leb_trans sym_leb_antisym scenario [commitB; commitA]).
  apply Forall_forall. intros c Hc. apply scenario_valid.
  rewrite list_elem_of_In in Hc. simpl in *. tauto.
Defined.

Lemma merge_last_wins_witness :
  exists t',
    sym_merge scenario [commitA; commitB; commitA_again] = Ok t'
    /\ forall c0, In c0 [commitA; commitB; commitA_again] ->
         exists c, latest (signerAddress c0) [commitA; commitB; commitA_again] = Some c
                   /\ List.filter (same_address (signerAddress c0)) (signerCommitments t') = [c].
Proof.
  apply (merge_last_wins sym_hash_inner sym_hash_batch sym_verify sym_leb scenario
           [commitA; commitB; commitA_again]).
  apply Forall_forall. intros c Hc. apply scenario_valid.
  rewrite list_elem_of_In in Hc. apply dedup_In in Hc. simpl in *. tauto.
Defined.

(** The scenario with its two inner payments swapped. *)
Definition reordered : BatchTransaction sym_signature :=
  {| submitterAddress := "rP";
     authorizationFlags := 0x00040000;
     innerTransactions := [payment "rB" "rA"; payment "rA" "rB"];
     signerCommitments := [] |}.


Lemma commit_replay_witness :
  exists c2,
    sym_commit scenario "rA" (sym_keypair "A") 9%nat = Ok c2
    /\ signerAddress commitA = signerAddress c2
    /\ signerPublicKey commitA = signerPublicKey c2
    /\ valid_for sym_hash_inner sym_hash_batch sym_verify scenario commitA
    /\ valid_for sym_hash_inner sym_hash_batch sym_verify scenario c2
    /\ ((forall sk d r r', sym_sign sk d r = sym_sign sk d r') -> commitA = c2).
Proof.
  apply (commit_replay sym_hash_inner sym_hash_batch sym_keypair sym_sign sym_verify
           sym_policy_mask sym_verify_signed scenario "rA" "A" 7%nat 9%nat commitA).
  reflexivity.
Defined.

End ProtocolFacts.
(** ** Facts about the roles of the test accounts *)

Module RolesFacts.
Import Roles.

Lemma strict_eq_string (v : value) (s : string) :
  strict_eq v (JStr s) = true <-> v = JStr s.
Proof.
  destruct v as [[| |b|n|s']|l|o]; simpl; try (split; [discriminate | intros [=]]).
  destruct (String.eqb_spec s' s) as [->|Hne]; split; congruence.
Qed.

Lemma strict_eq_string_l (v : value) (s : string) :
  strict_eq (JStr s) v = strict_eq_str v s.
Proof.
  destruct v as [[| |b|n|s']|l|o]; simpl; try reflexivity. apply String.eqb_sym.
Qed.

Lemma same_value_zero_string (v : value) (s : string) :
  same_value_zero v (JStr s) = true <-> v = JStr s.
Proof.
  destruct v as [[| |b|[]|s']|l|o]; simpl; try (split; [discriminate | intros [=]]).
  destruct (String.eqb_spec s' s) as [->|Hne]; split; congruence.
Qed.

Lemma read_get_opt (v : value) (k : string) (x : value) :
  read v k = Ok x -> x = get_opt v k.
Proof.
  unfold read, Cli.read, get_opt. destruct (get v k); simpl; congruence.
Qed.

Lemma filter_from_In {A} (p : nat -> A -> bool) (i : nat) (l : list A) (x : A) :
  In x (filter_from p i l) -> In x l.
Proof.
  revert i. induction l as [|y l IH]; intros i; simpl; [tauto|].
  destruct (p i y); simpl; intros H.
  - destruct H as [H|H]; eauto.
  - eauto.
Qed.

Lemma signer_addresses_In (parentAddress : value) (accounts : list value) (a : value) :
  In a (signer_addresses parentAddress accounts) ->
  In a accounts /\ strict_eq a parentAddress = false.
Proof.
  unfold signer_addresses, remove_duplicates. rewrite List.filter_In.
  intros [Hin Hne]. split.
  - eapply filter_from_In; eauto.
  - now destruct (strict_eq a parentAddress).
Qed.

(** The accounts the loop picks as signers. *)
Definition is_signer (signerAddresses : list value) (account : value) : bool :=
  existsb (fun a => same_value_zero a (get_opt account "address")) signerAddresses.

Lemma scan_accounts (parentAddress : value) (signerAddresses elements : list value)
    (start found : value * list value) :
  fold_result (match_account parentAddress signerAddresses) elements start = Ok found ->
  snd found = snd start ++ List.filter (is_signer signerAddresses) elements /\
  (fst found = fst start \/
   (In (fst found) elements /\
    strict_eq (get_opt (fst found) "address") parentAddress = true)).
Proof.
  revert start. induction elements as [|account elements IH]; intros start; simpl.
  - intros [= <-]. rewrite app_nil_r. auto.
  - unfold match_account at 1.
    destruct (read account "address") as [address|e] eqn:Ha; simpl; [|discriminate].
    apply read_get_opt in Ha. subst address. fold (is_signer signerAddresses account).
    intros H. apply IH in H. simpl in H. destruct H as [Hs Hp]. split.
    + rewrite Hs. destruct (is_signer signerAddresses account); simpl.
      * now rewrite <- app_assoc.
      * reflexivity.
    + destruct Hp as [Hp|[Hin Heq]]; [|now right; auto].
      destruct (strict_eq (get_opt account "address") parentAddress) eqn:Hacc.
      * right. rewrite Hp. auto.
      * now left.
Qed.

Lemma exact_matches_inv (batchTx devnetAccounts : value) (multi : bool)
    (found : value * list value) :
  exact_matches batchTx devnetAccounts = Ok (multi, found) ->
  exists parentAddress accounts elements,
    get batchTx "Account" = Some parentAddress /\
    Cli.inner_accounts batchTx = Ok accounts /\
    iterate (get_opt devnetAccounts "accounts") = Ok elements /\
    multi = Nat.ltb 1 (List.length (signer_addresses parentAddress accounts)) /\
    fold_result (match_account parentAddress (signer_addresses parentAddress accounts))
      elements (JNull, []) = Ok found.
Proof.
  unfold exact_matches, read, Cli.read.
  destruct (get batchTx "Account") as [parentAddress|]; simpl; [|discriminate].
  destruct (Cli.inner_accounts batchTx) as [accounts|e]; simpl; [|discriminate].
  unfold get_opt.
  destruct (get devnetAccounts "accounts") as [list|]; simpl; [|discriminate].
  destruct (iterate list) as [elements|e] eqn:Hit; simpl; [|discriminate].
  destruct (fold_result _ elements _) as [found'|e] eqn:Hfold; simpl; [|discriminate].
  intros [= <- <-]. exists parentAddress, accounts, elements. auto.
Qed.

(** X1. When [assignAccountRoles] returns without the auto-assignment
    line, the signers are exactly the test accounts, in the order of the
    file, whose address is the [Account] of an inner transaction other than
    the outer [Account]; there is at least one; the parent is a test account
    whose address is the outer [Account]; and [isMultiSigner] tells whether
    more than one such inner address exists. *)
Theorem exact_roles (batchTx devnetAccounts : value) (r : assignment) :
  assignAccountRoles batchTx devnetAccounts = (false, Ok r) ->
  exists parentAddress accounts elements,
    get batchTx "Account" = Some parentAddress /\
    Cli.inner_accounts batchTx = Ok accounts /\
    iterate (get_opt devnetAccounts "accounts") = Ok elements /\
    signerAccounts r =
      List.filter (is_signer (signer_addresses parentAddress accounts)) elements /\
    signerAccounts r <> [] /\
    In (parentAccount r) elements /\
    strict_eq (get_opt (parentAccount r) "address") parentAddress = true /\
    isMultiSigner r = Nat.ltb 1 (List.length (signer_addresses parentAddress accounts)).
Proof.
  unfold assignAccountRoles.
  destruct (exact_matches batchTx devnetAccounts) as [[multi found]|e] eqn:Hex;
    [|discriminate].
  destruct (is_empty (snd found) || negb (truthy (fst found))) eqn:Hun; [discriminate|].
  simpl. rewrite Hun. intros [= <-]. simpl.
  apply exact_matches_inv in Hex.
  destruct Hex as (parentAddress & accounts & elements & Hp & Hin & Hit & -> & Hfold).
  apply scan_accounts in Hfold. simpl in Hfold. destruct Hfold as [Hs Hpar].
  apply orb_false_iff in Hun. destruct Hun as [Hne Htruthy].
  exists parentAddress, accounts, elements. repeat split; auto.
  - intros Hnil. rewrite Hnil in Hne. discriminate.
  - destruct Hpar as [Hpar|[Hpar _]]; [|exact Hpar].
    rewrite Hpar in Htruthy. discriminate.
  - destruct Hpar as [Hpar|[_ Hpar]]; [|exact Hpar].
    rewrite Hpar in Htruthy. discriminate.
Qed.


(** X2. A signer assigned by exact match passes the involvement check of
    the signing functions: its address is not the outer [Account], the
    checker prints the plain line and counts at least one inner
    transaction. *)
Theorem exact_signers_are_involved
    (batchTx devnetAccounts : value) (r : assignment) (account : value) (s : string) :
  assignAccountRoles batchTx devnetAccounts = (false, Ok r) ->
  In account (signerAccounts r) ->
  get_opt account "address" = JStr s ->
  get_opt batchTx "Account" <> JStr s /\
  exists n, (1 <= n)%nat /\
            Cli.checkSignerInvolvement batchTx s = Ok [Cli.LogInvolved s n].
Proof.
  unfold assignAccountRoles.
  destruct (exact_matches batchTx devnetAccounts) as [[multi found]|e] eqn:Hex;
    [|discriminate].
  destruct (is_empty (snd found) || negb (truthy (fst found))) eqn:Hun; [discriminate|].
  simpl. rewrite Hun. intros [= <-]. simpl. intros Hacc Haddr.
  apply exact_matches_inv in Hex.
  destruct Hex as (parentAddress & accounts & elements & Hp & Hin & Hit & -> & Hfold).
  apply scan_accounts in Hfold. simpl in Hfold. destruct Hfold as [Hs _].
  rewrite Hs in Hacc. apply List.filter_In in Hacc. destruct Hacc as [_ Hsig].
  unfold is_signer in Hsig. rewrite Haddr in Hsig.
  apply existsb_exists in Hsig. destruct Hsig as (a & Ha & Hsame).
  apply same_value_zero_string in Hsame. subst a.
  apply signer_addresses_In in Ha. destruct Ha as [Hmem Hne].
  rewrite strict_eq_string_l in Hne.
  assert (Hacc : get_opt batchTx "Account" = parentAddress)
    by (unfold get_opt; now rewrite Hp).
  split.
  - rewrite Hacc. now apply CliFacts.strict_eq_str_false.
  - rewrite (CliFacts.checkSignerInvolvement_eq _ _ _ Hin), Hacc, Hne.
    assert (Hn : CliFacts.involved_count accounts s <> 0%nat)
      by (rewrite CliFacts.involved_count_zero; tauto).
    exists (CliFacts.involved_count accounts s). split; [lia|].
    destruct (Nat.eqb_spec (CliFacts.involved_count accounts s) 0);
      [contradiction | reflexivity].
Qed.

(** Devnet accounts in the shape [accountSetup.js] writes them. *)
Definition account_entry (role address : string) : value :=
  JObj [("role", JStr role); ("address", JStr address); ("seed", JStr "sSeed")].

Definition three_accounts : value :=
  JObj [("accounts", JArr [account_entry "issuer" "rParent";
                          account_entry "existing_holder" "rChild1";
                          account_entry "new_holder" "rChild2"])].

Lemma exact_roles_witness :
  exists parentAddress accounts elements,
    get CliFacts.example_batch "Account" = Some parentAddress /\
    Cli.inner_accounts CliFacts.example_batch = Ok accounts /\
    iterate (get_opt three_accounts "accounts") = Ok elements /\
    [account_entry "existing_holder" "rChild1"; account_entry "new_holder" "rChild2"] =
      List.filter (is_signer (signer_addresses parentAddress accounts)) elements /\
    [account_entry "existing_holder" "rChild1"; account_entry "new_holder" "rChild2"] <> [] /\
    In (account_entry "issuer" "rParent") elements /\
    strict_eq (get_opt (account_entry "issuer" "rParent") "address") parentAddress = true /\
    true = Nat.ltb 1 (List.length (signer_addresses parentAddress accounts)).
Proof.
  exact (exact_roles CliFacts.example_batch three_accounts
           {| signerAccounts := [account_entry "existing_holder" "rChild1";
                                 account_entry "new_holder" "rChild2"];
              parentAccount := account_entry "issuer" "rParent";
              isMultiSigner := true |} eq_refl).
Defined.

Lemma exact_signers_are_involved_witness :
  get_opt CliFacts.example_batch "Account" <> JStr "rChild2" /\
  exists n, (1 <= n)%nat /\
    Cli.checkSignerInvolvement CliFacts.example_batch "rChild2" =
      Ok [Cli.LogInvolved "rChild2" n].
Proof.
  apply (exact_signers_are_involved CliFacts.example_batch three_accounts
           {| signerAccounts := [account_entry "existing_holder" "rChild1";
                                 account_entry "new_holder" "rChild2"];
              parentAccount := account_entry "issuer" "rParent";
              isMultiSigner := true |}
           (account_entry "new_holder" "rChild2") "rChild2" eq_refl).
  - simpl. tauto.
  - reflexivity.
Defined.

(** *** Without a match *)

Lemma has_tokens_total (batchTx : value) (accounts : list value) :
  Cli.inner_accounts batchTx = Ok accounts -> exists b, has_tokens batchTx = Ok b.
Proof.
  unfold Cli.inner_accounts, has_tokens, read, Cli.read.
  destruct (get batchTx "RawTransactions") as [raw|]; simpl; [|discriminate].
  destruct raw as [p|l|o]; try discriminate.
  unfold map_result. generalize 0%nat. revert accounts.
  induction l as [|rawTx l IH]; intros accounts i; simpl; [eauto|].
  destruct (get rawTx "RawTransaction") as [tx|]; simpl; [|discriminate].
  destruct (get tx "Account") as [a|] eqn:Ha; simpl; [|discriminate].
  destruct (map_from _ (S i) l) as [rest|e] eqn:Hrest; simpl; [|discriminate].
  intros _.
  assert (Hk : forall k, get tx k = Some (get_opt tx k)).
  { intros k. unfold get_opt.
    destruct tx as [[| |b|n|s]|l'|o]; simpl in *; try discriminate; reflexivity. }
  rewrite (Hk "TransactionType"). simpl.
  destruct (strict_eq_str (get_opt tx "TransactionType") "TrustSet"); [eauto|].
  rewrite (Hk "Amount"). simpl.
  destruct (truthy (get_opt tx "Amount") && _); [eauto|].
  eapply IH; eauto.
Qed.

(** X3. With an empty array of test accounts [assignAccountRoles] prints
    the auto-assignment line and throws its own error, for every batch
    whose accounts can be read. *)
Theorem no_accounts_no_roles
    (batchTx devnetAccounts parentAddress : value) (accounts : list value) :
  get devnetAccounts "accounts" = Some (JArr []) ->
  get batchTx "Account" = Some parentAddress ->
  Cli.inner_accounts batchTx = Ok accounts ->
  assignAccountRoles batchTx devnetAccounts = (true, Throw CouldNotAssign).
Proof.
  intros Hd Hp Hin. destruct (has_tokens_total _ _ Hin) as [b Hb].
  unfold assignAccountRoles, exact_matches, auto_assign, read, Cli.read.
  rewrite Hp. simpl. rewrite Hin. simpl. rewrite Hd. simpl.
  rewrite Hb. simpl. destruct b; simpl; [reflexivity|].
  now destruct (Nat.ltb 1 _).
Qed.

Definition no_accounts : value := JObj [("accounts", JArr [])].

Lemma no_accounts_no_roles_witness :
  assignAccountRoles CliFacts.example_batch no_accounts = (true, Throw CouldNotAssign).
Proof.
  apply (no_accounts_no_roles CliFacts.example_batch no_accounts (JStr "rParent")
           [JStr "rChild1"; JStr "rChild2"]); reflexivity.
Defined.


(** The parent the loop leaves: the last test account whose address is the
    outer [Account], [null] without one. *)
Definition matched_parent (parentAddress : value) (elements : list value) : value :=
  fold_left (fun parent account =>
               if strict_eq (get_opt account "address") parentAddress
               then account else parent) elements JNull.

Lemma scan_without_signers (parentAddress : value) (signerAddresses elements : list value)
    (start : value * list value) :
  Forall (fun account => get account "address" <> None /\
                         is_signer signerAddresses account = false) elements ->
  fold_result (match_account parentAddress signerAddresses) elements start =
    Ok (fold_left (fun parent account =>
                     if strict_eq (get_opt account "address") parentAddress
                     then account else parent) elements (fst start),
        snd start).
Proof.
  intros Hall. revert start.
  induction Hall as [|account elements [Hread Hno] _ IH]; intros start; simpl.
  - now destruct start.
  - unfold match_account at 1. unfold read, Cli.read.
    unfold is_signer, get_opt in Hno. unfold get_opt.
    destruct (get account "address") as [address|]; [|contradiction]. simpl.
    rewrite Hno. rewrite IH. reflexivity.
Qed.

(** X4. When no test account has the address of an inner account other
    than the parent and the batch holds no token transaction, the signers
    are taken by position, [accounts[1]] and for several signers
    [accounts[2]], whatever these are: [undefined] past the end of the
    array, with no check that they differ from the parent.  The call fails
    only when neither a matching parent nor a truthy [accounts[0]] exists. *)
Theorem positional_signers
    (batchTx devnetAccounts parentAddress : value) (accounts elements : list value) :
  get batchTx "Account" = Some parentAddress ->
  Cli.inner_accounts batchTx = Ok accounts ->
  get devnetAccounts "accounts" = Some (JArr elements) ->
  Forall (fun account =>
            get account "address" <> None /\
            is_signer (signer_addresses parentAddress accounts) account = false) elements ->
  has_tokens batchTx = Ok false ->
  let multi := Nat.ltb 1 (List.length (signer_addresses parentAddress accounts)) in
  let parent := if truthy (matched_parent parentAddress elements)
                then matched_parent parentAddress elements
                else nth 0 elements JUndefined in
  assignAccountRoles batchTx devnetAccounts =
    (true,
     if truthy parent
     then Ok {| signerAccounts :=
                  if multi
                  then [nth 1 elements JUndefined; nth 2 elements JUndefined]
                  else [nth 1 elements JUndefined];
                parentAccount := parent;
                isMultiSigner := multi |}
     else Throw CouldNotAssign).
Proof.
  intros Hp Hin Hd Hall Hb multi parent.
  unfold assignAccountRoles, exact_matches, read, Cli.read.
  rewrite Hp. simpl. rewrite Hin. simpl. rewrite Hd. simpl.
  rewrite (scan_without_signers _ _ _ _ Hall). simpl.
  fold (matched_parent parentAddress elements).
  unfold auto_assign, read, Cli.read. rewrite Hb. simpl. rewrite Hd. simpl.
  fold multi.
  destruct (truthy (matched_parent parentAddress elements)) eqn:Hm; simpl.
  - subst parent. simpl. rewrite Hm. destruct multi; simpl; now rewrite Hm.
  - subst parent. simpl.
    destruct multi; simpl; now destruct (truthy (nth 0 elements JUndefined)).
Qed.

Definition parent_only : value :=
  JObj [("accounts", JArr [account_entry "issuer" "rParent"])].

Lemma positional_signers_witness :
  assignAccountRoles CliFacts.example_batch parent_only =
    (true, Ok {| signerAccounts := [JUndefined; JUndefined];
                 parentAccount := account_entry "issuer" "rParent";
                 isMultiSigner := true |}).
Proof.
  apply (positional_signers CliFacts.example_batch parent_only (JStr "rParent")
           [JStr "rChild1"; JStr "rChild2"] [account_entry "issuer" "rParent"]);
    try reflexivity.
  repeat constructor. discriminate.
Defined.

Lemma scan_readable (parentAddress : value) (signerAddresses elements : list value)
    (start : value * list value) :
  Forall (fun account => get account "address" <> None) elements ->
  fold_result (match_account parentAddress signerAddresses) elements start =
    Ok (fold_left (fun parent account =>
                     if strict_eq (get_opt account "address") parentAddress
                     then account else parent) elements (fst start),
        snd start ++ List.filter (is_signer signerAddresses) elements).
Proof.
  intros Hall. revert start.
  induction Hall as [|account elements Hread _ IH]; intros start; simpl.
  - rewrite app_nil_r. now destruct start.
  - unfold match_account at 1. unfold read, Cli.read.
    assert (Hg : get account "address" = Some (get_opt account "address")).
    { unfold get_opt. now destruct (get account "address"). }
    rewrite Hg. simpl. rewrite IH. simpl. fold (is_signer signerAddresses account).
    destruct (is_signer signerAddresses account); simpl; [|reflexivity].
    now rewrite <- app_assoc.
Qed.

(** The converse of [exact_roles]: matching accounts are found. *)
Lemma exact_roles_found
    (batchTx devnetAccounts parentAddress : value) (accounts elements : list value) :
  get batchTx "Account" = Some parentAddress ->
  Cli.inner_accounts batchTx = Ok accounts ->
  get devnetAccounts "accounts" = Some (JArr elements) ->
  Forall (fun account => get account "address" <> None) elements ->
  List.filter (is_signer (signer_addresses parentAddress accounts)) elements <> [] ->
  truthy (matched_parent parentAddress elements) = true ->
  assignAccountRoles batchTx devnetAccounts =
    (false,
     Ok {| signerAccounts :=
             List.filter (is_signer (signer_addresses parentAddress accounts)) elements;
           parentAccount := matched_parent parentAddress elements;
           isMultiSigner :=
             Nat.ltb 1 (List.length (signer_addresses parentAddress accounts)) |}).
Proof.
  intros Hp Hin Hd Hall Hs Hparent.
  unfold assignAccountRoles, exact_matches, read, Cli.read.
  rewrite Hp. simpl. rewrite Hin. simpl. rewrite Hd. simpl.
  rewrite (scan_readable _ _ _ _ Hall). simpl.
  fold (matched_parent parentAddress elements). rewrite Hparent.
  destruct (List.filter _ elements) eqn:Hf; [contradiction|].
  simpl. now rewrite Hparent.
Qed.

End RolesFacts.

(** ** Facts about the example files *)

Module SetupFacts.
Import Roles Setup.

Local Arguments Z.testbit : simpl never.
Local Arguments Z.land : simpl never.

(** A property read in the written object finds the first property of that
    name that was written. *)
Lemma own_prop_json_props (k : string) (o : list (string * value)) :
  own_prop k (json_props json_value o) =
    match find (fun kv => String.eqb (fst kv) k && negb (is_undefined (snd kv))) o with
    | Some kv => json_value (snd kv)
    | None => JUndefined
    end.
Proof.
  unfold own_prop. induction o as [|[k' x] o IH]; simpl; [reflexivity|].
  destruct (is_undefined x) eqn:Hx; simpl.
  - rewrite andb_false_r. exact IH.
  - rewrite andb_true_r. destruct (String.eqb k' k); [reflexivity | exact IH].
Qed.

Section Web.
Variable StringToNumber : string -> number.
Variable ArrayToString : list value -> string.

Lemma payment_accepted (amount account destination : value) :
  WebFacts.inner_accepted StringToNumber ArrayToString
    (json_value (payment amount account destination)).
Proof.
  eexists. split; [reflexivity|].
  rewrite !own_prop_json_props. simpl. repeat split; reflexivity.
Qed.

Lemma trust_set_accepted (account limit : value) :
  WebFacts.inner_accepted StringToNumber ArrayToString
    (json_value (trust_set account limit)).
Proof.
  eexists. split; [reflexivity|].
  rewrite !own_prop_json_props. simpl. repeat split; reflexivity.
Qed.

Lemma batch_accepted (account : string) (inner : list value) :
  account <> "" ->
  (2 <= List.length inner <= 8)%nat ->
  Forall (WebFacts.inner_accepted StringToNumber ArrayToString) (List.map json_value inner) ->
  WebFacts.template_accepted StringToNumber ArrayToString
    (json_value (batch (JStr account) inner)).
Proof.
  intros Hne Hlen Hall. eexists _, (List.map json_value inner), account.
  split; [reflexivity|]. rewrite !own_prop_json_props. simpl.
  rewrite length_map. repeat split; auto; lia.
Qed.
End Web.

Lemma batch_valid (account : value) (first : value) (rest : list value) :
  Cli.validateBatchTransaction (json_value (batch account (first :: rest))) = Ok true.
Proof.
  apply CliFacts.validateBatchTransaction_accepts_iff.
  eexists _, (json_value first), (List.map json_value rest).
  split; [reflexivity|]. rewrite !own_prop_json_props. simpl. auto.
Qed.

Lemma updateExampleFiles_inv (accountsData : value) (files : list (string * value)) :
  updateExampleFiles accountsData = Ok files ->
  exists currency issuer holder joining,
    files = [("examplePayment.json", examplePayment issuer holder joining);
             ("exampleTrustline.json", exampleTrustline currency issuer holder joining);
             ("exampleMultiPayment.json", exampleMultiPayment issuer holder joining);
             ("myCustomBatch.json", myCustomBatch issuer holder joining)].
Proof.
  unfold updateExampleFiles.
  destruct (read accountsData "accounts") as [accounts|e]; simpl; [|discriminate].
  destruct (find_role accounts "issuer") as [a1|e]; simpl; [|discriminate].
  destruct (find_role accounts "existing_holder") as [a2|e]; simpl; [|discriminate].
  destruct (find_role accounts "new_holder") as [a3|e]; simpl; [|discriminate].
  destruct (read accountsData "tokenInfo") as [info|e]; simpl; [|discriminate].
  destruct (read info "currency") as [currency|e]; simpl; [|discriminate].
  destruct (read a2 "address") as [holder|e]; simpl; [|discriminate].
  destruct (read a3 "address") as [joining|e]; simpl; [|discriminate].
  destruct (read a1 "address") as [issuer|e]; simpl; [|discriminate].
  intros [= <-]. eauto.
Qed.

(** X5. Every example file [updateExampleFiles] writes holds, once loaded
    again, a batch that [validateBatchTransaction] accepts; and when its
    outer [Account] is a non-empty string the web form accepts it too,
    whatever the other addresses are. *)
Theorem examples_pass_validation
    (StringToNumber : string -> number) (ArrayToString : list value -> string)
    (accountsData : value) (files : list (string * value)) :
  updateExampleFiles accountsData = Ok files ->
  List.map fst files = ["examplePayment.json"; "exampleTrustline.json";
                        "exampleMultiPayment.json"; "myCustomBatch.json"] /\
  Forall (fun file =>
            Cli.validateBatchTransaction (json_value (snd file)) = Ok true /\
            (forall a, get_opt (snd file) "Account" = JStr a -> a <> "" ->
               Web.validateTemplate StringToNumber ArrayToString (json_value (snd file))
                 = Ok (json_value (snd file)))) files.
Proof.
  intros H. apply updateExampleFiles_inv in H.
  destruct H as (currency & issuer & holder & joining & ->).
  split; [reflexivity|].
  repeat (apply List.Forall_cons; [split; [apply batch_valid|]|]);
    try apply List.Forall_nil.
  all: cbn [snd]; intros a Ha Hne; cbn in Ha; subst.
  all: apply WebFacts.validateTemplate_accepts_iff; split; [reflexivity|].
  all: unfold examplePayment, exampleTrustline, exampleMultiPayment, myCustomBatch.
  all: apply batch_accepted; auto; cbn [List.map List.length]; try lia.
  all: repeat apply List.Forall_cons; try apply List.Forall_nil;
    try apply payment_accepted; apply trust_set_accepted.
Qed.



(** X6. For the three accounts the setup script creates (issuer, existing
    holder, new holder, with pairwise distinct addresses),
    [assignAccountRoles] finds by exact match the roles each example file
    was written for: the new holder signs the payment, trust line and
    custom examples, the two holders sign the multi-payment example, and
    the parent is the account whose address is the outer [Account]. *)
Theorem examples_match_roles
    (accountsData : value) (info p1 p2 p3 : list (string * value)) (c i h n : string) :
  get accountsData "accounts" = Some (JArr [JObj p1; JObj p2; JObj p3]) ->
  get accountsData "tokenInfo" = Some (JObj info) ->
  own_prop "currency" info = JStr c ->
  own_prop "role" p1 = JStr "issuer" -> own_prop "address" p1 = JStr i ->
  own_prop "role" p2 = JStr "existing_holder" -> own_prop "address" p2 = JStr h ->
  own_prop "role" p3 = JStr "new_holder" -> own_prop "address" p3 = JStr n ->
  i <> h -> i <> n -> h <> n ->
  exists d1 d2 d3 d4,
    updateExampleFiles accountsData =
      Ok [("examplePayment.json", d1); ("exampleTrustline.json", d2);
          ("exampleMultiPayment.json", d3); ("myCustomBatch.json", d4)] /\
    assignAccountRoles (json_value d1) accountsData =
      (false, Ok {| signerAccounts := [JObj p3]; parentAccount := JObj p2;
                    isMultiSigner := false |}) /\
    assignAccountRoles (json_value d2) accountsData =
      (false, Ok {| signerAccounts := [JObj p3]; parentAccount := JObj p1;
                    isMultiSigner := false |}) /\
    assignAccountRoles (json_value d3) accountsData =
      (false, Ok {| signerAccounts := [JObj p2; JObj p3]; parentAccount := JObj p1;
                    isMultiSigner := true |}) /\
    assignAccountRoles (json_value d4) accountsData =
      (false, Ok {| signerAccounts := [JObj p3]; parentAccount := JObj p2;
                    isMultiSigner := false |}).
Proof.
  intros Hacc Hinfo Hc Hr1 Ha1 Hr2 Ha2 Hr3 Ha3 Hih Hin Hhn.
  assert (Eih : String.eqb i h = false) by (now apply String.eqb_neq).
  assert (Ehi : String.eqb h i = false) by (apply String.eqb_neq; congruence).
  assert (Ein : String.eqb i n = false) by (now apply String.eqb_neq).
  assert (Eni : String.eqb n i = false) by (apply String.eqb_neq; congruence).
  assert (Ehn : String.eqb h n = false) by (now apply String.eqb_neq).
  assert (Enh : String.eqb n h = false) by (apply String.eqb_neq; congruence).
  assert (Hall : Forall (fun account => get account "address" <> None)
                   [JObj p1; JObj p2; JObj p3]) by (repeat constructor; discriminate).
  do 4 eexists. split.
  { unfold updateExampleFiles, read, Cli.read. rewrite Hacc, Hinfo. simpl.
    repeat (first [rewrite Hr1 | rewrite Hr2 | rewrite Hr3 | rewrite Hc
                  | rewrite Ha1 | rewrite Ha2 | rewrite Ha3]; simpl).
    reflexivity. }
  repeat split.
  all: match goal with
       | |- assignAccountRoles ?d _ = _ =>
           erewrite (RolesFacts.exact_roles_found d accountsData);
             [ | reflexivity | reflexivity | exact Hacc | exact Hall | | ]
       end.
  all: unfold RolesFacts.matched_parent, RolesFacts.is_signer, signer_addresses,
         remove_duplicates, is_first_occurrence, get_opt; simpl.
  all: rewrite ?Ha1, ?Ha2, ?Ha3; simpl.
  all: repeat (progress (rewrite ?String.eqb_refl, ?Eih, ?Ehi, ?Ein, ?Eni, ?Ehn, ?Enh; simpl)).
  all: try reflexivity; discriminate.
Qed.


(** The file of test accounts in the shape [accountSetup.js] writes it. *)
Definition devnet_file : value :=
  JObj [("network", JStr "devnet");
        ("tokenInfo", JObj [("currency", JStr "XPN"); ("issuer", JStr "rIssuer")]);
        ("accounts", JArr [RolesFacts.account_entry "issuer" "rIssuer";
                           RolesFacts.account_entry "existing_holder" "rHolder";
                           RolesFacts.account_entry "new_holder" "rNew"])].

Definition devnet_examples : list (string * value) :=
  [("examplePayment.json", examplePayment (JStr "rIssuer") (JStr "rHolder") (JStr "rNew"));
   ("exampleTrustline.json",
    exampleTrustline (JStr "XPN") (JStr "rIssuer") (JStr "rHolder") (JStr "rNew"));
   ("exampleMultiPayment.json",
    exampleMultiPayment (JStr "rIssuer") (JStr "rHolder") (JStr "rNew"));
   ("myCustomBatch.json", myCustomBatch (JStr "rIssuer") (JStr "rHolder") (JStr "rNew"))].

Lemma examples_pass_validation_witness :
  List.map fst devnet_examples =
    ["examplePayment.json"; "exampleTrustline.json";
     "exampleMultiPayment.json"; "myCustomBatch.json"] /\
  Forall (fun file =>
            Cli.validateBatchTransaction (json_value (snd file)) = Ok true /\
            (forall a, get_opt (snd file) "Account" = JStr a -> a <> "" ->
               Web.validateTemplate WebFacts.no_number WebFacts.no_text
                 (json_value (snd file)) = Ok (json_value (snd file)))) devnet_examples.
Proof.
  exact (examples_pass_validation WebFacts.no_number WebFacts.no_text
           devnet_file devnet_examples eq_refl).
Defined.

Lemma examples_match_roles_witness :
  exists d1 d2 d3 d4,
    updateExampleFiles devnet_file =
      Ok [("examplePayment.json", d1); ("exampleTrustline.json", d2);
          ("exampleMultiPayment.json", d3); ("myCustomBatch.json", d4)] /\
    assignAccountRoles (json_value d1) devnet_file =
      (false, Ok {| signerAccounts := [RolesFacts.account_entry "new_holder" "rNew"];
                    parentAccount := RolesFacts.account_entry "existing_holder" "rHolder";
                    isMultiSigner := false |}) /\
    assignAccountRoles (json_value d2) devnet_file =
      (false, Ok {| signerAccounts := [RolesFacts.account_entry "new_holder" "rNew"];
                    parentAccount := RolesFacts.account_entry "issuer" "rIssuer";
                    isMultiSigner := false |}) /\
    assignAccountRoles (json_value d3) devnet_file =
      (false, Ok {| signerAccounts := [RolesFacts.account_entry "existing_holder" "rHolder";
                                       RolesFacts.account_entry "new_holder" "rNew"];
                    parentAccount := RolesFacts.account_entry "issuer" "rIssuer";
                    isMultiSigner := true |}) /\
    assignAccountRoles (json_value d4) devnet_file =
      (false, Ok {| signerAccounts := [RolesFacts.account_entry "new_holder" "rNew"];
                    parentAccount := RolesFacts.account_entry "existing_holder" "rHolder";
                    isMultiSigner := false |}).
Proof.
  apply (examples_match_roles devnet_file
           [("currency", JStr "XPN"); ("issuer", JStr "rIssuer")]
           _ _ _ "XPN" "rIssuer" "rHolder" "rNew");
    try reflexivity; discriminate.
Defined.

End SetupFacts.

(** ** A stand-in for the xrpl library

    The facts below hold for every library; their instances are shown on
    this one, where a seed names its address and a signature is a constant. *)

Module Toy.

Definition wallet_of (a : string) : wallet :=
  {| address := a; publicKey := String.append "02" a; privateKey := String.append "00" a |}.

(** A seed of 25 characters and more that ends in the address. *)
Definition seed_of (a : string) : value :=
  JStr (String.append "sSeedOfTheAccountNamed:::" a).

Definition fromSeed (seed : value) : Cli.result wallet :=
  match seed with
  | JPrim (PStr s) => Ok (wallet_of (String.substring 25 (String.length s - 25) s))
  | _ => Throw (Cli.External "Invalid seed")
  end.

Definition signer_entry (w : wallet) : value :=
  JObj [("BatchSigner",
         JObj [("Account", JStr (address w));
               ("SigningPubKey", JStr (publicKey w));
               ("TxnSignature", JStr "3045")])].

Definition signMultiBatch (w : wallet) (tx : value) : Cli.result value :=
  Ok (JArr [signer_entry w]).

End Toy.

(** ** Facts about the signatures for several signers *)

Module MultiFacts.
Import Cli Multi.

Lemma validateSeed_true (seed : value) (b : bool) :
  validateSeed seed = Ok b -> b = true.
Proof.
  unfold validateSeed.
  destruct (negb (truthy seed) || negb (String.eqb (typeof seed) "string")); [discriminate|].
  destruct seed as [[| |b'|n|s]|l|o]; try discriminate.
  destruct (negb (String.prefix "s" s)); [discriminate|].
  destruct (Nat.ltb (String.length s) 25); [discriminate|]. congruence.
Qed.

Lemma Forall2_In_left {A B} (P : A -> B -> Prop) (l : list A) (k : list B) (x : A) :
  Forall2 P l k -> In x l -> exists y, In y k /\ P x y.
Proof.
  induction 1 as [|a b l k Hab _ IH]; simpl; [tauto|].
  intros [<-|Hin].
  - exists b. auto.
  - destruct (IH Hin) as (y & Hy & Hxy). exists y. auto.
Qed.

Definition is_output (ev : event) : bool :=
  match ev with LogOutput _ => true | _ => false end.

Section Run.
Variable fromSeed : value -> result wallet.
Variable signMultiBatch : wallet -> value -> result value.

Abbreviation one := (sign_with fromSeed signMultiBatch).
Abbreviation each := (sign_each fromSeed signMultiBatch).
Abbreviation body := (multiple_body fromSeed signMultiBatch).
Abbreviation run := (generateMultipleBatchSignatures fromSeed signMultiBatch).

(** What one turn of the loop went through when it pushes [entry]. *)
Definition signed_by (batchTx seed entry : value) : Prop :=
  exists w lines signers,
    validateSeed seed = Ok true /\
    fromSeed seed = Ok w /\
    checkSignerInvolvement batchTx (address w) = Ok lines /\
    signMultiBatch w batchTx = Ok signers /\
    index0 signers = Ok entry.

Lemma sign_with_ok (batchTx seed entry : value) :
  snd (one batchTx seed) = Ok entry ->
  signed_by batchTx seed entry /\
  List.filter is_signing (fst (one batchTx seed)) <> [] /\
  List.length (List.filter is_signing (fst (one batchTx seed))) = 1%nat.
Proof.
  unfold sign_with, signed_by, bindT, lift, emit.
  destruct (validateSeed seed) as [b|e] eqn:Hs; simpl; [|discriminate].
  apply validateSeed_true in Hs as Hb. subst b.
  destruct (fromSeed seed) as [w|e] eqn:Hw; simpl; [|discriminate].
  destruct (checkSignerInvolvement batchTx (address w)) as [lines|e] eqn:Hc;
    simpl; [|discriminate].
  destruct (signMultiBatch w batchTx) as [signers|e] eqn:Hsig; simpl; [|discriminate].
  destruct (index0 signers) as [first|e] eqn:Hi; simpl; [|discriminate].
  intros [= <-].
  assert (Hf : List.filter is_signing (List.map Printed lines ++ [Signing w batchTx])
               = [Signing w batchTx]).
  { clear. induction lines as [|c lines IH]; simpl; [reflexivity | exact IH]. }
  simpl. rewrite Hf. split; [eauto 10|]. split; [discriminate | reflexivity].
Qed.

Lemma sign_with_quiet (batchTx seed : value) :
  existsb is_output (fst (one batchTx seed)) = false.
Proof.
  unfold sign_with, bindT, lift, emit.
  destruct (validateSeed seed) as [b|e]; simpl; [|reflexivity].
  destruct (fromSeed seed) as [w|e]; simpl; [|reflexivity].
  destruct (checkSignerInvolvement batchTx (address w)) as [lines|e]; simpl; [|reflexivity].
  assert (Hq : forall rest, existsb is_output (List.map Printed lines ++ rest)
                            = existsb is_output rest).
  { intros rest. induction lines as [|c lines IH]; simpl; auto. }
  destruct (signMultiBatch w batchTx) as [signers|e]; simpl; [|now rewrite Hq].
  destruct (index0 signers) as [first|e]; simpl; now rewrite Hq.
Qed.

Lemma sign_each_step (batchTx seed : value) (rest : list value) :
  each batchTx (seed :: rest) =
    match snd (one batchTx seed) with
    | Ok entry =>
        (fst (one batchTx seed) ++ fst (each batchTx rest),
         match snd (each batchTx rest) with
         | Ok more => Ok (entry :: more)
         | Throw e => Throw e
         end)
    | Throw e => (fst (one batchTx seed), Throw e)
    end.
Proof.
  simpl. unfold bindT at 1.
  destruct (one batchTx seed) as [printed [entry|e]]; simpl; [|reflexivity].
  unfold bindT, lift.
  destruct (each batchTx rest) as [more [entries|e]]; simpl.
  - now rewrite app_nil_r.
  - reflexivity.
Qed.

Lemma sign_each_ok (batchTx : value) (seeds entries : list value) :
  snd (each batchTx seeds) = Ok entries ->
  Forall2 (signed_by batchTx) seeds entries /\
  List.length (List.filter is_signing (fst (each batchTx seeds))) = List.length seeds.
Proof.
  revert entries. induction seeds as [|seed seeds IH]; intros entries.
  - simpl. intros [= <-]. split; [constructor | reflexivity].
  - rewrite sign_each_step.
    destruct (snd (one batchTx seed)) as [entry|e] eqn:Hone; simpl; [|discriminate].
    destruct (snd (each batchTx seeds)) as [more|e] eqn:Hrest; simpl; [|discriminate].
    intros [= <-]. destruct (IH more eq_refl) as [Hall Hn].
    apply sign_with_ok in Hone. destruct Hone as (Hby & _ & H1).
    split; [now constructor|].
    rewrite List.filter_app, length_app, H1, Hn. reflexivity.
Qed.

Lemma sign_each_quiet (batchTx : value) (seeds : list value) :
  existsb is_output (fst (each batchTx seeds)) = false.
Proof.
  induction seeds as [|seed seeds IH]; [reflexivity|].
  rewrite sign_each_step.
  destruct (snd (one batchTx seed)); simpl.
  - now rewrite existsb_app, sign_with_quiet, IH.
  - apply sign_with_quiet.
Qed.

Lemma body_step (batchTx : value) (seeds : list value) :
  body batchTx seeds =
    match validateBatchTransaction batchTx with
    | Throw e => ([], Throw e)
    | Ok _ =>
        match snd (each batchTx seeds) with
        | Ok entries =>
            (fst (each batchTx seeds) ++ [LogOutput (JArr entries)], Ok (JArr entries))
        | Throw e => (fst (each batchTx seeds), Throw e)
        end
    end.
Proof.
  unfold multiple_body, bindT, lift, emit.
  destruct (validateBatchTransaction batchTx) as [b|e]; simpl; [|reflexivity].
  destruct (each batchTx seeds) as [printed [entries|e]]; simpl; reflexivity.
Qed.

(** X7. When [generateMultipleBatchSignatures] returns, the batch passed
    [validateBatchTransaction], the array returned holds one entry per
    seed, in the order of the seeds, each the first signer the library
    stored for the wallet of a seed that passed [validateSeed] and the
    involvement check; the library was called once per seed and the array
    was printed once. *)
Theorem multiple_signatures_complete (batchTx : value) (seeds : list value) (v : value) :
  snd (run batchTx seeds) = Returned v ->
  validateBatchTransaction batchTx = Ok true /\
  exists entries,
    v = JArr entries /\
    Forall2 (signed_by batchTx) seeds entries /\
    List.length entries = List.length seeds /\
    List.length (List.filter is_signing (fst (run batchTx seeds))) = List.length seeds /\
    List.filter is_output (fst (run batchTx seeds)) = [LogOutput v].
Proof.
  unfold generateMultipleBatchSignatures. rewrite body_step.
  destruct (validateBatchTransaction batchTx) as [b|e] eqn:Hv; simpl; [|discriminate].
  destruct (snd (each batchTx seeds)) as [entries|e] eqn:Hrun; simpl; [|discriminate].
  intros [= <-]. split.
  { destruct (CliFacts.validateBatchTransaction_total batchTx) as [H|(e & H & _)];
      congruence. }
  destruct (sign_each_ok _ _ _ Hrun) as [Hall Hn].
  exists entries. split; [reflexivity|]. split; [exact Hall|].
  split; [symmetry; eapply Forall2_length; eauto|].
  rewrite !List.filter_app, length_app, Hn. simpl. split; [lia|].
  pose proof (sign_each_quiet batchTx seeds) as Hq.
  assert (Hnil : forall l, existsb is_output l = false -> List.filter is_output l = []).
  { induction l as [|ev l IH]; simpl; [reflexivity|].
    destruct (is_output ev); simpl; [discriminate | exact IH]. }
  now rewrite (Hnil _ Hq).
Qed.

(** X8. If one of the seeds is that of the outer [Account], the call
    returns nothing: the error is printed last and rethrown (the process
    does not exit, unlike in [generateBatchSignature]), and no signature is
    printed, not even those of the seeds before it. *)
Theorem multiple_signatures_parent_seed
    (batchTx : value) (seeds : list value) (seed : value) (w : wallet) :
  In seed seeds ->
  fromSeed seed = Ok w ->
  get_opt batchTx "Account" = JStr (address w) ->
  (exists e, snd (run batchTx seeds) = Rethrown e /\
             exists printed, fst (run batchTx seeds) = printed ++ [ErrorLine e]) /\
  existsb is_output (fst (run batchTx seeds)) = false.
Proof.
  intros Hin Hw Hacc.
  assert (Hfail : forall entries, snd (each batchTx seeds) <> Ok entries).
  { intros entries Hrun. apply sign_each_ok in Hrun. destruct Hrun as [Hall _].
    destruct (Forall2_In_left _ _ _ _ Hall Hin) as (entry & _ & Hby).
    destruct Hby as (w' & lines & signers & _ & Hw' & Hc & _).
    assert (w' = w) by congruence. subst w'.
    destruct (CliFacts.checkSignerInvolvement_submitter _ _ Hacc) as (e & He & _).
    congruence. }
  unfold generateMultipleBatchSignatures. rewrite body_step.
  destruct (validateBatchTransaction batchTx) as [b|e]; simpl.
  - destruct (snd (each batchTx seeds)) as [entries|e] eqn:Hrun; simpl.
    + now destruct (Hfail entries).
    + split; [eauto|]. rewrite existsb_app, sign_each_quiet. reflexivity.
  - split; [|reflexivity]. exists e. split; [reflexivity|]. now exists [].
Qed.

End Run.

Lemma multiple_signatures_complete_witness :
  Cli.validateBatchTransaction CliFacts.example_batch = Ok true /\
  exists entries,
    JArr [Toy.signer_entry (Toy.wallet_of "rChild1");
          Toy.signer_entry (Toy.wallet_of "rChild2")] = JArr entries /\
    Forall2 (signed_by Toy.fromSeed Toy.signMultiBatch CliFacts.example_batch)
      [Toy.seed_of "rChild1"; Toy.seed_of "rChild2"] entries /\
    List.length entries = 2%nat /\
    List.length
      (List.filter is_signing
         (fst (generateMultipleBatchSignatures Toy.fromSeed Toy.signMultiBatch
                 CliFacts.example_batch [Toy.seed_of "rChild1"; Toy.seed_of "rChild2"])))
      = 2%nat /\
    List.filter is_output
      (fst (generateMultipleBatchSignatures Toy.fromSeed Toy.signMultiBatch
              CliFacts.example_batch [Toy.seed_of "rChild1"; Toy.seed_of "rChild2"]))
      = [LogOutput (JArr [Toy.signer_entry (Toy.wallet_of "rChild1");
                          Toy.signer_entry (Toy.wallet_of "rChild2")])].
Proof.
  exact (multiple_signatures_complete Toy.fromSeed Toy.signMultiBatch
           CliFacts.example_batch [Toy.seed_of "rChild1"; Toy.seed_of "rChild2"]
           _ eq_refl).
Defined.

Lemma multiple_signatures_parent_seed_witness :
  (exists e,
     snd (generateMultipleBatchSignatures Toy.fromSeed Toy.signMultiBatch
            CliFacts.example_batch [Toy.seed_of "rChild1"; Toy.seed_of "rParent"])
       = Rethrown e /\
     exists printed,
       fst (generateMultipleBatchSignatures Toy.fromSeed Toy.signMultiBatch
              CliFacts.example_batch [Toy.seed_of "rChild1"; Toy.seed_of "rParent"])
         = printed ++ [ErrorLine e]) /\
  existsb is_output
    (fst (generateMultipleBatchSignatures Toy.fromSeed Toy.signMultiBatch
            CliFacts.example_batch [Toy.seed_of "rChild1"; Toy.seed_of "rParent"]))
    = false.
Proof.
  apply (multiple_signatures_parent_seed Toy.fromSeed Toy.signMultiBatch
           CliFacts.example_batch [Toy.seed_of "rChild1"; Toy.seed_of "rParent"]
           (Toy.seed_of "rParent") (Toy.wallet_of "rParent")).
  - simpl. tauto.
  - reflexivity.
  - reflexivity.
Defined.

End MultiFacts.

(** ** Facts about the complete workflows *)

Module WorkflowFacts.
Import Workflow.

(** The events of a run that stops before the batch is autofilled. *)
Definition is_local (ev : event) : bool :=
  match ev with
  | Connect | LogAddress _ | ErrorLine _ => true
  | _ => false
  end.

(** The events before the first signature. *)
Definition is_quiet (ev : event) : bool :=
  match ev with
  | Connect | LogAddress _ | Printed _ | Autofill _ => true
  | _ => false
  end.

Ltac leaf :=
  repeat split; unfold not; intros; simpl in *;
  repeat match goal with
         | H : _ \/ _ |- _ => destruct H
         | H : False |- _ => destruct H
         | H : Submit _ = Submit _ |- _ => injection H as <-
         | H : ParentSign _ _ = ParentSign _ _ |- _ => injection H as <- <-
         | H : _ = ?ev |- _ => subst ev
         | H : @eq event _ _ |- _ => discriminate H
         | H : @eq (result _) _ _ |- _ => discriminate H
         | H : @eq (Cli.result _) _ _ |- _ => discriminate H
         end;
  eauto 12.

Lemma bindT_lift {A B} (r : result A) (f : A -> traced B) :
  bindT (lift r) f = match r with Ok a => f a | Throw e => ([], Throw e) end.
Proof. unfold bindT, lift. destruct r as [a|e]; [|reflexivity]. now destruct (f a). Qed.

Lemma bindT_emit {B} (evs : list event) (f : unit -> traced B) :
  bindT (emit evs) f = (evs ++ fst (f tt), snd (f tt)).
Proof. unfold bindT, emit. now destruct (f tt). Qed.

Lemma bindT_pair {A B} (m : traced A) (f : A -> traced B) :
  bindT m f =
    match snd m with
    | Ok a => (fst m ++ fst (f a), snd (f a))
    | Throw e => (fst m, Throw e)
    end.
Proof.
  unfold bindT. destruct m as [printed [a|e]]; simpl; [|reflexivity].
  now destruct (f a).
Qed.

Lemma read_eq (v : value) (k : string) :
  read v k = match get v k with Some x => Ok x | None => Throw (Tool Cli.TypeError) end.
Proof. unfold read, Cli.read. now destruct (get v k). Qed.

Lemma quiet_printed (lines : list Cli.console) :
  Forall (fun ev => is_quiet ev = true) (List.map Printed lines).
Proof. induction lines; simpl; auto. Qed.

Lemma rethrowing_trace (run : traced value) :
  fst (rethrowing run) =
    fst run ++ match snd run with Ok _ => [] | Throw e => [ErrorLine e] end.
Proof.
  unfold rethrowing. destruct (snd run); simpl; [now rewrite app_nil_r | reflexivity].
Qed.

Lemma rethrowing_returned (run : traced value) (v : value) :
  snd (rethrowing run) = Returned v <-> snd run = Ok v.
Proof. unfold rethrowing. destruct (snd run); simpl; split; congruence. Qed.

Section Submit.
Variable fromSeed : value -> Cli.result wallet.
Variable signMultiBatch : wallet -> value -> Cli.result value.
Variable connect : Cli.result unit.
Variable autofill : value -> Cli.result (list (string * value)).
Variable reAutofill : value -> Cli.result (list (string * value)).
Variable combineBatchSigners : list value -> Cli.result value.
Variable decode : value -> Cli.result value.
Variable sign : wallet -> value -> Cli.result value.
Variable submitAndWait : value -> Cli.result value.
Variable disconnect : Cli.result unit.

Abbreviation finish :=
  (submit_combined reAutofill combineBatchSigners decode sign submitAndWait disconnect).
Abbreviation single :=
  (submit_body fromSeed signMultiBatch connect autofill reAutofill combineBatchSigners
     decode sign submitAndWait disconnect).
Abbreviation several :=
  (multi_body fromSeed signMultiBatch connect autofill reAutofill combineBatchSigners
     decode sign submitAndWait disconnect).
Abbreviation run_single :=
  (generateAndSubmitBatch fromSeed signMultiBatch connect autofill reAutofill
     combineBatchSigners decode sign submitAndWait disconnect).
Abbreviation run_several :=
  (generateAndSubmitMultiSignerBatch fromSeed signMultiBatch connect autofill reAutofill
     combineBatchSigners decode sign submitAndWait disconnect).

(** The parent's seed is valid and its wallet is the outer [Account]; the
    batch was then autofilled to [filled]. *)
Definition parent_matches (batchTx parentSeed : value) (parentWallet : wallet) : Prop :=
  Cli.validateSeed parentSeed = Ok true /\
  fromSeed parentSeed = Ok parentWallet /\
  get_opt batchTx "Account" = JStr (address parentWallet).

Definition parent_ready (batchTx parentSeed : value) (parentWallet : wallet)
    (filled : list (string * value)) : Prop :=
  parent_matches batchTx parentSeed parentWallet /\ autofill batchTx = Ok filled.

(** The signer's seed is valid and its wallet passed the involvement check
    on the autofilled batch. *)
Definition signer_ready (filled : list (string * value)) (signerSeed : value)
    (signerWallet : wallet) : Prop :=
  Cli.validateSeed signerSeed = Ok true /\
  fromSeed signerSeed = Ok signerWallet /\
  exists lines,
    Cli.checkSignerInvolvement (JObj filled) (address signerWallet) = Ok lines.

(** The copy of the autofilled batch that carries the signature of the
    wallet of [signerSeed]. *)
Definition signed_for (filled : list (string * value)) (signerSeed tx : value) : Prop :=
  exists signerWallet signers,
    signer_ready filled signerSeed signerWallet /\
    signMultiBatch signerWallet (JObj filled) = Ok signers /\
    tx = JObj (set_prop "BatchSigners" signers filled).

(** What a submission went through, from the combination on. *)
Definition submitted (parentWallet : wallet) (txs : list value) (blob : value) : Prop :=
  exists combinedTx decodedTx refilled signed,
    combineBatchSigners txs = Ok combinedTx /\
    decode combinedTx = Ok decodedTx /\
    reAutofill decodedTx = Ok refilled /\
    sign parentWallet (JObj (set_prop "Fee" (JStr "1000") refilled)) = Ok signed /\
    get signed "tx_blob" = Some blob.

Lemma finish_trace (batchTx : value) (parentWallet : wallet) (txs : list value) :
  let run := finish batchTx parentWallet txs in
  (forall blob, In (Submit blob) (fst run) -> submitted parentWallet txs blob) /\
  (forall w tx, In (ParentSign w tx) (fst run) ->
     w = parentWallet /\ get_opt tx "Fee" = JStr "1000") /\
  (forall w tx, ~ In (Signing w tx) (fst run)) /\
  (forall v, snd run = Ok v -> In Disconnect (fst run)) /\
  (disconnect = Ok tt -> In Disconnect (fst run) -> exists v, snd run = Ok v).
Proof.
  assert (Hfee : forall refilled,
             get_opt (JObj (set_prop "Fee" (JStr "1000") refilled)) "Fee" = JStr "1000").
  { intros refilled. unfold get_opt. simpl. apply WebFacts.own_prop_set_same. }
  unfold submit_combined, submitted, bindT, lift, emit, read, Cli.read. simpl.
  destruct (combineBatchSigners txs) as [combinedTx|e] eqn:Hc; simpl; [|leaf].
  destruct (decode combinedTx) as [decodedTx|e] eqn:Hd; simpl; [|leaf].
  destruct (reAutofill decodedTx) as [refilled|e] eqn:Hr; simpl; [|leaf].
  destruct (sign parentWallet _) as [signed|e] eqn:Hs; simpl; [|leaf].
  destruct (get signed "tx_blob") as [blob|] eqn:Hb; simpl; [|leaf].
  destruct (submitAndWait blob) as [result|e] eqn:Hsub; simpl; [|leaf].
  destruct (get result "result") as [inner|] eqn:Hi; simpl; [|leaf].
  destruct (get inner "meta") as [meta|] eqn:Hm; simpl; [|leaf].
  destruct (get meta "TransactionResult") as [code|] eqn:Ht; simpl; [|leaf].
  destruct (strict_eq_str code "tesSUCCESS") eqn:Hok; simpl.
  - destruct (get batchTx "RawTransactions") as [raw|] eqn:Hraw; simpl; [|leaf].
    destruct (get raw "length") as [count|] eqn:Hcount; simpl; [|leaf].
    destruct disconnect as [[]|e] eqn:Hdis; simpl; leaf.
  - destruct disconnect as [[]|e] eqn:Hdis; simpl; leaf.
Qed.

(** *** One signer *)

Ltac stop_early :=
  eexists; refine (conj _ (or_introl (conj (ex_intro _ _ eq_refl) _)));
  [repeat constructor | left; repeat constructor].

Lemma single_shape (batchTx signerSeed parentSeed : value) :
  exists pre,
    Forall (fun ev => is_quiet ev = true) pre /\
    (((exists e, single batchTx signerSeed parentSeed = (pre, Throw e)) /\
      (Forall (fun ev => is_local ev = true) pre \/
       exists pw, parent_matches batchTx parentSeed pw)) \/
     (exists sw pw filled e,
        parent_ready batchTx parentSeed pw filled /\
        signer_ready filled signerSeed sw /\
        single batchTx signerSeed parentSeed = (pre ++ [Signing sw (JObj filled)], Throw e)) \/
     (exists sw pw filled signers,
        parent_ready batchTx parentSeed pw filled /\
        signer_ready filled signerSeed sw /\
        signMultiBatch sw (JObj filled) = Ok signers /\
        let run := finish batchTx pw [JObj (set_prop "BatchSigners" signers filled)] in
        single batchTx signerSeed parentSeed =
          (pre ++ Signing sw (JObj filled) :: fst run, snd run))).
Proof.
  unfold submit_body.
  rewrite bindT_emit, bindT_lift.
  destruct connect as [[]|e]; cbn [tool fst snd app]; [|stop_early].
  rewrite bindT_lift.
  destruct (Cli.validateSeed signerSeed) as [b1|e] eqn:Hs1; cbn [tool fst snd app];
    [|stop_early].
  apply MultiFacts.validateSeed_true in Hs1 as Hb1. subst b1.
  rewrite bindT_lift.
  destruct (Cli.validateSeed parentSeed) as [b2|e] eqn:Hs2; cbn [tool fst snd app];
    [|stop_early].
  apply MultiFacts.validateSeed_true in Hs2 as Hb2. subst b2.
  rewrite bindT_lift.
  destruct (fromSeed signerSeed) as [sw|e] eqn:Hw1; cbn [tool fst snd app]; [|stop_early].
  rewrite bindT_lift.
  destruct (fromSeed parentSeed) as [pw|e] eqn:Hw2; cbn [tool fst snd app]; [|stop_early].
  rewrite bindT_emit, bindT_lift, read_eq.
  destruct (get batchTx "Account") as [account|] eqn:Hacc; cbn [tool fst snd app];
    [|stop_early].
  destruct (strict_eq_str account (address pw)) eqn:Hpar; cbn [negb lift fst snd app];
    [|stop_early].
  apply CliFacts.strict_eq_str_true in Hpar. subst account.
  assert (Hmatch : parent_matches batchTx parentSeed pw).
  { unfold parent_matches, get_opt. rewrite Hacc. auto. }
  rewrite bindT_emit, bindT_lift.
  destruct (autofill batchTx) as [filled|e] eqn:Hfill; cbn [tool fst snd app].
  2:{ eexists. refine (conj _ (or_introl (conj (ex_intro _ _ eq_refl) _)));
        [repeat constructor | right; eauto]. }
  assert (Hparent : parent_ready batchTx parentSeed pw filled) by (split; auto).
  rewrite bindT_lift.
  destruct (Cli.checkSignerInvolvement (JObj filled) (address sw)) as [lines|e] eqn:Hchk;
    cbn [tool fst snd app].
  2:{ eexists. refine (conj _ (or_introl (conj (ex_intro _ _ eq_refl) _)));
        [repeat constructor | right; eauto]. }
  assert (Hsigner : signer_ready filled signerSeed sw).
  { unfold signer_ready. eauto. }
  rewrite !bindT_emit, bindT_lift.
  exists ([Connect; LogAddress (address sw); LogAddress (address pw); Autofill batchTx]
          ++ List.map Printed lines).
  split; [repeat constructor; apply quiet_printed|].
  destruct (signMultiBatch sw (JObj filled)) as [signers|e] eqn:Hsig; cbn [tool fst snd app].
  2:{ right; left. exists sw, pw, filled, (Tool e). split; [exact Hparent|].
      split; [exact Hsigner|]. now rewrite <- ?app_assoc. }
  rewrite bindT_lift.
  destruct (Cli.index0 signers) as [first|e] eqn:Hfirst; cbn [tool fst snd app].
  2:{ right; left. exists sw, pw, filled, (Tool e). split; [exact Hparent|].
      split; [exact Hsigner|]. now rewrite <- ?app_assoc. }
  rewrite bindT_lift, read_eq.
  destruct (get first "BatchSigner") as [entry|] eqn:Hentry; cbn [tool fst snd app].
  2:{ right; left. exists sw, pw, filled, (Tool Cli.TypeError). split; [exact Hparent|].
      split; [exact Hsigner|]. now rewrite <- ?app_assoc. }
  rewrite bindT_lift, read_eq.
  destruct (get entry "Account") as [signerAccount|] eqn:Hsa; cbn [tool fst snd app].
  2:{ right; left. exists sw, pw, filled, (Tool Cli.TypeError). split; [exact Hparent|].
      split; [exact Hsigner|]. now rewrite <- ?app_assoc. }
  right; right. exists sw, pw, filled, signers.
  split; [exact Hparent|]. split; [exact Hsigner|]. split; [exact Hsig|].
  cbn zeta. now rewrite <- ?app_assoc.
Qed.


(** *** Several signers *)

Abbreviation one_for := (sign_for fromSeed signMultiBatch).
Abbreviation all_for := (sign_all fromSeed signMultiBatch).

(** An event of the signing loop: a quiet one, or the call of the library
    for a seed that is ready. *)
Definition loop_event (filled : list (string * value)) (seeds : list value) (ev : event)
  : Prop :=
  is_quiet ev = true \/
  exists seed w, In seed seeds /\ signer_ready filled seed w /\ ev = Signing w (JObj filled).

Lemma loop_event_more (filled : list (string * value)) (seeds seeds' : list value)
    (ev : event) :
  (forall seed, In seed seeds -> In seed seeds') ->
  loop_event filled seeds ev -> loop_event filled seeds' ev.
Proof.
  intros Hsub [Hq|(seed & w & Hin & Hready & ->)]; [now left|].
  right. exists seed, w. auto.
Qed.

Lemma quiet_loop (filled : list (string * value)) (seeds : list value) (l : list event) :
  Forall (fun ev => is_quiet ev = true) l -> Forall (loop_event filled seeds) l.
Proof. apply List.Forall_impl. intros ev H. now left. Qed.

Lemma sign_for_shape (filled : list (string * value)) (seed : value) :
  Forall (loop_event filled [seed]) (fst (one_for filled seed)) /\
  (forall tx, snd (one_for filled seed) = Ok tx -> signed_for filled seed tx).
Proof.
  unfold sign_for.
  rewrite bindT_lift.
  destruct (Cli.validateSeed seed) as [b|e] eqn:Hs; cbn [tool fst snd app].
  2:{ split; [constructor | discriminate]. }
  apply MultiFacts.validateSeed_true in Hs as Hb. subst b.
  rewrite bindT_lift.
  destruct (fromSeed seed) as [w|e] eqn:Hw; cbn [tool fst snd app].
  2:{ split; [constructor | discriminate]. }
  rewrite bindT_emit, bindT_lift.
  destruct (Cli.checkSignerInvolvement (JObj filled) (address w)) as [lines|e] eqn:Hc;
    cbn [tool fst snd app].
  2:{ split; [repeat constructor | discriminate]. }
  assert (Hready : signer_ready filled seed w) by (unfold signer_ready; eauto).
  assert (Hloop : Forall (loop_event filled [seed])
                    (LogAddress (address w)
                     :: List.map Printed lines ++ [Signing w (JObj filled)])).
  { constructor; [red; now left|]. apply Forall_app. split.
    - apply quiet_loop, quiet_printed.
    - constructor; [|constructor]. red. right. exists seed, w. simpl. auto. }
  rewrite !bindT_emit, bindT_lift.
  destruct (signMultiBatch w (JObj filled)) as [signers|e] eqn:Hsig; cbn [tool fst snd app].
  - split; [exact Hloop|].
    intros tx [= <-]. exists w, signers. auto.
  - split; [exact Hloop | discriminate].
Qed.

Lemma sign_all_shape (filled : list (string * value)) (seeds : list value) :
  Forall (loop_event filled seeds) (fst (all_for filled seeds)) /\
  (forall txs, snd (all_for filled seeds) = Ok txs ->
     Forall2 (signed_for filled) seeds txs).
Proof.
  induction seeds as [|seed seeds [IHev IHok]].
  - simpl. split; [constructor|]. intros txs [= <-]. constructor.
  - cbn [sign_all]. rewrite bindT_pair.
    destruct (sign_for_shape filled seed) as [Hev Hok].
    assert (Hhead : Forall (loop_event filled (seed :: seeds)) (fst (one_for filled seed))).
    { eapply List.Forall_impl; [|exact Hev]. intros ev. apply loop_event_more.
      intros x [<-|[]]. now left. }
    assert (Htail : Forall (loop_event filled (seed :: seeds)) (fst (all_for filled seeds))).
    { eapply List.Forall_impl; [|exact IHev]. intros ev. apply loop_event_more.
      intros x Hx. now right. }
    destruct (snd (one_for filled seed)) as [tx|e] eqn:Hone.
    2:{ split; [exact Hhead | discriminate]. }
    rewrite bindT_pair.
    destruct (snd (all_for filled seeds)) as [txs|e] eqn:Hrest; cbn [fst snd lift].
    + rewrite app_nil_r. split; [apply Forall_app; auto|].
      intros txs' [= <-]. constructor; auto.
    + split; [apply Forall_app; auto | discriminate].
Qed.

Lemma several_shape (batchTx : value) (seeds : list value) (parentSeed : value) :
  exists pre,
    ((exists e, several batchTx seeds parentSeed = (pre, Throw e)) /\
     (Forall (fun ev => is_local ev = true) pre \/
      exists pw, parent_matches batchTx parentSeed pw /\
        (Forall (fun ev => is_quiet ev = true) pre \/
         exists filled, autofill batchTx = Ok filled /\
                        Forall (loop_event filled seeds) pre))) \/
    (exists pw filled txs,
       parent_ready batchTx parentSeed pw filled /\
       Forall (loop_event filled seeds) pre /\
       Forall2 (signed_for filled) seeds txs /\
       let run := finish batchTx pw txs in
       several batchTx seeds parentSeed = (pre ++ fst run, snd run)).
Proof.
  unfold multi_body.
  rewrite bindT_emit, bindT_lift.
  destruct connect as [[]|e]; cbn [tool fst snd app].
  2:{ eexists. left. split; [eexists; reflexivity | left; repeat constructor]. }
  rewrite bindT_lift.
  destruct (Cli.validateSeed parentSeed) as [b|e] eqn:Hs; cbn [tool fst snd app].
  2:{ eexists. left. split; [eexists; reflexivity | left; repeat constructor]. }
  apply MultiFacts.validateSeed_true in Hs as Hb. subst b.
  rewrite bindT_lift.
  destruct (fromSeed parentSeed) as [pw|e] eqn:Hw; cbn [tool fst snd app].
  2:{ eexists. left. split; [eexists; reflexivity | left; repeat constructor]. }
  rewrite bindT_emit, bindT_lift, read_eq.
  destruct (get batchTx "Account") as [account|] eqn:Hacc; cbn [tool fst snd app].
  2:{ eexists. left. split; [eexists; reflexivity | left; repeat constructor]. }
  destruct (strict_eq_str account (address pw)) eqn:Hpar; cbn [negb lift fst snd app].
  2:{ eexists. left. split; [eexists; reflexivity | left; repeat constructor]. }
  apply CliFacts.strict_eq_str_true in Hpar. subst account.
  assert (Hmatch : parent_matches batchTx parentSeed pw).
  { unfold parent_matches, get_opt. rewrite Hacc. auto. }
  rewrite bindT_emit, bindT_lift.
  destruct (autofill batchTx) as [filled|e] eqn:Hfill; cbn [tool fst snd app].
  2:{ eexists. left. split; [eexists; reflexivity|]. right. exists pw.
      split; [exact Hmatch|]. left. repeat constructor. }
  assert (Hparent : parent_ready batchTx parentSeed pw filled) by (split; auto).
  rewrite bindT_pair.
  destruct (sign_all_shape filled seeds) as [Hev Hok].
  assert (Hpre : Forall (loop_event filled seeds)
                   ([Connect; LogAddress (address pw); Autofill batchTx]
                    ++ fst (all_for filled seeds))).
  { apply Forall_app. split; [|exact Hev]. apply quiet_loop. repeat constructor. }
  destruct (snd (all_for filled seeds)) as [txs|e] eqn:Hloop; cbn [fst snd app].
  - eexists. right. exists pw, filled, txs.
    split; [exact Hparent|]. split; [exact Hpre|]. split; [now apply Hok|].
    cbn zeta. now rewrite <- ?app_assoc.
  - eexists. left. split; [eexists; reflexivity|]. right. exists pw.
    split; [exact Hmatch|]. right. exists filled. split; [reflexivity | exact Hpre].
Qed.

(** *** What the traces tell *)

Definition is_disconnect (ev : event) : bool :=
  match ev with Disconnect => true | _ => false end.

Lemma quiet_connected (l : list event) :
  Forall (fun ev => is_quiet ev = true) l -> ~ In Disconnect l.
Proof.
  intros Hall Hin. rewrite List.Forall_forall in Hall. now apply Hall in Hin.
Qed.

Lemma loop_connected (filled : list (string * value)) (seeds : list value) (l : list event) :
  Forall (loop_event filled seeds) l -> ~ In Disconnect l.
Proof.
  intros Hall Hin. rewrite List.Forall_forall in Hall. apply Hall in Hin.
  destruct Hin as [Hq|(seed & w & _ & _ & Heq)]; discriminate.
Qed.

Lemma local_connected (l : list event) :
  Forall (fun ev => is_local ev = true) l -> ~ In Disconnect l.
Proof.
  intros Hall Hin. rewrite List.Forall_forall in Hall. now apply Hall in Hin.
Qed.

(** X9. In both complete workflows, given that [client.disconnect] itself
    does not throw, the connection is closed exactly when the call returns:
    every run that ends in an error, at whatever step, leaves the client
    connected. *)
Theorem workflows_disconnect_iff_returned :
  disconnect = Ok tt ->
  (forall batchTx signerSeed parentSeed,
      let run :=
        generateAndSubmitBatch fromSeed signMultiBatch connect autofill reAutofill
          combineBatchSigners decode sign submitAndWait disconnect
          batchTx signerSeed parentSeed in
      In Disconnect (fst run) <-> exists v, snd run = Returned v) /\
  (forall batchTx signerSeeds parentSeed,
      let run :=
        generateAndSubmitMultiSignerBatch fromSeed signMultiBatch connect autofill
          reAutofill combineBatchSigners decode sign submitAndWait disconnect
          batchTx signerSeeds parentSeed in
      In Disconnect (fst run) <-> exists v, snd run = Returned v).
Proof.
  intros Hdis. split.
  - intros batchTx signerSeed parentSeed. cbn zeta.
    unfold generateAndSubmitBatch. rewrite rethrowing_trace.
    setoid_rewrite rethrowing_returned.
    destruct (single_shape batchTx signerSeed parentSeed)
      as (pre & Hq & [[[e ->] _]|[(sw & pw & filled & e & _ & _ & ->)
                                 |(sw & pw & filled & signers & _ & _ & _ & ->)]]);
      cbn [fst snd].
    + split; [|intros [v Hv]; discriminate].
      intros Hin. apply in_app_or in Hin. destruct Hin as [Hin|[Hin|[]]];
        [now apply quiet_connected in Hin | discriminate].
    + split; [|intros [v Hv]; discriminate].
      intros Hin. rewrite !in_app_iff in Hin. simpl in Hin.
      destruct Hin as [[Hin|[Hin|[]]]|[Hin|[]]]; try discriminate.
      now apply quiet_connected in Hin.
    + destruct (finish_trace batchTx pw [JObj (set_prop "BatchSigners" signers filled)])
        as (_ & _ & _ & Hret & Hback).
      cbn zeta in Hret, Hback. split.
      * intros Hin. rewrite !in_app_iff in Hin. simpl in Hin.
        destruct Hin as [[Hin|[Hin|Hin]]|Hin].
        -- now apply quiet_connected in Hin.
        -- discriminate.
        -- now apply Hback.
        -- destruct (snd (finish _ _ _)) as [v|e]; [eauto|].
           destruct Hin as [Hin|[]]. discriminate.
      * intros [v Hv]. rewrite Hv. rewrite app_nil_r.
        apply in_or_app. right. right. now apply (Hret v).
  - intros batchTx seeds parentSeed. cbn zeta.
    unfold generateAndSubmitMultiSignerBatch. rewrite rethrowing_trace.
    setoid_rewrite rethrowing_returned.
    destruct (several_shape batchTx seeds parentSeed)
      as (pre & [[[e ->] Hpre]|(pw & filled & txs & _ & Hpre & _ & ->)]); cbn [fst snd].
    + split; [|intros [v Hv]; discriminate].
      intros Hin. apply in_app_or in Hin. destruct Hin as [Hin|[Hin|[]]]; [|discriminate].
      destruct Hpre as [Hl|(pw & _ & [Hq|(filled & _ & Hl)])].
      * now apply local_connected in Hin.
      * now apply quiet_connected in Hin.
      * destruct (loop_connected _ _ _ Hl Hin).
    + destruct (finish_trace batchTx pw txs) as (_ & _ & _ & Hret & Hback).
      cbn zeta in Hret, Hback. split.
      * intros Hin. rewrite !in_app_iff in Hin.
        destruct Hin as [[Hin|Hin]|Hin].
        -- destruct (loop_connected _ _ _ Hpre Hin).
        -- now apply Hback.
        -- destruct (snd (finish _ _ _)) as [v|e]; [eauto|].
           destruct Hin as [Hin|[]]. discriminate.
      * intros [v Hv]. rewrite Hv. rewrite app_nil_r.
        apply in_or_app. right. now apply (Hret v).
Qed.


Lemma quiet_forall (l : list event) (ev : event) :
  Forall (fun ev => is_quiet ev = true) l -> In ev l -> is_quiet ev = true.
Proof. intros Hall Hin. rewrite List.Forall_forall in Hall. auto. Qed.

(** X10. In [generateAndSubmitBatch], whatever reaches the library went
    through the checks: the signing library is called only for the wallet
    of a valid signer seed that passed the involvement check on the
    autofilled batch, and only after the parent's wallet was found to be
    the outer [Account]; the parent signs only a transaction whose [Fee] is
    the string 1000; and a blob is submitted only after all of this, the
    combination, the decoding and the second autofill succeeded. *)
Theorem single_workflow_checked (batchTx signerSeed parentSeed : value) :
  let trace := fst (run_single batchTx signerSeed parentSeed) in
  (forall w tx, In (Signing w tx) trace ->
     exists pw filled,
       parent_ready batchTx parentSeed pw filled /\
       signer_ready filled signerSeed w /\ tx = JObj filled) /\
  (forall w tx, In (ParentSign w tx) trace ->
     fromSeed parentSeed = Ok w /\ get_opt tx "Fee" = JStr "1000") /\
  (forall blob, In (Submit blob) trace ->
     exists pw filled tx,
       parent_ready batchTx parentSeed pw filled /\
       signed_for filled signerSeed tx /\
       submitted pw [tx] blob).
Proof.
  cbn zeta. unfold generateAndSubmitBatch. rewrite rethrowing_trace.
  destruct (single_shape batchTx signerSeed parentSeed)
    as (pre & Hq & [[[e ->] _]|[(sw & pw & filled & e & Hp & Hs & ->)
                               |(sw & pw & filled & signers & Hp & Hs & Hsig & ->)]]);
    cbn [fst snd].
  - repeat split; intros; rewrite in_app_iff in H; simpl in H;
      destruct H as [H|[H|[]]]; try discriminate;
      apply (quiet_forall _ _ Hq) in H; discriminate.
  - repeat split; intros; rewrite !in_app_iff in H; simpl in H;
      destruct H as [[H|[H|[]]]|[H|[]]]; try discriminate;
      try (apply (quiet_forall _ _ Hq) in H; discriminate).
    injection H as <- <-. eauto.
  - destruct (finish_trace batchTx pw [JObj (set_prop "BatchSigners" signers filled)])
      as (Hsub & Hfee & Hnosig & _ & _).
    cbn zeta in Hsub, Hfee, Hnosig.
    assert (Herr : forall ev : event,
               In ev match snd (finish batchTx pw
                                  [JObj (set_prop "BatchSigners" signers filled)]) with
                     | Ok _ => []
                     | Throw e => [ErrorLine e]
                     end -> exists e, ev = ErrorLine e).
    { intros ev. destruct (snd (finish _ _ _)); simpl; [tauto|].
      intros [<-|[]]. eauto. }
    repeat split; intros; rewrite !in_app_iff in H; simpl in H.
    + destruct H as [[H|[H|H]]|H].
      * apply (quiet_forall _ _ Hq) in H. discriminate.
      * injection H as <- <-. eauto.
      * now apply Hnosig in H.
      * apply Herr in H. destruct H as [e H]. discriminate.
    + destruct H as [[H|[H|H]]|H].
      * apply (quiet_forall _ _ Hq) in H. discriminate.
      * discriminate.
      * apply Hfee in H. destruct H as [-> _]. apply Hp.
      * apply Herr in H. destruct H as [e H]. discriminate.
    + destruct H as [[H|[H|H]]|H].
      * apply (quiet_forall _ _ Hq) in H. discriminate.
      * discriminate.
      * now apply Hfee in H.
      * apply Herr in H. destruct H as [e H]. discriminate.
    + destruct H as [[H|[H|H]]|H].
      * apply (quiet_forall _ _ Hq) in H. discriminate.
      * discriminate.
      * apply Hsub in H. exists pw, filled, (JObj (set_prop "BatchSigners" signers filled)).
        split; [exact Hp|]. split; [|exact H]. exists sw, signers. auto.
      * apply Herr in H. destruct H as [e H]. discriminate.
Qed.

Lemma loop_forall (filled : list (string * value)) (seeds : list value)
    (l : list event) (ev : event) :
  Forall (loop_event filled seeds) l -> In ev l -> loop_event filled seeds ev.
Proof. intros Hall Hin. rewrite List.Forall_forall in Hall. auto. Qed.

Lemma local_forall (l : list event) (ev : event) :
  Forall (fun ev => is_local ev = true) l -> In ev l -> is_local ev = true.
Proof. intros Hall Hin. rewrite List.Forall_forall in Hall. auto. Qed.

(** X11. The same for [generateAndSubmitMultiSignerBatch]: each call of
    the signing library is for the wallet of one of the seeds, valid and
    checked against the autofilled batch, after the parent was matched;
    and a submission implies one signed copy per seed, in the order of
    the seeds, all handed to the combination. *)
Theorem multi_workflow_checked (batchTx : value) (signerSeeds : list value)
    (parentSeed : value) :
  let trace := fst (run_several batchTx signerSeeds parentSeed) in
  (forall w tx, In (Signing w tx) trace ->
     exists pw filled seed,
       parent_ready batchTx parentSeed pw filled /\
       In seed signerSeeds /\ signer_ready filled seed w /\ tx = JObj filled) /\
  (forall w tx, In (ParentSign w tx) trace ->
     fromSeed parentSeed = Ok w /\ get_opt tx "Fee" = JStr "1000") /\
  (forall blob, In (Submit blob) trace ->
     exists pw filled txs,
       parent_ready batchTx parentSeed pw filled /\
       Forall2 (signed_for filled) signerSeeds txs /\
       submitted pw txs blob).
Proof.
  cbn zeta. unfold generateAndSubmitMultiSignerBatch. rewrite rethrowing_trace.
  destruct (several_shape batchTx signerSeeds parentSeed)
    as (pre & [[[e ->] Hpre]|(pw & filled & txs & Hp & Hpre & Hall & ->)]); cbn [fst snd].
  - assert (Hev : forall ev, In ev pre ->
               is_local ev = true \/ is_quiet ev = true \/
               exists pw filled, parent_ready batchTx parentSeed pw filled /\
                                 loop_event filled signerSeeds ev).
    { intros ev Hin. destruct Hpre as [Hl|(pw & Hm & [Hq|(filled & Hf & Hl)])].
      - left. eapply local_forall; eauto.
      - right; left. eapply quiet_forall; eauto.
      - right; right. exists pw, filled. split; [split; auto|].
        eapply loop_forall; eauto. }
    repeat split; intros; rewrite in_app_iff in H; simpl in H;
      destruct H as [H|[H|[]]]; try discriminate;
      apply Hev in H;
      destruct H as [H|[H|(pw & filled & Hp & [H|(seed & w' & Hin & Hr & H)])]];
      try discriminate.
    injection H as -> ->. eauto 8.
  - destruct (finish_trace batchTx pw txs) as (Hsub & Hfee & Hnosig & _ & _).
    cbn zeta in Hsub, Hfee, Hnosig.
    assert (Herr : forall ev : event,
               In ev match snd (finish batchTx pw txs) with
                     | Ok _ => []
                     | Throw e => [ErrorLine e]
                     end -> exists e, ev = ErrorLine e).
    { intros ev. destruct (snd (finish _ _ _)); simpl; [tauto|].
      intros [<-|[]]. eauto. }
    repeat split; intros; rewrite !in_app_iff in H.
    + destruct H as [[H|H]|H].
      * apply (loop_forall _ _ _ _ Hpre) in H.
        destruct H as [H|(seed & w' & Hin & Hr & H)]; [discriminate|].
        injection H as -> ->. eauto 8.
      * now apply Hnosig in H.
      * apply Herr in H. destruct H as [e H]. discriminate.
    + destruct H as [[H|H]|H].
      * apply (loop_forall _ _ _ _ Hpre) in H.
        destruct H as [H|(seed & w' & Hin & Hr & H)]; discriminate.
      * apply Hfee in H. destruct H as [-> _]. apply Hp.
      * apply Herr in H. destruct H as [e H]. discriminate.
    + destruct H as [[H|H]|H].
      * apply (loop_forall _ _ _ _ Hpre) in H.
        destruct H as [H|(seed & w' & Hin & Hr & H)]; discriminate.
      * now apply Hfee in H.
      * apply Herr in H. destruct H as [e H]. discriminate.
    + destruct H as [[H|H]|H].
      * apply (loop_forall _ _ _ _ Hpre) in H.
        destruct H as [H|(seed & w' & Hin & Hr & H)]; discriminate.
      * apply Hsub in H. eauto 8.
      * apply Herr in H. destruct H as [e H]. discriminate.
Qed.

(** X12. When the parent seed derives a wallet whose address is not the
    outer [Account], both workflows rethrow having done nothing but
    connect and print addresses and the error: no autofill, no signature,
    no submission, and no disconnection. *)
Theorem parent_mismatch_stops (batchTx parentSeed : value) (pw : wallet) :
  fromSeed parentSeed = Ok pw ->
  get_opt batchTx "Account" <> JStr (address pw) ->
  (forall signerSeed,
      Forall (fun ev => is_local ev = true) (fst (run_single batchTx signerSeed parentSeed)) /\
      exists e, snd (run_single batchTx signerSeed parentSeed) = Rethrown e) /\
  (forall signerSeeds,
      Forall (fun ev => is_local ev = true)
        (fst (run_several batchTx signerSeeds parentSeed)) /\
      exists e, snd (run_several batchTx signerSeeds parentSeed) = Rethrown e).
Proof.
  intros Hw Hne.
  assert (Hno : forall pw', ~ parent_matches batchTx parentSeed pw').
  { intros pw' (_ & Hw' & Hacc). rewrite Hw in Hw'. injection Hw' as <-. contradiction. }
  split.
  - intros signerSeed. unfold generateAndSubmitBatch, rethrowing.
    destruct (single_shape batchTx signerSeed parentSeed)
      as (pre & Hq & [[[e ->] Hpre]|[(sw & pw' & filled & e & [Hp _] & _)
                                    |(sw & pw' & filled & signers & [Hp _] & _)]]);
      try (now destruct (Hno pw')).
    cbn [fst snd]. destruct Hpre as [Hl|[pw' Hp]]; [|now destruct (Hno pw')].
    split; [|eauto]. apply Forall_app. split; [exact Hl | repeat constructor].
  - intros signerSeeds. unfold generateAndSubmitMultiSignerBatch, rethrowing.
    destruct (several_shape batchTx signerSeeds parentSeed)
      as (pre & [[[e ->] Hpre]|(pw' & filled & txs & [Hp _] & _)]);
      try (now destruct (Hno pw')).
    cbn [fst snd]. destruct Hpre as [Hl|(pw' & Hp & _)]; [|now destruct (Hno pw')].
    split; [|eauto]. apply Forall_app. split; [exact Hl | repeat constructor].
Qed.

End Submit.

(** *** The workflows on the stand-in library *)

(** A network that fills in a sequence number, passes the first signed
    copy through the combination, and reports [code] for what is
    submitted. *)
Definition toy_autofill (tx : value) : Cli.result (list (string * value)) :=
  match tx with
  | JObj o => Ok (set_prop "Sequence" (JInt 7) o)
  | _ => Throw (Cli.External "not a transaction")
  end.

Definition toy_combine (txs : list value) : Cli.result value :=
  match txs with
  | tx :: _ => Ok (JObj [("encoded", tx)])
  | [] => Throw (Cli.External "There were 0 transactions to combine")
  end.

Definition toy_decode (blob : value) : Cli.result value :=
  Ok (get_opt blob "encoded").

Definition toy_sign (w : wallet) (tx : value) : Cli.result value :=
  Ok (JObj [("tx_blob", JObj [("signedBy", JStr (address w)); ("tx", tx)]);
            ("hash", JStr "C0FFEE")]).

Definition toy_submit (code : string) (blob : value) : Cli.result value :=
  Ok (JObj [("result",
             JObj [("hash", JStr "C0FFEE");
                   ("meta", JObj [("TransactionResult", JStr code)])])]).

Definition toy_single (code : string) (batchTx signerSeed parentSeed : value)
  : list event * outcome :=
  generateAndSubmitBatch Toy.fromSeed Toy.signMultiBatch (Ok tt) toy_autofill toy_autofill
    toy_combine toy_decode toy_sign (toy_submit code) (Ok tt)
    batchTx signerSeed parentSeed.

Definition toy_several (code : string) (batchTx : value) (signerSeeds : list value)
    (parentSeed : value) : list event * outcome :=
  generateAndSubmitMultiSignerBatch Toy.fromSeed Toy.signMultiBatch (Ok tt) toy_autofill
    toy_autofill toy_combine toy_decode toy_sign (toy_submit code) (Ok tt)
    batchTx signerSeeds parentSeed.

Definition two_children : list value := [Toy.seed_of "rChild1"; Toy.seed_of "rChild2"].

Lemma workflows_disconnect_iff_returned_witness :
  (In Disconnect
     (fst (toy_single "tecFAILED" CliFacts.example_batch (Toy.seed_of "rChild1")
             (Toy.seed_of "rParent"))) <->
   exists v, snd (toy_single "tecFAILED" CliFacts.example_batch (Toy.seed_of "rChild1")
                    (Toy.seed_of "rParent")) = Returned v) /\
  (In Disconnect
     (fst (toy_several "tesSUCCESS" CliFacts.example_batch two_children
             (Toy.seed_of "rParent"))) <->
   exists v, snd (toy_several "tesSUCCESS" CliFacts.example_batch two_children
                    (Toy.seed_of "rParent")) = Returned v).
Proof.
  destruct (workflows_disconnect_iff_returned Toy.fromSeed Toy.signMultiBatch (Ok tt)
              toy_autofill toy_autofill toy_combine toy_decode toy_sign
              (toy_submit "tecFAILED") (Ok tt) eq_refl) as [Hsingle _].
  destruct (workflows_disconnect_iff_returned Toy.fromSeed Toy.signMultiBatch (Ok tt)
              toy_autofill toy_autofill toy_combine toy_decode toy_sign
              (toy_submit "tesSUCCESS") (Ok tt) eq_refl) as [_ Hseveral].
  split; [apply Hsingle | apply Hseveral].
Defined.

Lemma parent_mismatch_stops_witness :
  (Forall (fun ev => is_local ev = true)
     (fst (toy_single "tesSUCCESS" CliFacts.example_batch (Toy.seed_of "rChild1")
             (Toy.seed_of "rChild2"))) /\
   exists e, snd (toy_single "tesSUCCESS" CliFacts.example_batch (Toy.seed_of "rChild1")
                    (Toy.seed_of "rChild2")) = Rethrown e) /\
  (Forall (fun ev => is_local ev = true)
     (fst (toy_several "tesSUCCESS" CliFacts.example_batch two_children
             (Toy.seed_of "rChild2"))) /\
   exists e, snd (toy_several "tesSUCCESS" CliFacts.example_batch two_children
                    (Toy.seed_of "rChild2")) = Rethrown e).
Proof.
  destruct (parent_mismatch_stops Toy.fromSeed Toy.signMultiBatch (Ok tt)
              toy_autofill toy_autofill toy_combine toy_decode toy_sign
              (toy_submit "tesSUCCESS") (Ok tt)
              CliFacts.example_batch (Toy.seed_of "rChild2") (Toy.wallet_of "rChild2")
              eq_refl) as [Hsingle Hseveral]; [discriminate|].
  split; [apply Hsingle | apply Hseveral].
Defined.

Lemma single_workflow_checked_witness :
  exists blob,
    In (Submit blob)
      (fst (toy_single "tesSUCCESS" CliFacts.example_batch (Toy.seed_of "rChild1")
              (Toy.seed_of "rParent"))) /\
    exists pw filled tx,
      parent_ready Toy.fromSeed toy_autofill CliFacts.example_batch
        (Toy.seed_of "rParent") pw filled /\
      signed_for Toy.fromSeed Toy.signMultiBatch filled (Toy.seed_of "rChild1") tx /\
      submitted toy_autofill toy_combine toy_decode toy_sign pw [tx] blob.
Proof.
  eexists. split.
  - vm_compute. repeat (first [left; reflexivity | right]).
  - apply (single_workflow_checked Toy.fromSeed Toy.signMultiBatch (Ok tt)
             toy_autofill toy_autofill toy_combine toy_decode toy_sign
             (toy_submit "tesSUCCESS") (Ok tt)
             CliFacts.example_batch (Toy.seed_of "rChild1") (Toy.seed_of "rParent")).
    vm_compute. repeat (first [left; reflexivity | right]).
Defined.

Lemma multi_workflow_checked_witness :
  exists blob,
    In (Submit blob)
      (fst (toy_several "tesSUCCESS" CliFacts.example_batch two_children
              (Toy.seed_of "rParent"))) /\
    exists pw filled txs,
      parent_ready Toy.fromSeed toy_autofill CliFacts.example_batch
        (Toy.seed_of "rParent") pw filled /\
      Forall2 (signed_for Toy.fromSeed Toy.signMultiBatch filled) two_children txs /\
      submitted toy_autofill toy_combine toy_decode toy_sign pw txs blob.
Proof.
  eexists. split.
  - vm_compute. repeat (first [left; reflexivity | right]).
  - apply (multi_workflow_checked Toy.fromSeed Toy.signMultiBatch (Ok tt)
             toy_autofill toy_autofill toy_combine toy_decode toy_sign
             (toy_submit "tesSUCCESS") (Ok tt)
             CliFacts.example_batch two_children (Toy.seed_of "rParent")).
    vm_compute. repeat (first [left; reflexivity | right]).
Defined.

End WorkflowFacts.

(** ** Facts about the choice of a mode *)

Module LauncherFacts.
Import Launcher.

(** The arguments other than [flag]. *)
Definition without (flag : string) (args : list string) : list string :=
  List.filter (fun arg => negb (String.eqb arg flag)) args.

Lemma has_flag (flag : string) (args : list string) :
  existsb (fun arg => String.eqb arg flag) args = true <-> In flag args.
Proof.
  rewrite existsb_exists. split.
  - intros (arg & Hin & Heq). apply String.eqb_eq in Heq. now subst.
  - intros Hin. exists flag. split; [exact Hin | apply String.eqb_refl].
Qed.

Lemma without_absent (flag : string) (args : list string) :
  ~ In flag args <-> without flag args = args.
Proof.
  unfold without. induction args as [|arg args IH]; simpl; [tauto|].
  destruct (String.eqb_spec arg flag) as [->|Hne]; simpl.
  - split; [tauto|]. intros Heq.
    assert (Hlen : (List.length (List.filter (fun a => negb (String.eqb a flag)) args)
                    <= List.length args)%nat) by apply List.filter_length_le.
    rewrite Heq in Hlen. simpl in Hlen. lia.
  - split.
    + intros Hno. f_equal. apply IH. tauto.
    + intros [= Heq] [H|H]; [congruence|]. now apply IH in H.
Qed.

Lemma without_app (flag : string) (l k : list string) :
  without flag (l ++ k) = without flag l ++ without flag k.
Proof. apply List.filter_app. Qed.

Lemma main_eq (args : list string) :
  main args =
    if existsb (fun arg => String.eqb arg "--test") args
    then match without "--test" args with
         | [path] => TestMode path
         | _ => UsageHelp
         end
    else match args with
         | [] => Interactive
         | [path] => InteractiveProduction path
         | _ => CommandLine args
         end.
Proof.
  unfold main. fold (without "--test" args).
  destruct (existsb (fun arg => String.eqb arg "--test") args) eqn:Htest.
  - rewrite andb_false_r, andb_true_r.
    now destruct (without "--test" args) as [|path [|second rest]].
  - assert (Hno : ~ In "--test" args) by (rewrite <- has_flag; congruence).
    apply without_absent in Hno. rewrite Hno, !andb_true_r.
    now destruct args as [|path [|second rest]].
Qed.

(** X13. [main] is decided by the presence of the flag --test and by the
    other arguments: the usage text is shown exactly when the flag comes
    with no or with several other arguments; the test mode takes the flag
    and one path; without the flag no argument gives the interactive mode,
    one the individual signer mode, and two or more the command-line mode
    with the arguments unchanged. *)
Theorem main_dispatch (args : list string) :
  let others := without "--test" args in
  (main args = UsageHelp <-> In "--test" args /\ List.length others <> 1%nat) /\
  (forall path, main args = TestMode path <-> In "--test" args /\ others = [path]) /\
  (main args = Interactive <-> args = []) /\
  (forall path, main args = InteractiveProduction path <->
                args = [path] /\ path <> "--test") /\
  (forall rest, main args = CommandLine rest <->
                args = rest /\ ~ In "--test" args /\ (2 <= List.length args)%nat).
Proof.
  cbn zeta. rewrite main_eq.
  pose proof (has_flag "--test" args) as Hflag.
  pose proof (without_absent "--test" args) as Habs.
  destruct (existsb (fun arg => String.eqb arg "--test") args) eqn:Htest.
  - assert (Hin : In "--test" args) by now apply Hflag.
    assert (Hne : args <> []) by (intros ->; destruct Hin).
    assert (Hone : forall path, args = [path] -> path = "--test").
    { intros path ->. destruct Hin as [Hin|[]]. auto. }
    destruct (without "--test" args) as [|path [|second rest]] eqn:Hothers.
    + split; [|split; [|split; [|split]]].
      * split; [intros _; split; [exact Hin | discriminate] | reflexivity].
      * intros path. split; [discriminate | intros [_ [=]]].
      * split; [discriminate | intros ->; contradiction].
      * intros path. split; [discriminate|]. intros [Heq Hn]. now apply Hone in Heq.
      * intros rest. split; [discriminate | tauto].
    + split; [|split; [|split; [|split]]].
      * split; [discriminate | intros [_ Hlen]; now destruct Hlen].
      * intros path'. split; [intros [= <-]; auto | intros [_ [= <-]]; reflexivity].
      * split; [discriminate | intros ->; contradiction].
      * intros path'. split; [discriminate|]. intros [Heq Hn]. now apply Hone in Heq.
      * intros rest. split; [discriminate | tauto].
    + split; [|split; [|split; [|split]]].
      * split; [intros _; split; [exact Hin | discriminate] | reflexivity].
      * intros path'. split; [discriminate | intros [_ [=]]].
      * split; [discriminate | intros ->; contradiction].
      * intros path'. split; [discriminate|]. intros [Heq Hn]. now apply Hone in Heq.
      * intros rest'. split; [discriminate | tauto].
  - assert (Hno : ~ In "--test" args) by (rewrite <- Hflag; congruence).
    destruct args as [|path [|second rest]].
    + split; [|split; [|split; [|split]]].
      * split; [discriminate | tauto].
      * intros path. split; [discriminate | tauto].
      * tauto.
      * intros path. split; [discriminate | intros [[=] _]].
      * intros rest. split; [discriminate|]. intros (_ & _ & Hlen). simpl in Hlen. lia.
    + split; [|split; [|split; [|split]]].
      * split; [discriminate | tauto].
      * intros p. split; [discriminate | tauto].
      * split; discriminate.
      * intros p. split; [intros [= <-] | intros [[= <-] _]; reflexivity].
        split; [reflexivity|]. intros ->. apply Hno. now left.
      * intros rest. split; [discriminate|]. intros (_ & _ & Hlen). simpl in Hlen. lia.
    + split; [|split; [|split; [|split]]].
      * split; [discriminate | tauto].
      * intros p. split; [discriminate | tauto].
      * split; discriminate.
      * intros p. split; [discriminate | intros [[=] _]].
      * intros rest'. split; [intros [= <-] | intros ([= <-] & _); reflexivity].
        split; [reflexivity|]. split; [exact Hno | simpl; lia].
Qed.

Section Files.
Variable existsSync : string -> bool.
Variable readFileSync : string -> option string.
Variable parse : string -> option value.

Abbreviation command := (runCommandLine existsSync readFileSync parse).
Abbreviation loaded := (load existsSync readFileSync parse).

Lemma submit_flag_found (before after : list string) :
  existsb (fun arg => String.eqb arg "--submit") (before ++ "--submit" :: after) = true.
Proof. apply has_flag. apply in_or_app. right. now left. Qed.

(** X14. [runCommandLine] takes the flag --submit at any position: the
    other arguments, in their order, are the batch, the signer seed, the
    parent seed and the batch account, and the complete workflow is what it
    calls once the batch is loaded. *)
Theorem submit_flag_anywhere (before after : list string) :
  ~ In "--submit" before ->
  ~ In "--submit" after ->
  (1 <= List.length (before ++ after))%nat ->
  let rest := before ++ after in
  command (before ++ "--submit" :: after) =
    match loaded (positional rest 0) with
    | None => LoadFailed
    | Some batchTx =>
        CompleteWorkflow batchTx (positional rest 1) (positional rest 2)
          (option_of (positional rest 3))
    end.
Proof.
  intros Hb Ha Hlen. cbn zeta. unfold runCommandLine.
  rewrite submit_flag_found. fold (without "--submit" (before ++ "--submit" :: after)).
  rewrite without_app. change ("--submit" :: after) with (["--submit"] ++ after).
  rewrite without_app.
  apply without_absent in Hb. apply without_absent in Ha. rewrite Hb, Ha. simpl.
  destruct (Nat.ltb_spec (List.length (before ++ "--submit" :: after)) 2) as [Hlt|_];
    [|reflexivity].
  rewrite length_app in Hlt, Hlen. simpl in Hlt. lia.
Qed.

(** X15. Called from [main], [runCommandLine] never prints its own usage
    text: [main] hands it two arguments or more. *)
Theorem command_line_from_main (args rest : list string) :
  main args = CommandLine rest -> command rest <> Usage.
Proof.
  intros Hmain. rewrite main_eq in Hmain.
  destruct (existsb (fun arg => String.eqb arg "--test") args).
  - now destruct (without "--test" args) as [|path [|second more]].
  - destruct args as [|path [|second more]]; try discriminate.
    injection Hmain as <-. unfold runCommandLine.
    change (Nat.ltb (List.length (path :: second :: more)) 2) with false. cbv iota.
    destruct (loaded _); [|discriminate].
    destruct (existsb _ _); discriminate.
Qed.
End Files.


(** A directory holding one file, whatever its text parses to. *)
Definition only_batch_json (path : string) : bool := String.eqb path "batch.json".
Definition read_any (path : string) : option string := Some "{}".
Definition parse_any (text : string) : option value := Some CliFacts.example_batch.

Lemma submit_flag_anywhere_witness :
  runCommandLine only_batch_json read_any parse_any
    (["batch.json"] ++ "--submit" :: ["sSignerSeed"; "sParentSeed"]) =
  CompleteWorkflow CliFacts.example_batch (JStr "sSignerSeed") (JStr "sParentSeed") None.
Proof.
  apply (submit_flag_anywhere only_batch_json read_any parse_any
           ["batch.json"] ["sSignerSeed"; "sParentSeed"]).
  - simpl. intros [H|[]]. discriminate.
  - simpl. intros [H|[H|[]]]; discriminate.
  - simpl. lia.
Defined.

Lemma command_line_from_main_witness :
  runCommandLine only_batch_json read_any parse_any ["batch.json"; "sSignerSeed"] <> Usage.
Proof.
  apply (command_line_from_main only_batch_json read_any parse_any
           ["batch.json"; "sSignerSeed"] ["batch.json"; "sSignerSeed"]).
  reflexivity.
Defined.

End LauncherFacts.

(** ** Facts about the click on Generate *)

Module ClickFacts.
Import Web.

Lemma click_lift {A B} (r : result A) (f : A -> traced B) :
  bindT (lift r) f = match r with Ok a => f a | Throw e => ([], Throw e) end.
Proof. unfold bindT, lift. destruct r as [a|e]; [|reflexivity]. now destruct (f a). Qed.

Lemma click_emit {B} (evs : list event) (f : unit -> traced B) :
  bindT (emit evs) f = (evs ++ fst (f tt), snd (f tt)).
Proof. unfold bindT, emit. now destruct (f tt). Qed.

Lemma read_object (props : list (string * value)) (k : string) :
  read (JObj props) k = Ok (own_prop k props).
Proof. reflexivity. Qed.

(** The inner entries of a template. *)
Definition entries_of (t : value) : list value :=
  match get_opt t "RawTransactions" with
  | JArr entries => entries
  | _ => []
  end.

(** [signerAddress] is the [Account] of an inner transaction. *)
Definition involved (t : value) (signerAddress : string) : bool :=
  existsb (fun e => strict_eq_str (get_opt (get_opt e "RawTransaction") "Account")
                      signerAddress) (entries_of t).

Lemma some_readable (signerAddress : string) (entries : list value) :
  Forall (fun e => get e "RawTransaction" <> None) entries ->
  some_result (fun e => let* tx := read e "RawTransaction" in
                        Ok (strict_eq_str (get_opt tx "Account") signerAddress)) entries =
  Ok (existsb (fun e => strict_eq_str (get_opt (get_opt e "RawTransaction") "Account")
                          signerAddress) entries).
Proof.
  induction 1 as [|e entries He _ IH]; simpl; [reflexivity|].
  assert (Hg : get e "RawTransaction" = Some (get_opt e "RawTransaction")).
  { unfold get_opt. now destruct (get e "RawTransaction"). }
  unfold read at 1. rewrite Hg. simpl.
  destruct (strict_eq_str (get_opt (get_opt e "RawTransaction") "Account") signerAddress);
    [reflexivity | exact IH].
Qed.

Section Click.
Variable StringToNumber : string -> number.
Variable ArrayToString : list value -> string.
Variable signMultiBatch : wallet -> value -> result value.

Abbreviation accepted := (WebFacts.template_accepted StringToNumber ArrayToString).

Lemma accepted_readable (t : value) :
  accepted t ->
  exists props entries account,
    t = JObj props /\
    own_prop "Account" props = JStr account /\
    own_prop "RawTransactions" props = JArr entries /\
    entries_of t = entries /\
    Forall (fun e => get e "RawTransaction" <> None) entries.
Proof.
  intros (props & entries & account & -> & _ & Ha & _ & Hr & _ & _ & Hall).
  exists props, entries, account. repeat split; auto.
  - unfold entries_of, get_opt. simpl. now rewrite Hr.
  - eapply List.Forall_impl; [|exact Hall].
    intros e (p & Hp & _). unfold get_opt in Hp.
    destruct (get e "RawTransaction"); [discriminate | discriminate].
Qed.

(** The run up to the call of the library. *)
Lemma generate_body_start (confirm : bool) (t : value) (w : wallet) :
  accepted t ->
  get_opt t "Account" <> JStr (address w) ->
  generate_body signMultiBatch confirm t w =
    let asked := if involved t (address w) then [] else [Confirm] in
    if involved t (address w) || confirm
    then
      let rest :=
        match signMultiBatch w (json_value t) with
        | Throw e => ([], Throw e)
        | Ok signers =>
            if negb (truthy signers) || length_is_not_1 signers
            then ([], Throw NoBatchSigner)
            else
              match index0 signers with
              | Throw e => ([], Throw e)
              | Ok first =>
                  match read first "BatchSigner" with
                  | Throw e => ([], Throw e)
                  | Ok entry =>
                      ([], Ok {| signerOutput := JObj [("BatchSigner", entry)];
                                 batchSignersOutput := JArr [JObj [("BatchSigner", entry)]];
                                 fullBatchOutput :=
                                   spread_with "BatchSigners"
                                     (JArr [JObj [("BatchSigner", entry)]]) t |})
                  end
              end
        end in
      (asked ++ Signing w (json_value t) :: fst rest, snd rest)
    else (asked, Throw Cancelled).
Proof.
  intros Hacc Hne.
  destruct (accepted_readable t Hacc) as (props & entries & account & -> & Ha & Hr & He & Hall).
  unfold get_opt in Hne. simpl in Hne. rewrite Ha in Hne.
  unfold generate_body, involved. rewrite He.
  rewrite click_lift, read_object, Ha.
  destruct (strict_eq_str (JStr account) (address w)) eqn:Hsame.
  { apply CliFacts.strict_eq_str_true in Hsame. congruence. }
  rewrite click_lift, read_object, Hr.
  rewrite click_lift, (some_readable _ _ Hall).
  destruct (existsb _ entries) eqn:Hinv; cbn [orb].
  - rewrite click_lift. cbn [negb]. rewrite click_emit, click_lift. cbn [fst snd app].
    destruct (signMultiBatch w _) as [signers|e]; [|reflexivity].
    destruct (negb (truthy signers) || length_is_not_1 signers); [reflexivity|].
    rewrite click_lift. destruct (index0 signers) as [first|e]; [|reflexivity].
    rewrite click_lift. destruct (read first "BatchSigner") as [entry|e]; reflexivity.
  - unfold bindT at 1. destruct confirm; cbn [negb].
    + rewrite click_emit, click_lift. cbn [fst snd app].
      destruct (signMultiBatch w _) as [signers|e]; [|reflexivity].
      destruct (negb (truthy signers) || length_is_not_1 signers); [reflexivity|].
      rewrite click_lift. destruct (index0 signers) as [first|e]; [|reflexivity].
      rewrite click_lift. destruct (read first "BatchSigner") as [entry|e]; reflexivity.
    + reflexivity.
Qed.

(** X16. The click on Generate, for a template the form accepted and a
    wallet that is not the outer [Account]: when the wallet's address is
    the [Account] of an inner transaction the library is called at once,
    on the JSON copy of the template; otherwise the dialog is shown first,
    and the library is called on that copy if the user confirms; if the
    user declines nothing is signed and the form alerts 'Cancelled'. *)
Theorem click_classification (confirm : bool) (t : value) (w : wallet) :
  accepted t ->
  get_opt t "Account" <> JStr (address w) ->
  let run := generateClick signMultiBatch confirm (Some t) (Some w) in
  (involved t (address w) = true ->
     exists rest, fst run = Signing w (json_value t) :: rest) /\
  (involved t (address w) = false -> confirm = true ->
     exists rest, fst run = Confirm :: Signing w (json_value t) :: rest) /\
  (involved t (address w) = false -> confirm = false ->
     run = ([Confirm; Alert Cancelled], None)).
Proof.
  intros Hacc Hne. cbn zeta. unfold generateClick.
  rewrite (generate_body_start confirm t w Hacc Hne). cbn zeta.
  split; [|split].
  - intros ->. cbn [orb app].
    match goal with |- context [snd (?a, ?b)] => destruct b end; cbn [fst snd]; eauto.
  - intros -> ->. cbn [orb app].
    match goal with |- context [snd (?a, ?b)] => destruct b end; cbn [fst snd]; eauto.
  - intros -> ->. reflexivity.
Qed.


Lemma with_signers_rejected (props : list (string * value)) (first : value)
    (rest : list value) :
  accepted (JObj props) ->
  validateTemplate StringToNumber ArrayToString
    (JObj (set_prop "BatchSigners" (JArr (first :: rest)) props)) = Throw HasBatchSigners.
Proof.
  intros (props' & entries & account & [= <-] & Hk & Ha & Hne & Hr & [Hge Hle] & _ & _).
  unfold validateTemplate. rewrite !read_object.
  rewrite !WebFacts.own_prop_set_other by discriminate.
  rewrite WebFacts.own_prop_set_same, Hk, Ha, Hr. simpl.
  destruct (String.eqb_spec account "") as [->|_]; [contradiction|]. simpl.
  destruct (Nat.ltb_spec (List.length entries) 2) as [Hlt|_]; [lia|].
  destruct (Nat.ltb_spec 8 (List.length entries)) as [Hlt|_]; [lia|]. simpl.
  reflexivity.
Qed.

(** X17. When the click shows outputs, the library was called on the
    JSON copy of the template and left a truthy value of length 1; the
    single output is the [BatchSigner] of its first element, the array
    output holds exactly that object, and the full batch is the template
    itself, not the copy that was signed, with [BatchSigners] set to that
    array and every other property unchanged. *)
Theorem click_outputs (confirm : bool) (t : value) (w : wallet) (out : outputs) :
  accepted t ->
  snd (generateClick signMultiBatch confirm (Some t) (Some w)) = Some out ->
  exists signers first entry,
    get_opt t "Account" <> JStr (address w) /\
    (involved t (address w) = true \/ confirm = true) /\
    signMultiBatch w (json_value t) = Ok signers /\
    truthy signers = true /\ length_is_not_1 signers = false /\
    index0 signers = Ok first /\ get first "BatchSigner" = Some entry /\
    signerOutput out = JObj [("BatchSigner", entry)] /\
    batchSignersOutput out = JArr [signerOutput out] /\
    get_opt (fullBatchOutput out) "BatchSigners" = batchSignersOutput out /\
    (forall k, k <> "BatchSigners" -> get_opt (fullBatchOutput out) k = get_opt t k).
Proof.
  intros Hacc.
  destruct (strict_eq_str (get_opt t "Account") (address w)) eqn:Hsame.
  { apply CliFacts.strict_eq_str_true in Hsame.
    rewrite (SelfCommitment.generateClick_submitter _ _ _ _ Hsame). discriminate. }
  apply CliFacts.strict_eq_str_false in Hsame.
  unfold generateClick. rewrite (generate_body_start confirm t w Hacc Hsame). cbn zeta.
  destruct (involved t (address w) || confirm) eqn:Hgo; cbn [fst snd]; [|discriminate].
  destruct (signMultiBatch w (json_value t)) as [signers|e] eqn:Hsig; cbn [fst snd];
    [|discriminate].
  destruct (negb (truthy signers) || length_is_not_1 signers) eqn:Hone; cbn [fst snd];
    [discriminate|].
  destruct (index0 signers) as [first|e] eqn:Hfirst; cbn [fst snd]; [|discriminate].
  unfold read. destruct (get first "BatchSigner") as [entry|] eqn:Hentry; cbn [fst snd];
    [|discriminate].
  intros [= <-]. cbn [signerOutput batchSignersOutput fullBatchOutput].
  apply orb_false_iff in Hone. destruct Hone as [Htruthy Hlen].
  apply negb_false_iff in Htruthy. apply orb_true_iff in Hgo.
  destruct Hacc as (props & entries & account & -> & _).
  exists signers, first, entry. repeat split; auto.
  - unfold get_opt. simpl. apply WebFacts.own_prop_set_same.
  - intros k Hk. unfold get_opt. simpl. apply WebFacts.own_prop_set_other. congruence.
Qed.

(** X18. The full batch the form shows is never a template the form
    accepts: pasted back it is refused for its [BatchSigners], so a second
    signer cannot be added to it through the form. *)
Theorem full_batch_not_accepted_back
    (confirm : bool) (t : value) (w : wallet) (out : outputs) :
  accepted t ->
  snd (generateClick signMultiBatch confirm (Some t) (Some w)) = Some out ->
  validateTemplate StringToNumber ArrayToString (fullBatchOutput out)
    = Throw HasBatchSigners.
Proof.
  intros Hacc.
  destruct (strict_eq_str (get_opt t "Account") (address w)) eqn:Hsame.
  { apply CliFacts.strict_eq_str_true in Hsame.
    rewrite (SelfCommitment.generateClick_submitter _ _ _ _ Hsame). discriminate. }
  apply CliFacts.strict_eq_str_false in Hsame.
  unfold generateClick. rewrite (generate_body_start confirm t w Hacc Hsame). cbn zeta.
  destruct (involved t (address w) || confirm); cbn [fst snd]; [|discriminate].
  destruct (signMultiBatch w (json_value t)) as [signers|e]; cbn [fst snd]; [|discriminate].
  destruct (negb (truthy signers) || length_is_not_1 signers); cbn [fst snd];
    [discriminate|].
  destruct (index0 signers) as [first|e]; cbn [fst snd]; [|discriminate].
  destruct (read first "BatchSigner") as [entry|e]; cbn [fst snd]; [|discriminate].
  intros [= <-]. cbn [fullBatchOutput].
  destruct Hacc as (props & Hacc). destruct Hacc as (entries & account & -> & Hrest).
  apply with_signers_rejected. exists props, entries, account. auto.
Qed.


Lemma click_signing (confirm : bool) (t : value) (w w' : wallet) (tx : value) :
  accepted t ->
  In (Signing w' tx) (fst (generateClick signMultiBatch confirm (Some t) (Some w))) ->
  w' = w /\ tx = json_value t /\
  get_opt t "Account" <> JStr (address w) /\
  (involved t (address w) = true \/ confirm = true).
Proof.
  intros Hacc.
  destruct (strict_eq_str (get_opt t "Account") (address w)) eqn:Hsame.
  { apply CliFacts.strict_eq_str_true in Hsame.
    rewrite (SelfCommitment.generateClick_submitter _ _ _ _ Hsame).
    intros [H|[]]. discriminate. }
  apply CliFacts.strict_eq_str_false in Hsame.
  unfold generateClick. rewrite (generate_body_start confirm t w Hacc Hsame). cbn zeta.
  assert (Hasked : forall l : list event,
             In (Signing w' tx) ((if involved t (address w) then [] else [Confirm]) ++ l) ->
             In (Signing w' tx) l).
  { intros l. destruct (involved t (address w)); simpl; [tauto|].
    intros [H|H]; [discriminate | exact H]. }
  destruct (involved t (address w) || confirm) eqn:Hgo; cbn [fst snd].
  - apply orb_true_iff in Hgo.
    assert (Hend : forall (rest : list event * result outputs),
               fst rest = [] ->
               In (Signing w' tx)
                 (fst match snd rest with
                      | Ok o => ((if involved t (address w) then [] else [Confirm])
                                 ++ Signing w (json_value t) :: fst rest, Some o)
                      | Throw e => (((if involved t (address w) then [] else [Confirm])
                                     ++ Signing w (json_value t) :: fst rest) ++ [Alert e],
                                    None)
                      end) ->
               w' = w /\ tx = json_value t).
    { intros rest Hnil. rewrite Hnil.
      destruct (snd rest); cbn [fst]; rewrite <- ?app_assoc; intros H; apply Hasked in H;
        simpl in H; destruct H as [H|H]; try (injection H as <- <-; auto);
        try destruct H as [H|[]]; try discriminate; destruct H. }
    intros H. apply Hend in H; [tauto|].
    destruct (signMultiBatch w (json_value t)) as [signers|e]; [|reflexivity].
    destruct (negb (truthy signers) || length_is_not_1 signers); [reflexivity|].
    destruct (index0 signers) as [first|e]; [|reflexivity].
    destruct (read first "BatchSigner") as [entry|e]; reflexivity.
  - intros H. apply Hasked in H. destruct H as [H|[]]. discriminate.
Qed.

End Click.

(** The signing library of the stand-in, as the form calls it. *)
Definition web_sign (w : wallet) (tx : value) : result value :=
  Ok (JArr [Toy.signer_entry w]).

Lemma example_accepted :
  WebFacts.template_accepted WebFacts.no_number WebFacts.no_text CliFacts.example_batch.
Proof.
  apply (WebFacts.validateTemplate_accepts_iff WebFacts.no_number WebFacts.no_text
           CliFacts.example_batch CliFacts.example_batch).
  reflexivity.
Qed.

Lemma click_classification_witness :
  (exists rest,
     fst (generateClick web_sign false (Some CliFacts.example_batch)
            (Some (Toy.wallet_of "rChild1")))
       = Signing (Toy.wallet_of "rChild1") (json_value CliFacts.example_batch) :: rest) /\
  (exists rest,
     fst (generateClick web_sign true (Some CliFacts.example_batch)
            (Some (Toy.wallet_of "rStranger")))
       = Confirm :: Signing (Toy.wallet_of "rStranger") (json_value CliFacts.example_batch)
           :: rest) /\
  generateClick web_sign false (Some CliFacts.example_batch)
    (Some (Toy.wallet_of "rStranger")) = ([Confirm; Alert Cancelled], None).
Proof.
  split; [|split].
  - apply (click_classification WebFacts.no_number WebFacts.no_text web_sign false
             CliFacts.example_batch (Toy.wallet_of "rChild1") example_accepted);
      [discriminate | reflexivity].
  - apply (click_classification WebFacts.no_number WebFacts.no_text web_sign true
             CliFacts.example_batch (Toy.wallet_of "rStranger") example_accepted);
      [discriminate | reflexivity | reflexivity].
  - apply (click_classification WebFacts.no_number WebFacts.no_text web_sign false
             CliFacts.example_batch (Toy.wallet_of "rStranger") example_accepted);
      [discriminate | reflexivity | reflexivity].
Defined.

(** What the form shows for the first child of the example. *)
Definition example_outputs : outputs :=
  let entry := get_opt (Toy.signer_entry (Toy.wallet_of "rChild1")) "BatchSigner" in
  {| signerOutput := JObj [("BatchSigner", entry)];
     batchSignersOutput := JArr [JObj [("BatchSigner", entry)]];
     fullBatchOutput :=
       spread_with "BatchSigners" (JArr [JObj [("BatchSigner", entry)]])
         CliFacts.example_batch |}.

Lemma click_outputs_witness :
  exists signers first entry,
    get_opt CliFacts.example_batch "Account" <> JStr "rChild1" /\
    (involved CliFacts.example_batch "rChild1" = true \/ false = true) /\
    web_sign (Toy.wallet_of "rChild1") (json_value CliFacts.example_batch) = Ok signers /\
    truthy signers = true /\ length_is_not_1 signers = false /\
    index0 signers = Ok first /\ get first "BatchSigner" = Some entry /\
    signerOutput example_outputs = JObj [("BatchSigner", entry)] /\
    batchSignersOutput example_outputs = JArr [signerOutput example_outputs] /\
    get_opt (fullBatchOutput example_outputs) "BatchSigners"
      = batchSignersOutput example_outputs /\
    (forall k, k <> "BatchSigners" ->
       get_opt (fullBatchOutput example_outputs) k = get_opt CliFacts.example_batch k).
Proof.
  exact (click_outputs WebFacts.no_number WebFacts.no_text web_sign false
           CliFacts.example_batch (Toy.wallet_of "rChild1") example_outputs
           example_accepted eq_refl).
Defined.

Lemma full_batch_not_accepted_back_witness :
  validateTemplate WebFacts.no_number WebFacts.no_text (fullBatchOutput example_outputs)
    = Throw HasBatchSigners.
Proof.
  exact (full_batch_not_accepted_back WebFacts.no_number WebFacts.no_text web_sign false
           CliFacts.example_batch (Toy.wallet_of "rChild1") example_outputs
           example_accepted eq_refl).
Defined.

(** A template whose [Sequence] was typed as [1e999]: [JSON.parse] reads
    the number as [Infinity], the form accepts the template, and the copy
    that is signed holds [null] in its place. *)
Definition overflowing_batch : value :=
  spread_with "Sequence" (JNum PosInf) CliFacts.example_batch.

Lemma click_signs_the_copy :
  WebFacts.template_accepted WebFacts.no_number WebFacts.no_text overflowing_batch /\
  get_opt overflowing_batch "Sequence" = JNum PosInf /\
  get_opt (json_value overflowing_batch) "Sequence" = JNull /\
  fst (generateClick web_sign false (Some overflowing_batch)
         (Some (Toy.wallet_of "rChild1")))
    = [Signing (Toy.wallet_of "rChild1") (json_value overflowing_batch)] /\
  (forall out,
      snd (generateClick web_sign false (Some overflowing_batch)
             (Some (Toy.wallet_of "rChild1"))) = Some out ->
      get_opt (fullBatchOutput out) "Sequence" = JNum PosInf).
Proof.
  split; [|split; [|split; [|split]]]; try reflexivity.
  - apply (WebFacts.validateTemplate_accepts_iff WebFacts.no_number WebFacts.no_text
             overflowing_batch overflowing_batch).
    reflexivity.
  - intros out [= <-]. reflexivity.
Qed.

End ClickFacts.

(** ** Facts about the state of the form *)

Module FormFacts.
Import Form.

Section Handlers.
Variable StringToNumber : string -> number.
Variable ArrayToString : list value -> string.
Variable fromSeed : string -> Web.result Xrpl.wallet.
Variable signMultiBatch : Xrpl.wallet -> value -> Web.result value.

Abbreviation accepted := (WebFacts.template_accepted StringToNumber ArrayToString).
Abbreviation step := (Form.step StringToNumber ArrayToString fromSeed signMultiBatch).
Abbreviation reachable :=
  (Form.reachable StringToNumber ArrayToString fromSeed signMultiBatch).

(** What holds of the form between two inputs. *)
Definition consistent (s : state) : Prop :=
  generateDisabled s = devnetMode s || negb (ready s) /\
  (forall t, batchTemplate s = Some t -> accepted t) /\
  (forall w, wallet s = Some w -> exists seed, fromSeed seed = Ok w).

Lemma checked_consistent (s : state) :
  (forall t, batchTemplate s = Some t -> accepted t) ->
  (forall w, wallet s = Some w -> exists seed, fromSeed seed = Ok w) ->
  consistent (checkReadyToGenerate s).
Proof.
  intros Ht Hw. unfold consistent, checkReadyToGenerate.
  destruct (devnetMode s) eqn:Hd; simpl; rewrite ?Hd; auto.
Qed.

Lemma step_consistent (s s' : state) (i : input) :
  consistent s -> step s i s' -> consistent s'.
Proof.
  intros (Hbutton & Ht & Hw) Hstep. destruct Hstep.
  - apply checked_consistent; simpl; [discriminate | exact Hw].
  - unfold templateInput. destruct parsed as [v|].
    + destruct (Web.validateTemplate StringToNumber ArrayToString v) as [t|e] eqn:Hv.
      * apply WebFacts.validateTemplate_accepts_iff in Hv. destruct Hv as [-> Hacc].
        apply checked_consistent; simpl; [|exact Hw]. now intros t [= <-].
      * apply checked_consistent; simpl; [discriminate | exact Hw].
    + apply checked_consistent; simpl; [discriminate | exact Hw].
  - apply checked_consistent; simpl; [exact Ht | discriminate].
  - unfold seedInput. destruct (fromSeed seed) as [w|e] eqn:Hseed.
    + apply checked_consistent; simpl; [exact Ht|]. intros w' [= <-]. eauto.
    + apply checked_consistent; simpl; [exact Ht | discriminate].
  - apply checked_consistent; simpl; auto.
  - unfold generateClick.
    match goal with H : generateDisabled s = false |- _ => rewrite H in Hbutton end.
    symmetry in Hbutton. apply orb_false_iff in Hbutton. destruct Hbutton as [Hd Hr].
    apply negb_false_iff in Hr. rewrite Hr. simpl.
    unfold consistent. simpl. unfold ready in *. simpl. rewrite Hd, Hr. auto.
  - unfold consistent. simpl. auto.
  - unfold consistent. simpl. auto.
Qed.

Lemma reachable_consistent (s : state) : reachable s -> consistent s.
Proof.
  induction 1 as [devnet|s i s' _ IH Hstep].
  - apply checked_consistent; simpl; discriminate.
  - eapply step_consistent; eauto.
Qed.

(** X19. After any sequence of inputs the Generate button is enabled
    exactly in manual mode with a stored template and a wallet, and a
    stored template is always one the validation accepted. *)
Theorem generate_button_enabled_iff (s : state) :
  reachable s ->
  (generateDisabled s = false <->
   devnetMode s = false /\
   exists t w, batchTemplate s = Some t /\ wallet s = Some w /\ accepted t).
Proof.
  intros Hreach. apply reachable_consistent in Hreach.
  destruct Hreach as (Hbutton & Ht & Hw). rewrite Hbutton. unfold ready. split.
  - intros H. apply orb_false_iff in H. destruct H as [Hd Hr].
    apply negb_false_iff in Hr. split; [exact Hd|].
    destruct (batchTemplate s) as [t|]; [|discriminate].
    destruct (wallet s) as [w|]; [|discriminate]. exists t, w. auto.
  - intros (Hd & t & w & Htemplate & Hwallet & Hacc). rewrite Hd, Htemplate, Hwallet.
    destruct Hacc as (props & entries & account & -> & _). reflexivity.
Qed.

(** X20. Whatever the user did before, a click on the enabled Generate
    button calls the signing library only in manual mode, only on the JSON
    copy of the stored template, which the validation accepted, only with
    the wallet of a seed that was typed, never with the wallet of the
    outer [Account], and for a wallet named in no inner transaction only
    after the user confirmed. *)
Theorem form_signs_accepted_templates
    (s : state) (confirm : bool) (w : Xrpl.wallet) (tx : value) :
  reachable s ->
  generateDisabled s = false ->
  In (Web.Signing w tx) (fst (fst (generateClick signMultiBatch confirm s))) ->
  devnetMode s = false /\
  wallet s = Some w /\ (exists seed, fromSeed seed = Ok w) /\
  exists t,
    batchTemplate s = Some t /\ accepted t /\
    tx = json_value t /\
    get_opt t "Account" <> JStr (address w) /\
    (ClickFacts.involved t (address w) = true \/ confirm = true).
Proof.
  intros Hreach Hen. apply reachable_consistent in Hreach.
  destruct Hreach as (Hbutton & Ht & Hw).
  rewrite Hen in Hbutton. symmetry in Hbutton. apply orb_false_iff in Hbutton.
  destruct Hbutton as [Hd Hr]. apply negb_false_iff in Hr.
  unfold generateClick. rewrite Hr. cbn [negb fst].
  unfold ready in Hr.
  destruct (batchTemplate s) as [t|] eqn:Htemplate; [|discriminate].
  destruct (wallet s) as [w0|] eqn:Hwallet; [|discriminate].
  intros Hin.
  apply (ClickFacts.click_signing StringToNumber ArrayToString) in Hin; [|now apply Ht].
  destruct Hin as (-> & -> & Hne & Hgo).
  split; [exact Hd|]. split; [reflexivity|]. split; [now apply Hw|].
  exists t. repeat split; auto.
Qed.

End Handlers.

(** The form after the example batch and the seed of its first child were
    typed, in manual mode. *)
Definition web_fromSeed (seed : string) : Web.result Xrpl.wallet :=
  Ok (Toy.wallet_of (String.substring 25 (String.length seed - 25) seed)).

Definition child1_seed : string := "sSeedOfTheAccountNamed:::rChild1".

Definition filled_form : state :=
  seedInput web_fromSeed (Some child1_seed)
    (templateInput WebFacts.no_number WebFacts.no_text (Some (Some CliFacts.example_batch))
       (initial false)).

Lemma filled_form_reachable :
  Form.reachable WebFacts.no_number WebFacts.no_text web_fromSeed ClickFacts.web_sign
    filled_form.
Proof.
  eapply reachable_step; [eapply reachable_step; [apply (reachable_initial _ _ _ _ false)|]|].
  - apply (step_template_text _ _ _ _ _ (Some CliFacts.example_batch)).
  - apply (step_seed_text _ _ _ _ _ child1_seed).
Qed.

Lemma generate_button_enabled_iff_witness :
  generateDisabled filled_form = false <->
  devnetMode filled_form = false /\
  exists t w, batchTemplate filled_form = Some t /\ wallet filled_form = Some w /\
              WebFacts.template_accepted WebFacts.no_number WebFacts.no_text t.
Proof.
  exact (generate_button_enabled_iff WebFacts.no_number WebFacts.no_text web_fromSeed
           ClickFacts.web_sign filled_form filled_form_reachable).
Defined.

Lemma form_signs_accepted_templates_witness :
  devnetMode filled_form = false /\
  wallet filled_form = Some (Toy.wallet_of "rChild1") /\
  (exists seed, web_fromSeed seed = Ok (Toy.wallet_of "rChild1")) /\
  exists t,
    batchTemplate filled_form = Some t /\
    WebFacts.template_accepted WebFacts.no_number WebFacts.no_text t /\
    json_value CliFacts.example_batch = json_value t /\
    get_opt t "Account" <> JStr "rChild1" /\
    (ClickFacts.involved t "rChild1" = true \/ false = true).
Proof.
  apply (form_signs_accepted_templates WebFacts.no_number WebFacts.no_text web_fromSeed
           ClickFacts.web_sign filled_form false (Toy.wallet_of "rChild1")
           (json_value CliFacts.example_batch) filled_form_reachable).
  - reflexivity.
  - vm_compute. left. reflexivity.
Defined.

End FormFacts.

(** ** Facts about the demo on the test network *)

Module DemoFacts.
Import Demo.

Lemma demo_lift {A B} (r : result A) (f : A -> traced B) :
  bindT (lift r) f = match r with Ok a => f a | Throw e => ([], Throw e) end.
Proof. unfold bindT, lift. destruct r as [a|e]; [|reflexivity]. now destruct (f a). Qed.

Lemma demo_emit {B} (evs : list event) (f : unit -> traced B) :
  bindT (emit evs) f = (evs ++ fst (f tt), snd (f tt)).
Proof. unfold bindT, emit. now destruct (f tt). Qed.

Lemma demo_pair {A B} (m : traced A) (f : A -> traced B) :
  bindT m f =
    match snd m with
    | Ok a => (fst m ++ fst (f a), snd (f a))
    | Throw e => (fst m, Throw e)
    end.
Proof.
  unfold bindT. destruct m as [printed [a|e]]; simpl; [|reflexivity].
  now destruct (f a).
Qed.

Lemma demo_read (v : value) (k : string) :
  read v k = match get v k with Some x => Ok x | None => Throw (Lib Web.TypeError) end.
Proof. unfold read, Web.read. now destruct (get v k). Qed.

Definition is_submit (ev : event) : bool :=
  match ev with Submit _ _ => true | _ => false end.

Definition is_success (ev : event) : bool :=
  match ev with LogSuccess _ => true | _ => false end.

Definition is_expired (ev : event) : bool :=
  match ev with LogExpired => true | _ => false end.

Definition is_error (ev : event) : bool :=
  match ev with LogError _ => true | _ => false end.

Definition is_disconnect (ev : event) : bool :=
  match ev with Disconnect => true | _ => false end.

Definition count (p : event -> bool) (trace : list event) : nat :=
  List.length (List.filter p trace).

Lemma count_app (p : event -> bool) (l k : list event) :
  count p (l ++ k) = (count p l + count p k)%nat.
Proof. unfold count. now rewrite List.filter_app, length_app. Qed.

(** The events of the setup, up to the outputs. *)
Definition is_setup (ev : event) : bool :=
  match ev with
  | Connect | ServerInfo | LogVersion _ | Fund _ | LogAccounts _ _ _ | Autofill _
  | LedgerIndex | Signing _ _ | ShowSigners _ | ShowFullBatch _ => true
  | _ => false
  end.

(** The events after the outer signature was made, the loop apart. *)
Definition is_closing (ev : event) : bool :=
  match ev with
  | ShowResults | LogError _ | Disconnect | LogDisconnected | LogComplete => true
  | _ => false
  end.

(** The events of the loop, in their order: a submission that ends the
    loop, with or without the success lines, or a submission that
    expired, followed at once by the line about it and by the signature of
    [autofilled] with its fee raised, and then by the next turn. *)
Inductive retries (payer : wallet) (autofilled : list (string * value))
  : list event -> Prop :=
| retries_done : retries payer autofilled []
| retries_ended attempt blob : retries payer autofilled [Submit attempt blob]
| retries_succeeded attempt blob hash :
    retries payer autofilled [Submit attempt blob; LogSuccess hash; ShowResults]
| retries_expired attempt blob rest :
    retries payer autofilled rest ->
    retries payer autofilled
      (Submit attempt blob :: LogExpired
         :: OuterSign payer (JObj (set_prop "Fee" (JStr "200") autofilled)) :: rest).

Lemma set_prop_again {V : Type} (k : string) (v : V) (o : list (string * V)) :
  set_prop k v (set_prop k v o) = set_prop k v o.
Proof.
  induction o as [|[k' v'] o IH]; simpl.
  - now rewrite String.eqb_refl.
  - destruct (String.eqb k' k) eqn:Hk; simpl.
    + now rewrite String.eqb_refl.
    + now rewrite Hk, IH.
Qed.

Lemma retries_raised (payer : wallet) (autofilled : list (string * value))
    (l : list event) :
  retries payer (set_prop "Fee" (JStr "200") autofilled) l -> retries payer autofilled l.
Proof.
  induction 1 as [|attempt blob|attempt blob hash|attempt blob rest _ IH].
  - constructor.
  - constructor.
  - constructor.
  - rewrite set_prop_again. now constructor.
Qed.

Section Run.
Variable newClient : Web.result unit.
Variable connect : Web.result unit.
Variable serverInfo : Web.result value.
Variable fundWallet : nat -> Web.result wallet.
Variable autofill : value -> Web.result (list (string * value)).
Variable getLedgerIndex : Web.result Z.
Variable signMultiBatch : wallet -> value -> Web.result value.
Variable sign : wallet -> value -> Web.result (list (string * value)).
Variable submitAndWait : nat -> value -> Web.result value.
Variable disconnect : Web.result unit.

Abbreviation loop := (attempts sign submitAndWait).
Abbreviation body :=
  (demo_body newClient connect serverInfo fundWallet autofill getLedgerIndex
     signMultiBatch sign submitAndWait).
Abbreviation run :=
  (runDevnetDemo newClient connect serverInfo fundWallet autofill getLedgerIndex
     signMultiBatch sign submitAndWait disconnect).

(** A transaction signed again after an expiry: the object [autofilled]
    with its [Fee] raised, every other property as it was. *)
Definition resigned (autofilled : list (string * value)) (tx : value) : Prop :=
  get_opt tx "Fee" = JStr "200" /\
  forall k, k <> "Fee" -> get_opt tx k = own_prop k autofilled.

(** An event of the loop. *)
Definition loop_event (payer : wallet) (autofilled : list (string * value)) (ev : event)
  : Prop :=
  match ev with
  | Submit _ _ | LogSuccess _ | ShowResults | LogExpired => True
  | OuterSign w tx => w = payer /\ resigned autofilled tx
  | _ => False
  end.

Lemma resigned_again (autofilled : list (string * value)) (tx : value) :
  resigned (set_prop "Fee" (JStr "200") autofilled) tx -> resigned autofilled tx.
Proof.
  intros [Hfee Hother]. split; [exact Hfee|]. intros k Hk.
  rewrite (Hother k Hk). apply WebFacts.own_prop_set_other. congruence.
Qed.

Lemma resigned_first (autofilled : list (string * value)) :
  resigned autofilled (JObj (set_prop "Fee" (JStr "200") autofilled)).
Proof.
  split.
  - unfold get_opt. simpl. apply WebFacts.own_prop_set_same.
  - intros k Hk. unfold get_opt. simpl. apply WebFacts.own_prop_set_other. congruence.
Qed.

Lemma attempts_shape (left attempt : nat) (payer : wallet) (blob : value)
    (autofilled : list (string * value)) :
  let L := loop left attempt payer blob autofilled in
  Forall (loop_event payer autofilled) (fst L) /\
  (count is_submit (fst L) <= left)%nat /\
  (count is_success (fst L) <= 1)%nat /\
  (forall e, snd L = Throw e -> count is_success (fst L) = 0%nat) /\
  (snd L = Ok tt ->
   count is_success (fst L) = 0%nat ->
   count is_expired (fst L) = left /\ count is_submit (fst L) = left).
Proof.
  cbn zeta. revert attempt blob autofilled.
  induction left as [|left IH]; intros attempt blob autofilled.
  - simpl. repeat split; auto.
  - cbn [attempts]. rewrite demo_emit, demo_lift.
    destruct (submitAndWait attempt blob) as [response|e]; cbn [lib fst snd app].
    2:{ repeat split; try (repeat constructor; fail); try discriminate;
          unfold count; simpl; try lia.
        }
    rewrite demo_lift, demo_read.
    destruct (get response "result") as [inner|]; cbn [fst snd app].
    2:{ repeat split; try (repeat constructor; fail); try discriminate;
          unfold count; simpl; lia. }
    rewrite demo_lift, demo_read.
    destruct (get inner "meta") as [meta|]; cbn [fst snd app].
    2:{ repeat split; try (repeat constructor; fail); try discriminate;
          unfold count; simpl; lia. }
    rewrite demo_lift, demo_read.
    destruct (get meta "TransactionResult") as [code|]; cbn [fst snd app].
    2:{ repeat split; try (repeat constructor; fail); try discriminate;
          unfold count; simpl; lia. }
    destruct (strict_eq_str code "tesSUCCESS").
    + rewrite demo_lift, demo_read.
      destruct (get inner "hash") as [hash|]; cbn [emit fst snd app].
      * repeat split; try (repeat constructor; fail); try discriminate;
          unfold count; simpl; lia.
      * repeat split; try (repeat constructor; fail); try discriminate;
          unfold count; simpl; lia.
    + rewrite demo_lift.
      destruct (includes_expired code) as [[|]|e]; cbn [fst snd app].
      * rewrite !demo_emit, demo_lift.
        destruct (sign payer _) as [newSigned|e]; cbn [lib fst snd app].
        2:{ split; [|repeat split; try discriminate; unfold count; simpl; lia].
            constructor; [exact I|]. constructor; [exact I|].
            constructor; [|constructor]. split; [reflexivity | apply resigned_first]. }
        destruct (IH (S attempt) (own_prop "tx_blob" newSigned)
                    (set_prop "Fee" (JStr "200") autofilled))
          as (Hev & Hsub & Hsucc & Hthrow & Hsilent).
        assert (Hev' : Forall (loop_event payer autofilled)
                         (fst (loop left (S attempt) payer (own_prop "tx_blob" newSigned)
                                 (set_prop "Fee" (JStr "200") autofilled)))).
        { eapply List.Forall_impl; [|exact Hev]. intros [] H; simpl in *; auto.
          destruct H as [-> H]. split; [reflexivity|]. now apply resigned_again. }
        unfold count in *. cbn [List.filter is_submit is_success is_expired List.length].
        repeat split.
        -- constructor; [exact I|]. constructor; [exact I|].
           constructor; [|exact Hev']. split; [reflexivity | apply resigned_first].
        -- simpl. lia.
        -- exact Hsucc.
        -- exact Hthrow.
        -- simpl. apply Hsilent in H; auto. lia.
        -- simpl. apply Hsilent in H; auto. lia.
      * rewrite demo_lift, demo_read.
        destruct (get meta "TransactionResultMessage") as [message|]; cbn [lift fst snd app];
          repeat split; try (repeat constructor; fail); try discriminate;
            unfold count; simpl; lia.
      * repeat split; try (repeat constructor; fail); try discriminate;
          unfold count; simpl; lia.
Qed.


(** What the run holds when it reaches the signature of the outer
    transaction. *)
Record prepared := {
  acc1 : wallet;
  acc2 : wallet;
  acc3 : wallet;
  filled : list (string * value);
  currentLedger : Z;
  signerEntry : value
}.

Definition template_of (p : prepared) : value :=
  batchTemplate (address (acc1 p)) (address (acc2 p)) (address (acc3 p)).

Definition autofilled_of (p : prepared) : list (string * value) :=
  set_prop "LastLedgerSequence" (JInt (currentLedger p + 60))
    (set_prop "Fee" (JStr "100") (filled p)).

Definition fullBatch_of (p : prepared) : value :=
  JObj (set_prop "BatchSigners" (JArr [JObj [("BatchSigner", signerEntry p)]])
          (autofilled_of p)).

Definition is_prepared (p : prepared) : Prop :=
  fundWallet 1 = Ok (acc1 p) /\ fundWallet 2 = Ok (acc2 p) /\ fundWallet 3 = Ok (acc3 p) /\
  autofill (template_of p) = Ok (filled p) /\
  getLedgerIndex = Ok (currentLedger p) /\
  exists signers first,
    signMultiBatch (acc2 p) (json_value (JObj (autofilled_of p))) = Ok signers /\
    Web.index0 signers = Ok first /\
    get first "BatchSigner" = Some (signerEntry p).

Ltac early :=
  eexists; refine (conj _ (or_introl (ex_intro _ _ eq_refl))); repeat constructor.

Lemma body_shape :
  exists pre,
    Forall (fun ev => is_setup ev = true) pre /\
    ((exists e, body = (pre, Throw e)) \/
     (exists p,
        is_prepared p /\ (exists shown, pre = shown ++ [ShowFullBatch (fullBatch_of p)]) /\
        ((exists e, body = (pre ++ [OuterSign (acc1 p) (fullBatch_of p)], Throw e)) \/
         (exists signedOuter,
            let L := loop 2 1 (acc1 p) (own_prop "tx_blob" signedOuter) (autofilled_of p) in
            body = (pre ++ OuterSign (acc1 p) (fullBatch_of p) :: fst L
                        ++ match snd L with Ok _ => [ShowResults] | Throw _ => [] end,
                    match snd L with Ok _ => Ok tt | Throw e => Throw e end))))).
Proof.
  unfold demo_body.
  rewrite demo_lift. destruct newClient as [[]|e]; cbn [lib fst snd app]; [|early].
  rewrite demo_emit, demo_lift.
  destruct connect as [[]|e]; cbn [lib fst snd app]; [|early].
  rewrite demo_emit, demo_lift.
  destruct serverInfo as [info|e]; cbn [lib fst snd app]; [|early].
  rewrite demo_lift, demo_read.
  destruct (get info "result") as [inner|]; cbn [fst snd app]; [|early].
  rewrite demo_lift, demo_read.
  destruct (get inner "info") as [details|]; cbn [fst snd app]; [|early].
  rewrite demo_lift, demo_read.
  destruct (get details "build_version") as [version|]; cbn [fst snd app]; [|early].
  rewrite !demo_emit, demo_lift.
  destruct (fundWallet 1) as [a1|e] eqn:H1; cbn [lib fst snd app]; [|early].
  rewrite !demo_emit, demo_lift.
  destruct (fundWallet 2) as [a2|e] eqn:H2; cbn [lib fst snd app]; [|early].
  rewrite !demo_emit, demo_lift.
  destruct (fundWallet 3) as [a3|e] eqn:H3; cbn [lib fst snd app]; [|early].
  rewrite !demo_emit, demo_lift.
  destruct (autofill (batchTemplate (address a1) (address a2) (address a3)))
    as [fill|e] eqn:Hfill; cbn [lib fst snd app]; [|early].
  rewrite !demo_emit, demo_lift.
  destruct getLedgerIndex as [ledger|e] eqn:Hledger; cbn [lib fst snd app]; [|early].
  rewrite !demo_emit, demo_lift.
  destruct (signMultiBatch a2 _) as [signers|e] eqn:Hsigners; cbn [lib fst snd app];
    [|early].
  destruct (negb (truthy (get_opt signers "length"))); cbn [lift fst snd app]; [early|].
  rewrite demo_lift.
  destruct (Web.index0 signers) as [first|e] eqn:Hfirst; cbn [lib fst snd app]; [|early].
  rewrite demo_lift, demo_read.
  destruct (get first "BatchSigner") as [entry|] eqn:Hentry; cbn [fst snd app]; [|early].
  rewrite !demo_emit, demo_lift. cbn [fst snd app].
  exists ([Connect; ServerInfo; LogVersion version; Fund 1; Fund 2; Fund 3;
           LogAccounts (address a1) (address a2) (address a3);
           Autofill (batchTemplate (address a1) (address a2) (address a3));
           LedgerIndex;
           Signing a2
             (json_value
                (JObj (set_prop "LastLedgerSequence" (JInt (ledger + 60))
                         (set_prop "Fee" (JStr "100") fill))));
           ShowSigners (JArr [JObj [("BatchSigner", entry)]])]
          ++ [ShowFullBatch
                (JObj (set_prop "BatchSigners" (JArr [JObj [("BatchSigner", entry)]])
                         (set_prop "LastLedgerSequence" (JInt (ledger + 60))
                            (set_prop "Fee" (JStr "100") fill))))]).
  split; [cbn [app]; repeat constructor|].
  right. exists {| acc1 := a1; acc2 := a2; acc3 := a3; filled := fill;
                   currentLedger := ledger; signerEntry := entry |}.
  unfold is_prepared, fullBatch_of, autofilled_of, template_of.
  cbn [acc1 acc2 acc3 filled currentLedger signerEntry].
  split; [repeat split; eauto|]. split; [eexists; reflexivity|]. cbn [app].
  destruct (sign a1 _) as [signedOuter|e]; cbn [lib fst snd app].
  - right. exists signedOuter. cbn zeta. rewrite demo_pair.
    destruct (snd (loop 2 1 a1 (own_prop "tx_blob" signedOuter) _));
      cbn [fst snd emit app]; [reflexivity | now rewrite app_nil_r].
  - left. eexists. reflexivity.
Qed.


Lemma setup_count (p : event -> bool) (pre : list event) :
  (forall ev, is_setup ev = true -> p ev = false) ->
  Forall (fun ev => is_setup ev = true) pre -> count p pre = 0%nat.
Proof.
  intros Hp Hall. unfold count. induction Hall as [|ev pre Hev _ IH]; [reflexivity|].
  simpl. now rewrite (Hp ev Hev).
Qed.

Lemma loop_count (p : event -> bool) (payer : wallet) (autofilled : list (string * value))
    (l : list event) :
  (forall ev, loop_event payer autofilled ev -> p ev = false) ->
  Forall (loop_event payer autofilled) l -> count p l = 0%nat.
Proof.
  intros Hp Hall. unfold count. induction Hall as [|ev l Hev _ IH]; [reflexivity|].
  simpl. now rewrite (Hp ev Hev).
Qed.

(** The trace of the run, from that of the body. *)
Lemma demo_trace :
  exists tail,
    fst run = fst body ++ match snd body with Ok _ => [] | Throw e => [LogError e] end
                       ++ tail /\
    (tail = [Disconnect; LogDisconnected; LogComplete] \/ tail = [Disconnect]
     \/ tail = [LogComplete]) /\
    count is_disconnect tail = match newClient with Ok _ => 1 | Throw _ => 0 end%nat.
Proof.
  unfold runDevnetDemo. destruct (snd body); destruct newClient as [[]|e'];
    try destruct disconnect as [[]|e'']; cbn [fst];
      eexists; rewrite <- ?app_assoc; (split; [reflexivity|]); auto.
Qed.

(** The counts of the body: [n p] events satisfy [p] in the body. *)
Lemma body_counts :
  count is_disconnect (fst body) = 0%nat /\
  count is_error (fst body) = 0%nat /\
  (count is_submit (fst body) <= 2)%nat /\
  (count is_success (fst body) <= 1)%nat /\
  (forall e, snd body = Throw e -> count is_success (fst body) = 0%nat) /\
  (snd body = Ok tt -> count is_success (fst body) = 0%nat ->
   count is_expired (fst body) = 2%nat /\ count is_submit (fst body) = 2%nat).
Proof.
  destruct body_shape as (pre & Hpre & [[e ->]|(p & Hp & _ & [[e ->]|[signedOuter Hb]])]).
  - cbn [fst snd]. rewrite !(setup_count _ pre) by (auto; now intros []).
    repeat split; auto; discriminate.
  - cbn [fst snd]. rewrite !count_app, !(setup_count _ pre) by (auto; now intros []).
    unfold count. simpl. repeat split; auto; discriminate.
  - cbn zeta in Hb. rewrite Hb. cbn [fst snd].
    destruct (attempts_shape 2 1 (acc1 p) (own_prop "tx_blob" signedOuter) (autofilled_of p))
      as (Hev & Hsub & Hsucc & Hthrow & Hsilent). cbn zeta in *.
    set (L := loop 2 1 (acc1 p) (own_prop "tx_blob" signedOuter) (autofilled_of p)) in *.
    change (?a :: ?l) with ([a] ++ l).
    rewrite !count_app, !(setup_count _ pre) by (auto; now intros []).
    rewrite (loop_count is_disconnect _ _ _ (fun ev H => ltac:(now destruct ev)) Hev).
    rewrite (loop_count is_error _ _ _ (fun ev H => ltac:(now destruct ev)) Hev).
    assert (Htail : forall q : event -> bool, q ShowResults = false ->
               count q match snd L with Ok _ => [ShowResults] | Throw _ => [] end = 0%nat).
    { intros q Hq. destruct (snd L); unfold count; simpl; [now rewrite Hq|reflexivity]. }
    rewrite !Htail by reflexivity. unfold count at 1 3 5 7 9 11 13. simpl.
    repeat split; try lia.
    + intros e He. destruct (snd L) eqn:HL; [discriminate|]. rewrite (Hthrow e0 eq_refl). lia.
    + destruct (snd L) as [[]|e] eqn:HL; [|discriminate].
      destruct (Hsilent eq_refl) as [H1 H2]; [lia|]. rewrite H1. unfold count. simpl. lia.
    + destruct (snd L) as [[]|e] eqn:HL; [|discriminate].
      destruct (Hsilent eq_refl) as [H1 H2]; [lia|]. rewrite H2. unfold count. simpl. lia.
Qed.


(** X21. [runDevnetDemo] calls [client.disconnect] exactly once on every
    path on which the client was constructed, whatever fails in between,
    and never otherwise; its promise is rejected only when that
    disconnection throws, every other error being caught and shown. *)
Theorem demo_disconnects_always :
  let run := runDevnetDemo newClient connect serverInfo fundWallet autofill getLedgerIndex
               signMultiBatch sign submitAndWait disconnect in
  count is_disconnect (fst run) = match newClient with Ok _ => 1 | Throw _ => 0 end%nat /\
  (snd run = Ok tt \/ exists e, disconnect = Throw e /\ snd run = Throw (Lib e)).
Proof.
  cbn zeta. split.
  - destruct demo_trace as (tail & -> & _ & Htail).
    destruct body_counts as (Hd & _).
    rewrite !count_app, Hd, Htail.
    destruct (snd body); reflexivity.
  - unfold runDevnetDemo. destruct newClient as [[]|e]; [|now left].
    destruct disconnect as [[]|e]; [now left|]. right. eauto.
Qed.

(** X22. The demo submits at most twice and shows at most one success
    and one error, never both.  When it shows neither, both submissions
    expired, and the run ends as if nothing had gone wrong. *)
Theorem demo_verdict :
  let trace := fst (runDevnetDemo newClient connect serverInfo fundWallet autofill
                      getLedgerIndex signMultiBatch sign submitAndWait disconnect) in
  (count is_submit trace <= 2)%nat /\
  (count is_success trace <= 1)%nat /\
  (count is_error trace <= 1)%nat /\
  (count is_success trace = 1%nat -> count is_error trace = 0%nat) /\
  (count is_success trace = 0%nat -> count is_error trace = 0%nat ->
   count is_expired trace = 2%nat /\ count is_submit trace = 2%nat).
Proof.
  cbn zeta. destruct demo_trace as (tail & -> & Htail & _).
  destruct body_counts as (_ & He & Hsub & Hsucc & Hthrow & Hsilent).
  assert (Hq : forall q : event -> bool,
             q Disconnect = false -> q LogDisconnected = false -> q LogComplete = false ->
             count q tail = 0%nat).
  { intros q H1 H2 H3. unfold count.
    destruct Htail as [-> | [-> | ->]]; simpl; now rewrite ?H1, ?H2, ?H3. }
  assert (Herr : forall (q : event -> bool) e,
             count q [LogError e] = if q (LogError e) then 1%nat else 0%nat).
  { intros q e. unfold count. simpl. now destruct (q (LogError e)). }
  assert (Hnil : forall q : event -> bool, count q [] = 0%nat) by reflexivity.
  rewrite !count_app, !Hq, He by reflexivity.
  destruct (snd body) as [[]|e] eqn:Hbody; rewrite ?Herr, ?Hnil; cbn [is_submit is_success
    is_error is_expired].
  - split; [lia|]. split; [lia|]. split; [lia|]. split; [lia|].
    intros Hzero _. destruct Hsilent as [Hexp Htwo]; auto; lia.
  - rewrite (Hthrow e eq_refl). repeat split; lia.
Qed.

(** The loop emits its events in the order of [retries]. *)
Lemma attempts_trace (left attempt : nat) (payer : wallet) (blob : value)
    (autofilled : list (string * value)) :
  retries payer autofilled (fst (loop left attempt payer blob autofilled)).
Proof.
  revert attempt blob autofilled.
  induction left as [|left IH]; intros attempt blob autofilled; [constructor|].
  cbn [attempts]. rewrite demo_emit, demo_lift.
  destruct (submitAndWait attempt blob) as [response|e]; cbn [lib fst snd app];
    [|constructor].
  rewrite demo_lift, demo_read.
  destruct (get response "result") as [inner|]; cbn [fst snd app]; [|constructor].
  rewrite demo_lift, demo_read.
  destruct (get inner "meta") as [meta|]; cbn [fst snd app]; [|constructor].
  rewrite demo_lift, demo_read.
  destruct (get meta "TransactionResult") as [code|]; cbn [fst snd app]; [|constructor].
  destruct (strict_eq_str code "tesSUCCESS").
  - rewrite demo_lift, demo_read.
    destruct (get inner "hash") as [hash|]; cbn [emit fst snd app]; constructor.
  - rewrite demo_lift.
    destruct (includes_expired code) as [[|]|e]; cbn [fst snd app]; [| |constructor].
    + rewrite !demo_emit, demo_lift.
      destruct (sign payer _) as [newSigned|e]; cbn [lib fst snd app].
      * constructor. apply retries_raised, IH.
      * repeat constructor.
    + rewrite demo_lift, demo_read.
      destruct (get meta "TransactionResultMessage") as [message|]; cbn [lift fst snd app];
        constructor.
Qed.

(** X23. The outer signatures of the demo, in their order.  A run that
    reaches the first one has shown the full batch just before it, signs
    that very batch with the first funded wallet, and the batch holds the
    signer entry the library made for the second wallet on the JSON copy
    of the autofilled template.  Every later outer signature follows at
    once the line about an expired ledger, is made by the same wallet, and
    signs the autofilled object with its [Fee] set to the string 200, whose
    [BatchSigners] and [RawTransactions] are what [client.autofill]
    returned for the bare template: the signer entry just generated is
    not in it.  A run that does not reach the first signature reports an
    error after the events of the setup and signs nothing. *)
Theorem demo_retry_without_signers :
  let trace := fst (runDevnetDemo newClient connect serverInfo fundWallet autofill
                      getLedgerIndex signMultiBatch sign submitAndWait disconnect) in
  (exists pre e post,
      trace = pre ++ LogError e :: post /\
      Forall (fun ev => is_setup ev = true) pre /\
      Forall (fun ev => is_closing ev = true) post) \/
  (exists p pre turns post,
      is_prepared p /\
      trace = pre ++ ShowFullBatch (fullBatch_of p) :: OuterSign (acc1 p) (fullBatch_of p)
                  :: turns ++ post /\
      Forall (fun ev => is_setup ev = true) pre /\
      retries (acc1 p) (autofilled_of p) turns /\
      Forall (fun ev => is_closing ev = true) post /\
      let retried := JObj (set_prop "Fee" (JStr "200") (autofilled_of p)) in
      get_opt (fullBatch_of p) "BatchSigners" = JArr [JObj [("BatchSigner", signerEntry p)]] /\
      get_opt retried "Fee" = JStr "200" /\
      get_opt retried "BatchSigners" = own_prop "BatchSigners" (filled p) /\
      get_opt retried "RawTransactions" = own_prop "RawTransactions" (filled p)).
Proof.
  cbn zeta. destruct demo_trace as (tail & -> & Htail & _).
  assert (Hclosing : Forall (fun ev => is_closing ev = true) tail).
  { destruct Htail as [-> | [-> | ->]]; repeat constructor. }
  destruct body_shape
    as (pre & Hpre & [[e Hb]|(p & Hp & [shown ->] & [[e Hb]|[signedOuter Hb]])]);
    rewrite Hb; cbn [fst snd].
  - left. exists pre, e, tail. auto.
  - right. apply Forall_app in Hpre. destruct Hpre as [Hshown _].
    exists p, shown, [], (LogError e :: tail).
    split; [exact Hp|]. split; [repeat (rewrite <- app_assoc; cbn [app]); reflexivity|].
    split; [exact Hshown|].
    split; [constructor|]. split; [now constructor|].
    unfold get_opt, fullBatch_of, autofilled_of. simpl.
    rewrite !WebFacts.own_prop_set_same.
    rewrite !WebFacts.own_prop_set_other by discriminate. auto.
  - right. apply Forall_app in Hpre. destruct Hpre as [Hshown _]. cbn zeta.
    pose proof (attempts_trace 2 1 (acc1 p) (own_prop "tx_blob" signedOuter)
                  (autofilled_of p)) as Hturns.
    set (L := loop 2 1 (acc1 p) (own_prop "tx_blob" signedOuter) (autofilled_of p)) in *.
    exists p, shown, (fst L),
      (match snd L with Ok _ => [ShowResults] | Throw _ => [] end ++
       match snd L with Ok _ => [] | Throw e => [LogError e] end ++ tail).
    split; [exact Hp|]. split.
    { destruct (snd L); cbn [fst snd]; repeat (rewrite <- app_assoc; cbn [app]);
        reflexivity. }
    split; [exact Hshown|]. split; [exact Hturns|]. split.
    { destruct (snd L); cbn [app]; repeat constructor; exact Hclosing. }
    unfold get_opt, fullBatch_of, autofilled_of. simpl.
    rewrite !WebFacts.own_prop_set_same.
    rewrite !WebFacts.own_prop_set_other by discriminate. auto.
Qed.

End Run.

(** X24. The template the demo builds passes the checks of the manual
    paths, which the demo itself does not run: for a non-empty first
    address the form's validation and [validateBatchTransaction] accept
    it, and a second address different from the first passes the
    involvement check as the sender of one inner transaction. *)
Theorem demo_template_passes_manual_checks
    (StringToNumber : string -> number) (ArrayToString : list value -> string)
    (a1 a2 a3 : string) :
  a1 <> "" ->
  a2 <> a1 ->
  let template := batchTemplate a1 a2 a3 in
  Web.validateTemplate StringToNumber ArrayToString template = Ok template /\
  Cli.validateBatchTransaction template = Ok true /\
  Cli.checkSignerInvolvement template a2 = Ok [Cli.LogInvolved a2 1] /\
  ClickFacts.involved template a2 = true.
Proof.
  intros Hne Hdiff. cbn zeta.
  assert (E21 : String.eqb a2 a1 = false) by now apply String.eqb_neq.
  assert (E12 : String.eqb a1 a2 = false) by (apply String.eqb_neq; congruence).
  split; [|split; [|split]].
  - apply WebFacts.validateTemplate_accepts_iff. split; [reflexivity|].
    exists [("TransactionType", JStr "Batch"); ("Account", JStr a1); ("Flags", JInt 262144);
            ("RawTransactions", JArr [demo_payment a1 a3; demo_payment a2 a3])],
      [demo_payment a1 a3; demo_payment a2 a3], a1.
    repeat split; auto; try (simpl; lia).
    repeat apply List.Forall_cons; try apply List.Forall_nil;
      (eexists; split; [reflexivity|]; repeat split; reflexivity).
  - reflexivity.
  - unfold Cli.checkSignerInvolvement. simpl. rewrite E12, String.eqb_refl. reflexivity.
  - unfold ClickFacts.involved. simpl. rewrite String.eqb_refl. apply orb_true_r.
Qed.

(** *** The demo on the stand-in network *)

Definition toy_funded (i : nat) : Web.result wallet :=
  Ok (Toy.wallet_of (nth i [""; "rPayer"; "rSigner"; "rReceiver"] "")).

Definition toy_filled (tx : value) : Web.result (list (string * value)) :=
  match tx with
  | JObj o => Ok (set_prop "Sequence" (JInt 7) o)
  | _ => Throw (Web.External "not a transaction")
  end.

Definition toy_signed (w : wallet) (tx : value) : Web.result (list (string * value)) :=
  Ok [("tx_blob", JObj [("signedBy", JStr (address w)); ("tx", tx)]);
      ("hash", JStr "C0FFEE")].

Definition toy_response (code : string) : value :=
  JObj [("result",
         JObj [("hash", JStr "C0FFEE");
               ("meta", JObj [("TransactionResult", JStr code)])])].

(** A network on which every submission expires. *)
Definition toy_expiring : list event * result unit :=
  runDevnetDemo (Ok tt) (Ok tt)
    (Ok (JObj [("result", JObj [("info", JObj [("build_version", JStr "2.5.0")])])]))
    toy_funded toy_filled (Ok 100) ClickFacts.web_sign toy_signed
    (fun _ _ => Ok (toy_response "telLAST_LEDGER_SEQUENCE")) (Ok tt).

Definition toy_prepared : prepared :=
  {| acc1 := Toy.wallet_of "rPayer";
     acc2 := Toy.wallet_of "rSigner";
     acc3 := Toy.wallet_of "rReceiver";
     filled := [("TransactionType", JStr "Batch");
                ("Account", JStr "rPayer");
                ("Flags", JInt 262144);
                ("RawTransactions",
                 JArr [demo_payment "rPayer" "rReceiver";
                       demo_payment "rSigner" "rReceiver"]);
                ("Sequence", JInt 7)];
     currentLedger := 100;
     signerEntry := get_opt (Toy.signer_entry (Toy.wallet_of "rSigner")) "BatchSigner" |}.

Lemma demo_verdict_witness :
  count is_success (fst toy_expiring) = 0%nat /\
  count is_error (fst toy_expiring) = 0%nat /\
  count is_expired (fst toy_expiring) = 2%nat /\
  count is_submit (fst toy_expiring) = 2%nat.
Proof.
  split; [reflexivity|]. split; [reflexivity|].
  apply (demo_verdict (Ok tt) (Ok tt)
           (Ok (JObj [("result", JObj [("info", JObj [("build_version", JStr "2.5.0")])])]))
           toy_funded toy_filled (Ok 100) ClickFacts.web_sign toy_signed
           (fun _ _ => Ok (toy_response "telLAST_LEDGER_SEQUENCE")) (Ok tt));
    reflexivity.
Defined.

(** On that network the demo signs three times: the full batch, and the
    autofilled object after each of the two expiries. *)
Lemma toy_expiring_signatures :
  let retried := JObj (set_prop "Fee" (JStr "200") (autofilled_of toy_prepared)) in
  List.filter (fun ev => match ev with
                         | ShowFullBatch _ | OuterSign _ _ | LogExpired => true
                         | _ => false
                         end) (fst toy_expiring)
  = [ShowFullBatch (fullBatch_of toy_prepared);
     OuterSign (Toy.wallet_of "rPayer") (fullBatch_of toy_prepared);
     LogExpired; OuterSign (Toy.wallet_of "rPayer") retried;
     LogExpired; OuterSign (Toy.wallet_of "rPayer") retried] /\
  get_opt retried "BatchSigners" = JUndefined.
Proof. split; reflexivity. Qed.

Lemma demo_template_passes_manual_checks_witness :
  Web.validateTemplate WebFacts.no_number WebFacts.no_text
    (batchTemplate "rPayer" "rSigner" "rReceiver") = Ok (batchTemplate "rPayer" "rSigner" "rReceiver") /\
  Cli.validateBatchTransaction (batchTemplate "rPayer" "rSigner" "rReceiver") = Ok true /\
  Cli.checkSignerInvolvement (batchTemplate "rPayer" "rSigner" "rReceiver") "rSigner"
    = Ok [Cli.LogInvolved "rSigner" 1] /\
  ClickFacts.involved (batchTemplate "rPayer" "rSigner" "rReceiver") "rSigner" = true.
Proof.
  apply (demo_template_passes_manual_checks WebFacts.no_number WebFacts.no_text
           "rPayer" "rSigner" "rReceiver"); discriminate.
Defined.

End DemoFacts.

(** ** Facts about the test mode *)

Module TestFacts.
Import Roles TestMode.

Definition is_call (a : action) : bool :=
  match a with
  | SignatureOnly _ _ | MultipleSignatures _ _
  | CompleteWorkflow _ _ _ | CompleteMultiWorkflow _ _ _ => true
  | _ => false
  end.

Lemma read_some (v : value) (k : string) (x : value) :
  TestMode.read v k = Ok x <-> get v k = Some x.
Proof.
  unfold TestMode.read, assigning, Roles.read, tool, Cli.read.
  destruct (get v k); split; congruence.
Qed.

Lemma seeds_read (accounts seeds : list value) :
  map_result (fun account => TestMode.read account "seed") accounts = Ok seeds ->
  Forall2 (fun account seed => get account "seed" = Some seed) accounts seeds.
Proof.
  unfold map_result. generalize 0%nat. revert seeds.
  induction accounts as [|a l IH]; intros seeds i; simpl.
  - intros [= <-]. constructor.
  - destruct (TestMode.read a "seed") as [s|e] eqn:Hs; simpl; [|discriminate].
    destruct (map_from _ (S i) l) as [rest|e] eqn:Hrest; simpl; [|discriminate].
    intros [= <-]. constructor; [now apply read_some | eauto].
Qed.

Lemma own_prop_json_value (k : string) (o : list (string * value)) (x : value) :
  own_prop k o = x -> is_undefined x = false ->
  own_prop k (json_props json_value o) = json_value x.
Proof.
  intros Hx Hdef. rewrite SetupFacts.own_prop_json_props. revert Hx. unfold own_prop.
  induction o as [|[k' y] o IH]; simpl.
  - intros <-. discriminate.
  - destruct (String.eqb k' k); simpl; [|exact IH].
    intros ->. now rewrite Hdef.
Qed.

(** The roles in the example files, for any file of three accounts with
    distinct addresses. *)
Lemma example_roles (devnetAccounts : value) (p1 p2 p3 : list (string * value))
    (c : value) (i h n : string) :
  get devnetAccounts "accounts" = Some (JArr [JObj p1; JObj p2; JObj p3]) ->
  own_prop "address" p1 = JStr i ->
  own_prop "address" p2 = JStr h ->
  own_prop "address" p3 = JStr n ->
  i <> h -> i <> n -> h <> n ->
  assignAccountRoles
    (json_value (Setup.examplePayment (JStr i) (JStr h) (JStr n))) devnetAccounts =
    (false, Ok {| signerAccounts := [JObj p3]; parentAccount := JObj p2;
                  isMultiSigner := false |}) /\
  assignAccountRoles
    (json_value (Setup.exampleTrustline c (JStr i) (JStr h) (JStr n))) devnetAccounts =
    (false, Ok {| signerAccounts := [JObj p3]; parentAccount := JObj p1;
                  isMultiSigner := false |}) /\
  assignAccountRoles
    (json_value (Setup.exampleMultiPayment (JStr i) (JStr h) (JStr n))) devnetAccounts =
    (false, Ok {| signerAccounts := [JObj p2; JObj p3]; parentAccount := JObj p1;
                  isMultiSigner := true |}) /\
  assignAccountRoles
    (json_value (Setup.myCustomBatch (JStr i) (JStr h) (JStr n))) devnetAccounts =
    (false, Ok {| signerAccounts := [JObj p3]; parentAccount := JObj p2;
                  isMultiSigner := false |}).
Proof.
  intros Hacc Ha1 Ha2 Ha3 Hih Hin Hhn.
  assert (Eih : String.eqb i h = false) by (now apply String.eqb_neq).
  assert (Ehi : String.eqb h i = false) by (apply String.eqb_neq; congruence).
  assert (Ein : String.eqb i n = false) by (now apply String.eqb_neq).
  assert (Eni : String.eqb n i = false) by (apply String.eqb_neq; congruence).
  assert (Ehn : String.eqb h n = false) by (now apply String.eqb_neq).
  assert (Enh : String.eqb n h = false) by (apply String.eqb_neq; congruence).
  assert (Hall : Forall (fun account => get account "address" <> None)
                   [JObj p1; JObj p2; JObj p3]) by (repeat constructor; discriminate).
  repeat split.
  all: match goal with
       | |- assignAccountRoles ?d _ = _ =>
           erewrite (RolesFacts.exact_roles_found d devnetAccounts);
             [ | reflexivity | reflexivity | exact Hacc | exact Hall | | ]
       end.
  all: unfold RolesFacts.matched_parent, RolesFacts.is_signer, signer_addresses,
         remove_duplicates, is_first_occurrence, get_opt; simpl.
  all: rewrite ?Ha1, ?Ha2, ?Ha3; simpl.
  all: repeat (progress (rewrite ?String.eqb_refl, ?Eih, ?Ehi, ?Ein, ?Eni, ?Ehn, ?Enh; simpl)).
  all: try reflexivity; discriminate.
Qed.

(** A value that is neither [undefined] nor [null] has every property
    read. *)
Lemma get_defined (v : value) (k k' : string) :
  get v k <> None -> get v k' = Some (get_opt v k').
Proof.
  unfold get_opt. destruct v as [[| |b|n|s]|l|o]; simpl; try contradiction; reflexivity.
Qed.

Lemma read_defined (v : value) (k k' : string) :
  get v k <> None -> TestMode.read v k' = Ok (get_opt v k').
Proof.
  intros H. apply read_some. now apply (get_defined v k).
Qed.

Lemma map_result_reads {A} (f : value -> TestMode.result A) (g : value -> A)
    (k : string) (l : list value) :
  (forall v, get v k <> None -> f v = Ok (g v)) ->
  Forall (fun v => get v k <> None) l ->
  map_result f l = Ok (List.map g l).
Proof.
  intros Hf Hall. unfold map_result. generalize 0%nat.
  induction Hall as [|v l Hv _ IH]; intros i; simpl; [reflexivity|].
  rewrite (Hf v Hv). simpl. rewrite IH. reflexivity.
Qed.

Lemma scan_read (parentAddress : value) (signerAddresses elements : list value)
    (start found : value * list value) :
  fold_result (match_account parentAddress signerAddresses) elements start = Ok found ->
  Forall (fun account => get account "address" <> None) elements.
Proof.
  revert start. induction elements as [|account elements IH]; intros start; simpl.
  - constructor.
  - unfold match_account at 1. unfold Roles.read, Cli.read.
    destruct (get account "address") as [address|] eqn:Ha; simpl; [|discriminate].
    intros H. apply IH in H. constructor; [cbn beta; rewrite Ha; discriminate | exact H].
Qed.

(** What an exact match tells about the file of accounts. *)
Lemma exact_match_readable (batchTx devnetAccounts : value) (r : assignment) :
  assignAccountRoles batchTx devnetAccounts = (false, Ok r) ->
  truthy devnetAccounts = true /\
  get devnetAccounts "accounts" <> None /\
  get (get_opt devnetAccounts "accounts") "length" <> None /\
  Forall (fun account => get account "address" <> None) (signerAccounts r) /\
  signerAccounts r <> [] /\
  get (parentAccount r) "address" <> None.
Proof.
  unfold assignAccountRoles.
  destruct (exact_matches batchTx devnetAccounts) as [[multi found]|e] eqn:Hex;
    [|discriminate].
  destruct (is_empty (snd found) || negb (truthy (fst found))) eqn:Hun; [discriminate|].
  simpl. rewrite Hun. intros [= <-]. simpl.
  apply orb_false_iff in Hun. destruct Hun as [Hne Htruthy].
  apply RolesFacts.exact_matches_inv in Hex.
  destruct Hex as (parentAddress & accounts & elements & Hp & Hin & Hit & -> & Hfold).
  pose proof (scan_read _ _ _ _ _ Hfold) as Hall.
  apply RolesFacts.scan_accounts in Hfold. simpl in Hfold. destruct Hfold as [Hs _].
  assert (Hd : exists o, devnetAccounts = JObj o).
  { unfold get_opt in Hit.
    destruct devnetAccounts as [[| |b|n|s]|l|o]; cbn in Hit; try discriminate. eauto. }
  destruct Hd as [o ->]. split; [reflexivity|]. split; [discriminate|].
  split.
  { destruct (get_opt (JObj o) "accounts") as [[| |b|n|s]|l|o']; simpl in *;
      discriminate. }
  split.
  { rewrite Hs. apply List.Forall_forall. intros a Ha.
    apply List.filter_In in Ha. destruct Ha as [Ha _].
    rewrite List.Forall_forall in Hall. auto. }
  split.
  { intros Hnil. rewrite Hnil in Hne. discriminate. }
  destruct (fst found) as [[| |b|n|s]|l|o']; simpl in *; discriminate.
Qed.

(** The call the test mode makes for an answer, from the roles. *)
Definition call_for (choice : string) (batchTx : value) (r : assignment) : action :=
  let seed_of account := get_opt account "seed" in
  let signerSeeds := List.map seed_of (signerAccounts r) in
  let first := seed_of (nth 0 (signerAccounts r) JUndefined) in
  if String.eqb choice "1" then
    if isMultiSigner r then MultipleSignatures batchTx signerSeeds
    else SignatureOnly batchTx first
  else if String.eqb choice "2" then
    if isMultiSigner r
    then CompleteMultiWorkflow batchTx signerSeeds (seed_of (parentAccount r))
    else CompleteWorkflow batchTx first (seed_of (parentAccount r))
  else InvalidChoice.

(** The assignment by position, when no account matches a signer and the
    batch holds no token transaction. *)
Lemma positional_roles
    (batchTx devnetAccounts parentAddress : value) (accounts elements : list value) :
  get batchTx "Account" = Some parentAddress ->
  Cli.inner_accounts batchTx = Ok accounts ->
  get devnetAccounts "accounts" = Some (JArr elements) ->
  Forall (fun account =>
            get account "address" <> None /\
            RolesFacts.is_signer (signer_addresses parentAddress accounts) account = false)
    elements ->
  has_tokens batchTx = Ok false ->
  let multi := Nat.ltb 1 (List.length (signer_addresses parentAddress accounts)) in
  let parent := if truthy (RolesFacts.matched_parent parentAddress elements)
                then RolesFacts.matched_parent parentAddress elements
                else nth 0 elements JUndefined in
  assignAccountRoles batchTx devnetAccounts =
    (true,
     if truthy parent
     then Ok {| signerAccounts :=
                  if multi
                  then [nth 1 elements JUndefined; nth 2 elements JUndefined]
                  else [nth 1 elements JUndefined];
                parentAccount := parent;
                isMultiSigner := multi |}
     else Throw CouldNotAssign).
Proof.
  intros Hp Hin Hd Hall Hb multi parent.
  unfold assignAccountRoles, exact_matches, Roles.read, Cli.read.
  rewrite Hp. simpl. rewrite Hin. simpl. rewrite Hd. simpl.
  rewrite (RolesFacts.scan_without_signers _ _ _ _ Hall). simpl.
  fold (RolesFacts.matched_parent parentAddress elements).
  unfold auto_assign, Roles.read, Cli.read. rewrite Hb. simpl. rewrite Hd. simpl.
  fold multi.
  destruct (truthy (RolesFacts.matched_parent parentAddress elements)) eqn:Hm; simpl.
  - subst parent. simpl. rewrite Hm. destruct multi; simpl; now rewrite Hm.
  - subst parent. simpl.
    destruct multi; simpl; now destruct (truthy (nth 0 elements JUndefined)).
Qed.

Section Files.
Variable existsSync : string -> bool.
Variable readFileSync : string -> option string.
Variable parse : string -> option value.

(** A file that exists and parses to [v]. *)
Definition holds (name : string) (v : value) : Prop :=
  existsSync name = true /\
  exists text, readFileSync name = Some text /\ parse text = Some v.

Lemma loadBatch_holds (path : string) (batchTx : value) :
  loadBatch existsSync readFileSync parse path = Ok batchTx <-> holds path batchTx.
Proof.
  unfold loadBatch, holds. destruct (existsSync path); [|split; [discriminate | intros [[=] _]]].
  destruct (readFileSync path) as [text|].
  - destruct (parse text) as [v|] eqn:Hv.
    + split.
      * intros [= <-]. split; [reflexivity|]. eauto.
      * intros [_ (t & [= <-] & Ht)]. congruence.
    + split; [discriminate|]. intros [_ (t & [= <-] & Ht)]. congruence.
  - split; [discriminate|]. intros [_ (t & [=] & _)].
Qed.

Lemma loadDevnetAccounts_holds (v : value) :
  holds "devnetAccounts.json" v -> loadDevnetAccounts existsSync readFileSync parse = v.
Proof.
  intros [He (text & Hr & Hp)]. unfold loadDevnetAccounts. now rewrite He, Hr, Hp.
Qed.

(** X25. The test mode calls a signing function only when
    [devnetAccounts.json] exists, the batch file exists and parses,
    [assignAccountRoles] returned roles for the two and the answer is 1 or
    2.  The batch passed is the parsed file; the function is one for
    several signers exactly when [isMultiSigner] is set; the signer seeds
    are the [seed]s of the signer accounts in their order, of the first one
    only for a single signer; the parent seed is the [seed] of the parent
    account. *)
Theorem test_mode_call (batchTxPath choice : string) :
  let devnetAccounts := loadDevnetAccounts existsSync readFileSync parse in
  is_call (runTestMode existsSync readFileSync parse batchTxPath choice) = true ->
  existsSync "devnetAccounts.json" = true /\
  exists batchTx r,
    holds batchTxPath batchTx /\
    snd (assignAccountRoles batchTx devnetAccounts) = Ok r /\
    match runTestMode existsSync readFileSync parse batchTxPath choice with
    | SignatureOnly b s =>
        choice = "1" /\ isMultiSigner r = false /\ b = batchTx /\
        exists account others,
          signerAccounts r = account :: others /\ get account "seed" = Some s
    | MultipleSignatures b seeds =>
        choice = "1" /\ isMultiSigner r = true /\ b = batchTx /\
        Forall2 (fun account seed => get account "seed" = Some seed) (signerAccounts r) seeds
    | CompleteWorkflow b s p =>
        choice = "2" /\ isMultiSigner r = false /\ b = batchTx /\
        get (parentAccount r) "seed" = Some p /\
        exists account others,
          signerAccounts r = account :: others /\ get account "seed" = Some s
    | CompleteMultiWorkflow b seeds p =>
        choice = "2" /\ isMultiSigner r = true /\ b = batchTx /\
        get (parentAccount r) "seed" = Some p /\
        Forall2 (fun account seed => get account "seed" = Some seed) (signerAccounts r) seeds
    | _ => False
    end.
Proof.
  cbn zeta. unfold runTestMode.
  assert (Hfile : existsSync "devnetAccounts.json" = false ->
                  truthy (loadDevnetAccounts existsSync readFileSync parse) = false).
  { intros H. unfold loadDevnetAccounts. now rewrite H. }
  destruct (truthy (loadDevnetAccounts existsSync readFileSync parse)) eqn:Ht;
    [|discriminate].
  cbn [negb].
  destruct (existsSync "devnetAccounts.json") eqn:He; [|now specialize (Hfile eq_refl)].
  clear Hfile. unfold test_body.
  set (d := loadDevnetAccounts existsSync readFileSync parse) in *.
  destruct (TestMode.read d "accounts") as [accounts|e]; simpl; [|discriminate].
  destruct (TestMode.read accounts "length") as [n|e]; simpl; [|discriminate].
  destruct (TestMode.read d "tokenInfo") as [info|e]; simpl; [|discriminate].
  destruct (TestMode.read info "currency") as [c|e]; simpl; [|discriminate].
  destruct (TestMode.read info "issuer") as [i|e]; simpl; [|discriminate].
  destruct (loadBatch existsSync readFileSync parse batchTxPath) as [batchTx|e] eqn:Hb;
    simpl; [|discriminate].
  apply loadBatch_holds in Hb.
  destruct (assignAccountRoles batchTx d) as [line [r|e]] eqn:Hr; simpl; [|discriminate].
  assert (Hne : signerAccounts r <> []).
  { unfold assignAccountRoles in Hr.
    destruct (exact_matches batchTx d) as [[multi found]|e]; [|discriminate].
    injection Hr as _ Hr. revert Hr.
    match goal with
    | |- context [bind ?m _] => destruct m as [chosen|e]; simpl; [|discriminate]
    end.
    destruct (is_empty (snd chosen)) eqn:Hem; simpl; [discriminate|].
    destruct (negb (truthy (fst chosen))); [discriminate|].
    intros [= <-]. simpl. intros Hnil. rewrite Hnil in Hem. discriminate. }
  destruct (signerAccounts r) as [|account others] eqn:Hs; [contradiction|]. clear Hne.
  destruct (describe r) as [u|e]; simpl; [|discriminate].
  destruct (String.eqb_spec choice "1") as [->|H1].
  - destruct (isMultiSigner r) eqn:Hm.
    + destruct (map_result _ (account :: others)) as [seeds|e] eqn:Hseeds; simpl;
        [|discriminate].
      intros _. split; [reflexivity|]. exists batchTx, r. rewrite Hs.
      split; [exact Hb|]. split; [fold d; rewrite Hr; reflexivity|]. repeat split; auto. now apply seeds_read.
    + simpl. destruct (TestMode.read account "seed") as [s|e] eqn:Hseed; simpl;
        [|discriminate].
      intros _. split; [reflexivity|]. exists batchTx, r.
      split; [exact Hb|]. split; [fold d; rewrite Hr; reflexivity|]. repeat split; auto. exists account, others. split; [assumption|].
      now apply read_some.
  - destruct (String.eqb_spec choice "2") as [->|H2]; [|discriminate].
    destruct (isMultiSigner r) eqn:Hm.
    + destruct (map_result _ (account :: others)) as [seeds|e] eqn:Hseeds; simpl;
        [|discriminate].
      destruct (TestMode.read (parentAccount r) "seed") as [p|e] eqn:Hp; simpl;
        [|discriminate].
      intros _. split; [reflexivity|]. exists batchTx, r. rewrite Hs.
      split; [exact Hb|]. split; [fold d; rewrite Hr; reflexivity|]. repeat split; auto; [now apply read_some | now apply seeds_read].
    + simpl. destruct (TestMode.read account "seed") as [s|e] eqn:Hseed; simpl;
        [|discriminate].
      destruct (TestMode.read (parentAccount r) "seed") as [p|e] eqn:Hp; simpl;
        [|discriminate].
      intros _. split; [reflexivity|]. exists batchTx, r.
      split; [exact Hb|]. split; [fold d; rewrite Hr; reflexivity|]. repeat split; auto; [now apply read_some|]. exists account, others.
      split; [assumption|]. now apply read_some.
Qed.
(** X26. When the roles are found by exact match the test mode fails in
    one way only: a [tokenInfo] of the accounts file whose [currency]
    cannot be read ends it with a [TypeError], for every batch and answer,
    although only a printed line uses it.  Otherwise the answer decides:
    1 and 2 reach the call with the seeds of the assigned accounts, any
    other answer the line about an invalid choice. *)
Theorem test_mode_exact_match
    (devnetAccounts batchTx : value) (r : assignment) (batchTxPath choice : string) :
  holds "devnetAccounts.json" devnetAccounts ->
  holds batchTxPath batchTx ->
  assignAccountRoles batchTx devnetAccounts = (false, Ok r) ->
  runTestMode existsSync readFileSync parse batchTxPath choice =
    match get (get_opt devnetAccounts "tokenInfo") "currency" with
    | Some _ => call_for choice batchTx r
    | None => Failed (Assigning (Tool Cli.TypeError))
    end.
Proof.
  intros Hd Hb Hr. unfold runTestMode, test_body.
  rewrite (loadDevnetAccounts_holds _ Hd).
  apply loadBatch_holds in Hb.
  destruct (exact_match_readable _ _ _ Hr) as (Ht & Ha & Hl & Hs & Hne & Hp).
  rewrite Ht. cbn [negb].
  rewrite (read_defined _ _ "accounts" Ha). cbn [bind].
  rewrite (read_defined _ _ "length" Hl). cbn [bind].
  rewrite (read_defined _ _ "tokenInfo" Ha). cbn [bind].
  destruct (get (get_opt devnetAccounts "tokenInfo") "currency") as [c|] eqn:Hc.
  2:{ unfold TestMode.read at 1, assigning, Roles.read, tool, Cli.read.
      rewrite Hc. reflexivity. }
  assert (Hinfo : get (get_opt devnetAccounts "tokenInfo") "currency" <> None)
    by (rewrite Hc; discriminate).
  rewrite (read_defined _ _ "currency" Hinfo). cbn [bind].
  rewrite (read_defined _ _ "issuer" Hinfo). cbn [bind].
  rewrite Hb. cbn [bind]. rewrite Hr. cbn [snd assigning bind].
  assert (Hdesc : describe r = Ok tt).
  { unfold describe. destruct (isMultiSigner r).
    - rewrite (map_result_reads _ (fun v => get_opt v "address") "address" _
                 (fun v H => eq_trans
                    (f_equal (fun m => bind m _) (read_defined v "address" "role" H))
                    (read_defined v "address" "address" H)) Hs).
      cbn [bind]. rewrite (read_defined _ _ "address" Hp). reflexivity.
    - destruct (signerAccounts r) as [|account others]; [contradiction|].
      apply List.Forall_cons_iff in Hs. destruct Hs as [Hacc _]. cbn [nth].
      rewrite (read_defined _ _ "role" Hacc). cbn [bind].
      rewrite (read_defined _ _ "address" Hacc). cbn [bind].
      rewrite (read_defined _ _ "address" Hp). reflexivity. }
  rewrite Hdesc. cbn [bind]. unfold call_for.
  rewrite (map_result_reads _ (fun v => get_opt v "seed") "address" _
             (fun v H => read_defined v "address" "seed" H) Hs).
  rewrite (read_defined _ _ "seed" Hp).
  assert (Hfirst : TestMode.read (nth 0 (signerAccounts r) JUndefined) "seed" =
                   Ok (get_opt (nth 0 (signerAccounts r) JUndefined) "seed")).
  { destruct (signerAccounts r) as [|account others]; [contradiction|].
    apply List.Forall_cons_iff in Hs. destruct Hs as [Hacc _].
    apply (read_defined _ _ _ Hacc). }
  rewrite Hfirst.
  destruct (String.eqb choice "1"); [now destruct (isMultiSigner r)|].
  destruct (String.eqb choice "2"); [now destruct (isMultiSigner r)|].
  reflexivity.
Qed.
(** The file of accounts and the example files as [accountSetup.js]
    leaves them, and the test mode run on each example. *)
Lemma examples_loaded
    (accountsData : value) (info p1 p2 p3 : list (string * value)) (i h n : string) :
  get accountsData "accounts" = Some (JArr [JObj p1; JObj p2; JObj p3]) ->
  get accountsData "tokenInfo" = Some (JObj info) ->
  own_prop "role" p1 = JStr "issuer" -> own_prop "address" p1 = JStr i ->
  own_prop "role" p2 = JStr "existing_holder" -> own_prop "address" p2 = JStr h ->
  own_prop "role" p3 = JStr "new_holder" -> own_prop "address" p3 = JStr n ->
  Setup.updateExampleFiles accountsData =
    Ok [("examplePayment.json", Setup.examplePayment (JStr i) (JStr h) (JStr n));
        ("exampleTrustline.json",
         Setup.exampleTrustline (own_prop "currency" info) (JStr i) (JStr h) (JStr n));
        ("exampleMultiPayment.json", Setup.exampleMultiPayment (JStr i) (JStr h) (JStr n));
        ("myCustomBatch.json", Setup.myCustomBatch (JStr i) (JStr h) (JStr n))].
Proof.
  intros Hacc Hinfo Hr1 Ha1 Hr2 Ha2 Hr3 Ha3.
  unfold Setup.updateExampleFiles, Roles.read, Cli.read. rewrite Hacc, Hinfo. simpl.
  repeat (first [rewrite Hr1 | rewrite Hr2 | rewrite Hr3
                | rewrite Ha1 | rewrite Ha2 | rewrite Ha3]; simpl).
  reflexivity.
Qed.

(** X27. From the setup script to the test mode: with the accounts file
    and the four example files written by [accountSetup.js] for an issuer,
    an existing holder and a new holder of distinct addresses, the test mode
    signs the payment and the custom example with the seed of the new holder
    and submits them with the seed of the existing holder, signs the trust
    line example with the seed of the new holder and submits it with the
    seed of the issuer, and signs the multi-payment example with the seeds
    of the two holders, in this order, and submits it with the seed of the
    issuer. *)
Theorem test_mode_on_examples
    (accountsData : value) (info p1 p2 p3 : list (string * value))
    (i h n s1 s2 s3 : string) :
  get accountsData "accounts" = Some (JArr [JObj p1; JObj p2; JObj p3]) ->
  get accountsData "tokenInfo" = Some (JObj info) ->
  own_prop "role" p1 = JStr "issuer" -> own_prop "address" p1 = JStr i ->
  own_prop "seed" p1 = JStr s1 ->
  own_prop "role" p2 = JStr "existing_holder" -> own_prop "address" p2 = JStr h ->
  own_prop "seed" p2 = JStr s2 ->
  own_prop "role" p3 = JStr "new_holder" -> own_prop "address" p3 = JStr n ->
  own_prop "seed" p3 = JStr s3 ->
  i <> h -> i <> n -> h <> n ->
  holds "devnetAccounts.json" (json_value accountsData) ->
  (forall files, Setup.updateExampleFiles accountsData = Ok files ->
     Forall (fun file => holds (fst file) (json_value (snd file))) files) ->
  let run := runTestMode existsSync readFileSync parse in
  let seed s := JStr s in
  (exists batchTx, holds "examplePayment.json" batchTx /\
     run "examplePayment.json" "1" = SignatureOnly batchTx (seed s3) /\
     run "examplePayment.json" "2" = CompleteWorkflow batchTx (seed s3) (seed s2)) /\
  (exists batchTx, holds "exampleTrustline.json" batchTx /\
     run "exampleTrustline.json" "1" = SignatureOnly batchTx (seed s3) /\
     run "exampleTrustline.json" "2" = CompleteWorkflow batchTx (seed s3) (seed s1)) /\
  (exists batchTx, holds "exampleMultiPayment.json" batchTx /\
     run "exampleMultiPayment.json" "1" =
       MultipleSignatures batchTx [seed s2; seed s3] /\
     run "exampleMultiPayment.json" "2" =
       CompleteMultiWorkflow batchTx [seed s2; seed s3] (seed s1)) /\
  (exists batchTx, holds "myCustomBatch.json" batchTx /\
     run "myCustomBatch.json" "1" = SignatureOnly batchTx (seed s3) /\
     run "myCustomBatch.json" "2" = CompleteWorkflow batchTx (seed s3) (seed s2)).
Proof.
  intros Hacc Hinfo Hr1 Ha1 Hs1 Hr2 Ha2 Hs2 Hr3 Ha3 Hs3 Hih Hin Hhn Hd Hfiles run seed.
  specialize (Hfiles _ (examples_loaded _ _ _ _ _ _ _ _ Hacc Hinfo Hr1 Ha1 Hr2 Ha2 Hr3 Ha3)).
  destruct accountsData as [[| |b|x|s]|l|o]; try discriminate.
  simpl in Hacc, Hinfo. injection Hacc as Hacc. injection Hinfo as Hinfo.
  set (d := json_value (JObj o)) in *.
  assert (Hacc' : get d "accounts" =
                  Some (JArr [JObj (json_props json_value p1);
                              JObj (json_props json_value p2);
                              JObj (json_props json_value p3)])).
  { subst d. simpl. now rewrite (own_prop_json_value _ _ _ Hacc). }
  assert (Hinfo' : get (get_opt d "tokenInfo") "currency" =
                   Some (own_prop "currency" (json_props json_value info))).
  { subst d. unfold get_opt. simpl. now rewrite (own_prop_json_value _ _ _ Hinfo). }
  pose proof (example_roles d _ _ _ (own_prop "currency" info) i h n Hacc'
                (own_prop_json_value _ _ _ Ha1 eq_refl)
                (own_prop_json_value _ _ _ Ha2 eq_refl)
                (own_prop_json_value _ _ _ Ha3 eq_refl) Hih Hin Hhn)
    as (R1 & R2 & R3 & R4).
  apply List.Forall_cons_iff in Hfiles. destruct Hfiles as [F1 Hfiles].
  apply List.Forall_cons_iff in Hfiles. destruct Hfiles as [F2 Hfiles].
  apply List.Forall_cons_iff in Hfiles. destruct Hfiles as [F3 Hfiles].
  apply List.Forall_cons_iff in Hfiles. destruct Hfiles as [F4 _].
  cbn [fst snd] in F1, F2, F3, F4.
  assert (Hseed : forall p s, own_prop "seed" p = JStr s ->
            get_opt (JObj (json_props json_value p)) "seed" = JStr s).
  { intros p s Hp. unfold get_opt. simpl. now rewrite (own_prop_json_value _ _ _ Hp). }
  subst run.
  split; [|split; [|split]]; eexists; (split; [eassumption|]).
  - rewrite !(test_mode_exact_match _ _ _ _ _ Hd F1 R1), Hinfo'.
    unfold call_for. cbn [String.eqb Ascii.eqb Bool.eqb isMultiSigner signerAccounts
                            parentAccount nth List.map].
    rewrite (Hseed _ _ Hs3), (Hseed _ _ Hs2). split; reflexivity.
  - rewrite !(test_mode_exact_match _ _ _ _ _ Hd F2 R2), Hinfo'.
    unfold call_for. cbn [String.eqb Ascii.eqb Bool.eqb isMultiSigner signerAccounts
                            parentAccount nth List.map].
    rewrite (Hseed _ _ Hs3), (Hseed _ _ Hs1). split; reflexivity.
  - rewrite !(test_mode_exact_match _ _ _ _ _ Hd F3 R3), Hinfo'.
    unfold call_for. cbn [String.eqb Ascii.eqb Bool.eqb isMultiSigner signerAccounts
                            parentAccount nth List.map].
    rewrite (Hseed _ _ Hs3), (Hseed _ _ Hs2), (Hseed _ _ Hs1). split; reflexivity.
  - rewrite !(test_mode_exact_match _ _ _ _ _ Hd F4 R4), Hinfo'.
    unfold call_for. cbn [String.eqb Ascii.eqb Bool.eqb isMultiSigner signerAccounts
                            parentAccount nth List.map].
    rewrite (Hseed _ _ Hs3), (Hseed _ _ Hs2). split; reflexivity.
Qed.
(** X28. With a single test account that matches no signer and a batch
    without token transactions, [assignAccountRoles] returns [undefined]
    signers after the auto-assignment line, and the test mode ends in the
    [TypeError] of reading their [role], whatever the answer is: no signing
    function is called. *)
Theorem test_mode_single_account
    (devnetAccounts batchTx parentAddress account : value) (accounts : list value)
    (batchTxPath choice : string) :
  holds "devnetAccounts.json" devnetAccounts ->
  holds batchTxPath batchTx ->
  get devnetAccounts "accounts" = Some (JArr [account]) ->
  get (get_opt devnetAccounts "tokenInfo") "currency" <> None ->
  get batchTx "Account" = Some parentAddress ->
  Cli.inner_accounts batchTx = Ok accounts ->
  get account "address" <> None ->
  truthy account = true ->
  RolesFacts.is_signer (signer_addresses parentAddress accounts) account = false ->
  has_tokens batchTx = Ok false ->
  fst (assignAccountRoles batchTx devnetAccounts) = true /\
  (exists r, snd (assignAccountRoles batchTx devnetAccounts) = Ok r /\
             Forall (fun signer => signer = JUndefined) (signerAccounts r)) /\
  runTestMode existsSync readFileSync parse batchTxPath choice =
    Failed (Assigning (Tool Cli.TypeError)).
Proof.
  intros Hd Hb Hacc Hinfo Hp Hin Haddr Ht Hno Htok.
  assert (Hr : exists r,
            assignAccountRoles batchTx devnetAccounts = (true, Ok r) /\
            (signerAccounts r = [JUndefined] /\ isMultiSigner r = false \/
             signerAccounts r = [JUndefined; JUndefined] /\ isMultiSigner r = true) /\
            get (parentAccount r) "address" <> None).
  { assert (Hall : Forall (fun a => get a "address" <> None /\
                       RolesFacts.is_signer (signer_addresses parentAddress accounts) a
                         = false) [account])
      by (constructor; [split; assumption | constructor]).
    rewrite (positional_roles _ _ _ _ _ Hp Hin Hacc Hall Htok).
    unfold RolesFacts.matched_parent. cbn [fold_left nth].
    destruct (strict_eq (get_opt account "address") parentAddress); cbn [truthy];
      rewrite ?Ht; destruct (Nat.ltb 1 _); eexists;
      (split; [reflexivity|]); simpl; auto. }
  destruct Hr as (r & Hr & Hs & Hpar).
  rewrite Hr. split; [reflexivity|]. split.
  { exists r. split; [reflexivity|].
    destruct Hs as [[-> _]|[-> _]]; repeat constructor. }
  unfold runTestMode, test_body. rewrite (loadDevnetAccounts_holds _ Hd).
  apply loadBatch_holds in Hb.
  assert (Hobj : truthy devnetAccounts = true).
  { destruct devnetAccounts as [[| |b|x|s]|l|o]; try discriminate; try reflexivity;
      simpl in Hacc; destruct (String.eqb "accounts" "length"); discriminate. }
  rewrite Hobj. cbn [negb].
  assert (Ha : get devnetAccounts "accounts" <> None) by (rewrite Hacc; discriminate).
  rewrite (read_defined _ _ "accounts" Ha). cbn [bind].
  assert (Hl : get (get_opt devnetAccounts "accounts") "length" <> None).
  { unfold get_opt. rewrite Hacc. discriminate. }
  rewrite (read_defined _ _ "length" Hl). cbn [bind].
  rewrite (read_defined _ _ "tokenInfo" Ha). cbn [bind].
  rewrite (read_defined _ _ "currency" Hinfo). cbn [bind].
  rewrite (read_defined _ _ "issuer" Hinfo). cbn [bind].
  rewrite Hb. cbn [bind]. rewrite Hr. cbn [snd assigning bind].
  unfold describe. destruct Hs as [[-> ->]|[-> ->]]; reflexivity.
Qed.
End Files.

(** A disk with the files of [accountSetup.js]. *)
Definition disk_exists (name : string) : bool :=
  String.eqb name "devnetAccounts.json" ||
  existsb (fun file => String.eqb (fst file) name) SetupFacts.devnet_examples.

Definition disk_read (name : string) : option string := Some name.

(** The text of a file is named after the file. *)
Definition disk_parse (text : string) : option value :=
  if String.eqb text "devnetAccounts.json"
  then Some (json_value SetupFacts.devnet_file)
  else option_map (fun file => json_value (snd file))
         (find (fun file => String.eqb (fst file) text) SetupFacts.devnet_examples).

(** The same disk with a single account and the example of the command
    line tool. *)
Definition lone_exists (name : string) : bool :=
  String.eqb name "devnetAccounts.json" || String.eqb name "batch.json".

Definition lone_file : value :=
  JObj [("tokenInfo", JObj [("currency", JStr "XPN")]);
        ("accounts", JArr [RolesFacts.account_entry "issuer" "rParent"])].

Definition lone_parse (text : string) : option value :=
  if String.eqb text "devnetAccounts.json" then Some lone_file
  else if String.eqb text "batch.json" then Some CliFacts.example_batch
  else None.

Lemma test_mode_call_witness :
  disk_exists "devnetAccounts.json" = true /\
  exists batchTx r,
    holds disk_exists disk_read disk_parse "exampleMultiPayment.json" batchTx /\
    snd (assignAccountRoles batchTx (loadDevnetAccounts disk_exists disk_read disk_parse))
      = Ok r /\
    "2" = "2" /\ isMultiSigner r = true /\
    json_value
      (Setup.exampleMultiPayment (JStr "rIssuer") (JStr "rHolder") (JStr "rNew")) = batchTx /\
    get (parentAccount r) "seed" = Some (JStr "sSeed") /\
    Forall2 (fun account seed => get account "seed" = Some seed) (signerAccounts r)
      [JStr "sSeed"; JStr "sSeed"].
Proof.
  exact (test_mode_call disk_exists disk_read disk_parse "exampleMultiPayment.json" "2"
           eq_refl).
Defined.

Lemma test_mode_exact_match_witness :
  runTestMode disk_exists disk_read disk_parse "examplePayment.json" "1" =
    SignatureOnly
      (json_value
         (Setup.examplePayment (JStr "rIssuer") (JStr "rHolder") (JStr "rNew")))
      (JStr "sSeed").
Proof.
  refine (test_mode_exact_match disk_exists disk_read disk_parse
            (json_value SetupFacts.devnet_file)
            (json_value
               (Setup.examplePayment (JStr "rIssuer") (JStr "rHolder") (JStr "rNew")))
            {| signerAccounts := [RolesFacts.account_entry "new_holder" "rNew"];
               parentAccount := RolesFacts.account_entry "existing_holder" "rHolder";
               isMultiSigner := false |}
            "examplePayment.json" "1" _ _ eq_refl).
  - split; [reflexivity|]. eexists. split; reflexivity.
  - split; [reflexivity|]. eexists. split; reflexivity.
Defined.

Lemma test_mode_on_examples_witness :
  let run := runTestMode disk_exists disk_read disk_parse in
  let seed s := JStr s in
  (exists batchTx, holds disk_exists disk_read disk_parse "examplePayment.json" batchTx /\
     run "examplePayment.json" "1" = SignatureOnly batchTx (seed "sSeed") /\
     run "examplePayment.json" "2" = CompleteWorkflow batchTx (seed "sSeed") (seed "sSeed")) /\
  (exists batchTx, holds disk_exists disk_read disk_parse "exampleTrustline.json" batchTx /\
     run "exampleTrustline.json" "1" = SignatureOnly batchTx (seed "sSeed") /\
     run "exampleTrustline.json" "2" =
       CompleteWorkflow batchTx (seed "sSeed") (seed "sSeed")) /\
  (exists batchTx, holds disk_exists disk_read disk_parse "exampleMultiPayment.json" batchTx /\
     run "exampleMultiPayment.json" "1" =
       MultipleSignatures batchTx [seed "sSeed"; seed "sSeed"] /\
     run "exampleMultiPayment.json" "2" =
       CompleteMultiWorkflow batchTx [seed "sSeed"; seed "sSeed"] (seed "sSeed")) /\
  (exists batchTx, holds disk_exists disk_read disk_parse "myCustomBatch.json" batchTx /\
     run "myCustomBatch.json" "1" = SignatureOnly batchTx (seed "sSeed") /\
     run "myCustomBatch.json" "2" = CompleteWorkflow batchTx (seed "sSeed") (seed "sSeed")).
Proof.
  apply (test_mode_on_examples disk_exists disk_read disk_parse SetupFacts.devnet_file
           [("currency", JStr "XPN"); ("issuer", JStr "rIssuer")]
           [("role", JStr "issuer"); ("address", JStr "rIssuer"); ("seed", JStr "sSeed")]
           [("role", JStr "existing_holder"); ("address", JStr "rHolder");
            ("seed", JStr "sSeed")]
           [("role", JStr "new_holder"); ("address", JStr "rNew"); ("seed", JStr "sSeed")]
           "rIssuer" "rHolder" "rNew" "sSeed" "sSeed" "sSeed");
    try reflexivity; try discriminate.
  - split; [reflexivity|]. eexists. split; reflexivity.
  - intros files [= <-].
    repeat (apply List.Forall_cons;
            [split; [reflexivity | eexists; split; reflexivity]|]).
    apply List.Forall_nil.
Defined.

Lemma test_mode_single_account_witness :
  fst (assignAccountRoles CliFacts.example_batch lone_file) = true /\
  (exists r, snd (assignAccountRoles CliFacts.example_batch lone_file) = Ok r /\
             Forall (fun signer => signer = JUndefined) (signerAccounts r)) /\
  runTestMode lone_exists disk_read lone_parse "batch.json" "1" =
    Failed (Assigning (Tool Cli.TypeError)).
Proof.
  apply (test_mode_single_account lone_exists disk_read lone_parse lone_file
           CliFacts.example_batch (JStr "rParent")
           (RolesFacts.account_entry "issuer" "rParent")
           [JStr "rChild1"; JStr "rChild2"] "batch.json" "1");
    try reflexivity; try discriminate.
  - split; [reflexivity|]. eexists. split; reflexivity.
  - split; [reflexivity|]. eexists. split; reflexivity.
Defined.
End TestFacts.
